(** * observations/config.go: the metrics and tracing configuration sections

    A shallow embedding of package [observations] of ipfs-cluster
    (file [observations/config.go]) and the properties of its two
    configuration objects, [MetricsConfig] and [TracingConfig].

    The package is a thin layer over imported packages: [encoding/json],
    [envconfig], [go-multiaddr], [time], [strconv] and ipfs-cluster's own
    [config].  Those are not part of the file; what the file needs of them
    is gathered in the interface [Libs] below, and every definition and
    theorem about the package is stated for an arbitrary implementation of
    that interface.  A reference implementation, [RefLibs], runs the model
    on concrete documents. *)

From Stdlib Require Import ZArith String Ascii List Lia.
From Stdlib Require Import Floats.SpecFloat.
From stdpp Require Import base option list strings gmap.

Local Open Scope string_scope.

(** ** Go values *)

(** [error]: the values of Go's [error] interface that reach this package.
    [errors.New] (and [fmt.Errorf] without [%w], which is [errors.New] of
    the formatted text) build the first kind; the second kind stands for
    an error value made by an imported package, with its [Error()] text. *)
Inductive error : Type :=
| errors_New (text : string)
| lib_error (pkg : string) (text : string).

Definition Error (e : error) : string :=
  match e with
  | errors_New text => text
  | lib_error _ text => text
  end.

(** The result of a Go function returning [(T, error)]. *)
Inductive result (A : Type) : Type :=
| Ok (a : A)
| Err (e : error).
Arguments Ok {A} a.
Arguments Err {A} e.

(** [fmt.Sprintf] for a format with the verbs [%v] and [%s] only, each
    consuming the next argument (already rendered as text). *)
Fixpoint Sprintf (format : string) (args : list string) : string :=
  match format with
  | EmptyString => EmptyString
  | String "%" (String "v" rest) =>
      match args with
      | a :: args' => a ++ Sprintf rest args'
      | [] => "%!v(MISSING)" ++ Sprintf rest []
      end
  | String "%" (String "s" rest) =>
      match args with
      | a :: args' => a ++ Sprintf rest args'
      | [] => "%!s(MISSING)" ++ Sprintf rest []
      end
  | String c rest => String c (Sprintf rest args)
  end.

Definition fmt_Errorf (format : string) (a : error) : error :=
  errors_New (Sprintf format [Error a]).

(** [time.Duration] is an int64 count of nanoseconds. *)
Definition Duration : Type := Z.
Definition Second : Duration := 1000000000%Z.

(** [float64] is IEEE 754 binary64; [<] is the IEEE comparison, false on
    NaN. *)
Definition float64 : Type := spec_float.
Definition float64_lt (x y : float64) : bool := SFltb x y.
Definition float64_zero : float64 := S754_zero false.
Definition IsNaN (x : float64) : bool :=
  match x with S754_nan => true | _ => false end.
Definition IsInf (x : float64) : bool :=
  match x with S754_infinity _ => true | _ => false end.

(** A Go call either returns or panics. *)
Inductive outcome (A : Type) : Type :=
| Returns (a : A)
| Panics (reason : string).
Arguments Returns {A} a.
Arguments Panics {A} reason.

(** ** Methods on a pointer receiver

    A method [func (cfg *T) f(...) R] is a function from the state of the
    receiver to its result, the new state of the receiver and the lines
    sent to the package logger. *)
Record Ran (S A : Type) : Type := mkRan {
  ret : A;
  recv : S;
  logged : list string
}.
Arguments mkRan {S A} ret recv logged.
Arguments ret {S A} r.
Arguments recv {S A} r.
Arguments logged {S A} r.

Definition M (S A : Type) : Type := S -> Ran S A.

Definition M_ret {S A} (a : A) : M S A := fun s => mkRan a s [].

Definition M_bind {S A B} (f : A -> M S B) (m : M S A) : M S B :=
  fun s =>
    let r := m s in
    let r' := f (ret r) (recv r) in
    mkRan (ret r') (recv r') (logged r ++ logged r').

#[global] Instance M_MRet S : MRet (M S) := fun A => @M_ret S A.
#[global] Instance M_MBind S : MBind (M S) := fun A B => @M_bind S A B.

Definition get {S} : M S S := fun s => mkRan s s [].
Definition modify {S} (f : S -> S) : M S unit := fun s => mkRan tt (f s) [].
Definition logger_Error {S} (line : string) : M S unit :=
  fun s => mkRan tt s [line].

(** ** encoding/json: documents and struct reflection *)

(** A syntactically valid JSON document.  A number keeps its literal: it
    is converted only when stored into a field. *)
#[warnings="-register-all"]
Inductive json : Type :=
| JNull
| JBool (b : bool)
| JNumber (lit : string)
| JString (s : string)
| JArray (items : list json)
| JObject (members : list (string * json)).

(** What reflection shows of a struct field of one of the kinds used in
    this package. *)
Inductive accessor (S : Type) : Type :=
| BoolField (rd : S -> bool) (wr : bool -> S -> S)
| StringField (rd : S -> string) (wr : string -> S -> S)
| Float64Field (rd : S -> float64) (wr : float64 -> S -> S).
Arguments BoolField {S} rd wr.
Arguments StringField {S} rd wr.
Arguments Float64Field {S} rd wr.

Definition type_name {S} (a : accessor S) : string :=
  match a with
  | BoolField _ _ => "bool"
  | StringField _ _ => "string"
  | Float64Field _ _ => "float64"
  end.

(** A struct field: its Go name, its [json:"..."] tag and its accessor. *)
Record field (S : Type) : Type := mkField {
  goName : string;
  jsonTag : string;
  acc : accessor S
}.
Arguments mkField {S} goName jsonTag acc.
Arguments goName {S} f.
Arguments jsonTag {S} f.
Arguments acc {S} f.

(** [config.DurationOpt]: [Dst] holds the current value of the pointee. *)
Record DurationOpt : Type := mkDurationOpt {
  opt_Duration : string;
  opt_Dst : Duration;
  opt_Name : string
}.

(** ** The imported packages *)

Class Libs : Type := {
  (** go-multiaddr: [ma.Multiaddr] values (non-nil), [ma.NewMultiaddr] and
      the [String] method. *)
  Multiaddr : Type;
  NewMultiaddr : string -> result Multiaddr;
  Multiaddr_String : Multiaddr -> string;
  (** time: the [String] method of [time.Duration]. *)
  Duration_String : Duration -> string;
  (** strconv: [ParseBool], [ParseFloat(s, 64)], and the rendering of a
      finite float64 used by encoding/json. *)
  ParseBool : string -> result bool;
  ParseFloat : string -> result float64;
  FormatFloat : float64 -> string;
  (** encoding/json: the scanner (bytes to document, or a syntax error),
      the indenting printer, and the case-folding comparison of a key with
      a field name. *)
  json_scan : string -> result json;
  json_indent : json -> string;
  EqualFold : string -> string -> bool;
  (** ipfs-cluster/config: the embedded [config.Saver], and
      [config.ParseDurations] applied to one option; it returns its error
      and the value it leaves in [*Dst]. *)
  config_Saver : Type;
  ParseDurations : string -> DurationOpt -> option error * Duration
}.

Section Reflection.
Context `{Libs}.
Context {S : Type}.

(** The field a key of a JSON object is stored in: the field whose tag
    is the key, else the first field whose tag equals it under case
    folding. *)
Definition field_for (fields : list (field S)) (key : string)
  : option (field S) :=
  match List.find (fun f => String.eqb (jsonTag f) key) fields with
  | Some f => Some f
  | None => List.find (fun f => EqualFold (jsonTag f) key) fields
  end.

Definition json_kind (v : json) : string :=
  match v with
  | JNull => "null"
  | JBool _ => "bool"
  | JNumber lit => "number " ++ lit
  | JString _ => "string"
  | JArray _ => "array"
  | JObject _ => "object"
  end.

Definition UnmarshalTypeError (v : json) (f : field S) : error :=
  lib_error "json"
    (Sprintf "json: cannot unmarshal %s into Go struct field %s of type %s"
       [json_kind v; goName f; type_name (acc f)]).

(** Storing a JSON value into a field.  [null] leaves the field as it
    is; a value of the wrong kind, or a number out of range, leaves the
    field as it is and is reported. *)
Definition store (f : field S) (v : json) (s : S) : S * option error :=
  match v, acc f with
  | JNull, _ => (s, None)
  | JBool b, BoolField _ wr => (wr b s, None)
  | JString x, StringField _ wr => (wr x s, None)
  | JNumber lit, Float64Field _ wr =>
      match ParseFloat lit with
      | Ok x => (wr x s, None)
      | Err _ => (s, Some (UnmarshalTypeError v f))
      end
  | _, _ => (s, Some (UnmarshalTypeError v f))
  end.

(** The members of an object are stored in document order (so the last
    of a repeated key wins); keys matching no field are skipped; the
    first type error is kept and decoding goes on. *)
Fixpoint decode_members (fields : list (field S))
    (members : list (string * json)) (s : S) (saved : option error)
  : S * option error :=
  match members with
  | [] => (s, saved)
  | (key, v) :: rest =>
      match field_for fields key with
      | None => decode_members fields rest s saved
      | Some f =>
          let '(s', e) := store f v s in
          decode_members fields rest s'
            (match saved with Some _ => saved | None => e end)
      end
  end.

(** [json.Unmarshal(raw, &s)] for a struct [s] with the given fields. *)
Definition json_Unmarshal (fields : list (field S)) (raw : string) (s : S)
  : result S :=
  match json_scan raw with
  | Err e => Err e
  | Ok JNull => Ok s
  | Ok (JObject members) =>
      match decode_members fields members s None with
      | (s', None) => Ok s'
      | (_, Some e) => Err e
      end
  | Ok v =>
      Err (lib_error "json"
             ("json: cannot unmarshal " ++ json_kind v ++ " into Go value"))
  end.

(** The encoder: one member per field, in declaration order, under the
    field's tag.  NaN and the infinities are not JSON. *)
Definition encode_field (s : S) (f : field S) : result (string * json) :=
  match acc f with
  | BoolField rd _ => Ok (jsonTag f, JBool (rd s))
  | StringField rd _ => Ok (jsonTag f, JString (rd s))
  | Float64Field rd _ =>
      if IsNaN (rd s) || IsInf (rd s)
      then Err (lib_error "json" "json: unsupported value")
      else Ok (jsonTag f, JNumber (FormatFloat (rd s)))
  end.

Fixpoint encode_fields (s : S) (fields : list (field S))
  : result (list (string * json)) :=
  match fields with
  | [] => Ok []
  | f :: rest =>
      match encode_field s f with
      | Err e => Err e
      | Ok m =>
          match encode_fields s rest with
          | Err e => Err e
          | Ok ms => Ok (m :: ms)
          end
      end
  end.

(** Modelled from the spec: [config.DefaultJSONMarshal], the JSON marshal
    helper of ipfs-cluster's [config] package, is not in this file; it
    serializes the fields into the JSON shape of the struct tags, here
    with encoding/json's encoder and indenting printer. *)
Definition DefaultJSONMarshal (fields : list (field S)) (s : S)
  : result string :=
  match encode_fields s fields with
  | Err e => Err e
  | Ok members => Ok (json_indent (JObject members))
  end.
End Reflection.

(** ** envconfig *)

(** The process environment, [os.LookupEnv]. *)
Abbreviation Env := (gmap string string).

Definition upper (c : ascii) : ascii :=
  let n := nat_of_ascii c in
  if (97 <=? n)%nat && (n <=? 122)%nat then ascii_of_nat (n - 32) else c.

Fixpoint ToUpper (s : string) : string :=
  match s with
  | EmptyString => EmptyString
  | String c rest => String (upper c) (ToUpper rest)
  end.

Section Envconfig.
Context `{Libs}.
Context {S : Type}.

(** The variable bound to a field: prefix and Go field name, joined by
    an underscore, in upper case. *)
Definition env_key (prefix : string) (f : field S) : string :=
  ToUpper (Sprintf "%s_%s" [prefix; goName f]).

Definition processField (value : string) (f : field S) (s : S)
  : result S :=
  match acc f with
  | BoolField _ wr =>
      match ParseBool value with
      | Ok b => Ok (wr b s)
      | Err e => Err e
      end
  | StringField _ wr => Ok (wr value s)
  | Float64Field _ wr =>
      match ParseFloat value with
      | Ok x => Ok (wr x s)
      | Err e => Err e
      end
  end.

(** [envconfig.Process(prefix, &s)]: each field whose variable is set is
    overwritten with the parsed value of the variable; a field whose
    variable is unset is left alone; the first value that does not parse
    ends the processing with a [*ParseError]. *)
Fixpoint envconfig_Process (env : Env) (prefix : string)
    (fields : list (field S)) (s : S) : result S :=
  match fields with
  | [] => Ok s
  | f :: rest =>
      match env !! env_key prefix f with
      | None => envconfig_Process env prefix rest s
      | Some value =>
          match processField value f s with
          | Err e =>
              Err (lib_error "envconfig"
                     (Sprintf
                        "envconfig.Process: assigning %s to %s: converting '%s' to type %s. details: %s"
                        [env_key prefix f; goName f; value;
                         type_name (acc f); Error e]))
          | Ok s' => envconfig_Process env prefix rest s'
          end
      end
  end.

(** No variable of the struct's fields is set in the environment. *)
Definition no_overrides (env : Env) (prefix : string)
    (fields : list (field S)) : Prop :=
  Forall (fun f => env !! env_key prefix f = None) fields.
End Envconfig.

(** ** Package observations *)

Definition metricsConfigKey : string := "metrics".
Definition tracingConfigKey : string := "tracing".
Definition envConfigKey : string := "cluster_observations".

(** Default values for this Config. *)
Definition DefaultEnableStats : bool := false.
Definition DefaultPrometheusEndpoint : string := "/ip4/0.0.0.0/tcp/8888".
Definition DefaultStatsReportingInterval : Duration := (2 * Second)%Z.

Definition DefaultEnableTracing : bool := false.
Definition DefaultJaegerAgentEndpoint : string := "/ip4/0.0.0.0/udp/6831".
(** The constant [0.3] as a float64: the binary64 nearest to 3/10,
    [5404319552844595 * 2^-54]. *)
Definition DefaultTracingSamplingProb : float64 :=
  S754_finite false 5404319552844595 (-54).
Definition DefaultTracingServiceName : string := "cluster-daemon".

(** The value half of a Go pair [(v, err)] whose [v] is an interface:
    nil when the call failed. *)
Definition value_or_nil {A} (r : result A) : option A :=
  match r with
  | Ok a => Some a
  | Err _ => None
  end.

Definition nil_dereference : string :=
  "runtime error: invalid memory address or nil pointer dereference".

Module jsonMetricsConfig.
Record t : Type := mk {
  EnableStats : bool;
  PrometheusEndpoint : string;
  StatsReportingInterval : string
}.

Definition zero : t := mk false "" "".

Definition set_EnableStats (v : bool) (j : t) : t :=
  mk v (PrometheusEndpoint j) (StatsReportingInterval j).
Definition set_PrometheusEndpoint (v : string) (j : t) : t :=
  mk (EnableStats j) v (StatsReportingInterval j).
Definition set_StatsReportingInterval (v : string) (j : t) : t :=
  mk (EnableStats j) (PrometheusEndpoint j) v.

(** The struct declaration, with its tags. *)
Definition fields : list (field t) :=
  [ mkField "EnableStats" "enable_stats"
      (BoolField EnableStats set_EnableStats);
    mkField "PrometheusEndpoint" "prometheus_endpoint"
      (StringField PrometheusEndpoint set_PrometheusEndpoint);
    mkField "StatsReportingInterval" "reporting_interval"
      (StringField StatsReportingInterval set_StatsReportingInterval) ].
End jsonMetricsConfig.

Module MetricsConfig.
Section WithLibs.
Context `{Libs}.

(** MetricsConfig configures metrics collection. *)
Record t : Type := mk {
  Saver : config_Saver;
  EnableStats : bool;
  PrometheusEndpoint : option Multiaddr;
  StatsReportingInterval : Duration
}.

Definition set_EnableStats (v : bool) (cfg : t) : t :=
  mk (Saver cfg) v (PrometheusEndpoint cfg) (StatsReportingInterval cfg).
Definition set_PrometheusEndpoint (v : option Multiaddr) (cfg : t) : t :=
  mk (Saver cfg) (EnableStats cfg) v (StatsReportingInterval cfg).
Definition set_StatsReportingInterval (v : Duration) (cfg : t) : t :=
  mk (Saver cfg) (EnableStats cfg) (PrometheusEndpoint cfg) v.

(** ConfigKey provides a human-friendly identifier for this type of
    Config. *)
Definition ConfigKey : M t string :=
  mret metricsConfigKey.

(** Default sets the fields of this Config to sensible values. *)
Definition Default : M t (option error) :=
  modify (set_EnableStats DefaultEnableStats) ;;
  let endpointAddr := value_or_nil (NewMultiaddr DefaultPrometheusEndpoint) in
  modify (set_PrometheusEndpoint endpointAddr) ;;
  modify (set_StatsReportingInterval DefaultStatsReportingInterval) ;;
  mret None.

(** Validate checks that the fields of this Config have working values,
    at least in appearance. *)
Definition Validate : M t (option error) :=
  cfg ← get;
  if EnableStats cfg then
    match PrometheusEndpoint cfg with
    | None =>
        mret (Some (errors_New "metrics.prometheus_endpoint is undefined"))
    | Some _ =>
        if (StatsReportingInterval cfg <? 0)%Z then
          mret (Some (errors_New "metrics.reporting_interval is invalid"))
        else mret None
    end
  else mret None.

Definition loadMetricsOptions (jcfg : jsonMetricsConfig.t)
  : M t (option error) :=
  modify (set_EnableStats (jsonMetricsConfig.EnableStats jcfg)) ;;
  match NewMultiaddr (jsonMetricsConfig.PrometheusEndpoint jcfg) with
  | Err err =>
      mret (Some (fmt_Errorf
                    "loadMetricsOptions: PrometheusEndpoint multiaddr: %v"
                    err))
  | Ok endpointAddr =>
      modify (set_PrometheusEndpoint (Some endpointAddr)) ;;
      cfg ← get;
      let '(err, dst) :=
        ParseDurations metricsConfigKey
          {| opt_Duration := jsonMetricsConfig.StatsReportingInterval jcfg;
             opt_Dst := StatsReportingInterval cfg;
             opt_Name := "metrics.reporting_interval" |} in
      modify (set_StatsReportingInterval dst) ;;
      mret err
  end.

(** LoadJSON sets the fields of this Config to the values defined by
    the JSON representation of it, as generated by ToJSON. *)
Definition LoadJSON (env : Env) (raw : string) : M t (option error) :=
  match json_Unmarshal jsonMetricsConfig.fields raw jsonMetricsConfig.zero with
  | Err err =>
      logger_Error "Error unmarshaling observations config" ;;
      mret (Some err)
  | Ok jcfg =>
      Default ;;
      (* override json config with env var *)
      match envconfig_Process env envConfigKey jsonMetricsConfig.fields jcfg with
      | Err err => mret (Some err)
      | Ok jcfg =>
          err ← loadMetricsOptions jcfg;
          match err with
          | Some err => mret (Some err)
          | None => Validate
          end
      end
  end.

(** ToJSON generates a human-friendly JSON representation of this
    Config. *)
Definition ToJSON : M t (outcome (result string)) :=
  cfg ← get;
  match PrometheusEndpoint cfg with
  | None => mret (Panics nil_dereference)
  | Some endpoint =>
      let jcfg :=
        {| jsonMetricsConfig.EnableStats := EnableStats cfg;
           jsonMetricsConfig.PrometheusEndpoint := Multiaddr_String endpoint;
           jsonMetricsConfig.StatsReportingInterval :=
             Duration_String (StatsReportingInterval cfg) |} in
      mret (Returns (DefaultJSONMarshal jsonMetricsConfig.fields jcfg))
  end.
End WithLibs.
End MetricsConfig.

Module jsonTracingConfig.
Record t : Type := mk {
  EnableTracing : bool;
  JaegerAgentEndpoint : string;
  TracingSamplingProb : float64;
  TracingServiceName : string
}.

Definition zero : t := mk false "" float64_zero "".

Definition set_EnableTracing (v : bool) (j : t) : t :=
  mk v (JaegerAgentEndpoint j) (TracingSamplingProb j) (TracingServiceName j).
Definition set_JaegerAgentEndpoint (v : string) (j : t) : t :=
  mk (EnableTracing j) v (TracingSamplingProb j) (TracingServiceName j).
Definition set_TracingSamplingProb (v : float64) (j : t) : t :=
  mk (EnableTracing j) (JaegerAgentEndpoint j) v (TracingServiceName j).
Definition set_TracingServiceName (v : string) (j : t) : t :=
  mk (EnableTracing j) (JaegerAgentEndpoint j) (TracingSamplingProb j) v.

(** The struct declaration, with its tags. *)
Definition fields : list (field t) :=
  [ mkField "EnableTracing" "enable_tracing"
      (BoolField EnableTracing set_EnableTracing);
    mkField "JaegerAgentEndpoint" "jaeger_agent_endpoint"
      (StringField JaegerAgentEndpoint set_JaegerAgentEndpoint);
    mkField "TracingSamplingProb" "sampling_prob"
      (Float64Field TracingSamplingProb set_TracingSamplingProb);
    mkField "TracingServiceName" "service_name"
      (StringField TracingServiceName set_TracingServiceName) ].
End jsonTracingConfig.

Module TracingConfig.
Section WithLibs.
Context `{Libs}.

(** TracingConfig configures tracing. *)
Record t : Type := mk {
  Saver : config_Saver;
  EnableTracing : bool;
  JaegerAgentEndpoint : option Multiaddr;
  TracingSamplingProb : float64;
  TracingServiceName : string
}.

Definition set_EnableTracing (v : bool) (cfg : t) : t :=
  mk (Saver cfg) v (JaegerAgentEndpoint cfg) (TracingSamplingProb cfg)
     (TracingServiceName cfg).
Definition set_JaegerAgentEndpoint (v : option Multiaddr) (cfg : t) : t :=
  mk (Saver cfg) (EnableTracing cfg) v (TracingSamplingProb cfg)
     (TracingServiceName cfg).
Definition set_TracingSamplingProb (v : float64) (cfg : t) : t :=
  mk (Saver cfg) (EnableTracing cfg) (JaegerAgentEndpoint cfg) v
     (TracingServiceName cfg).
Definition set_TracingServiceName (v : string) (cfg : t) : t :=
  mk (Saver cfg) (EnableTracing cfg) (JaegerAgentEndpoint cfg)
     (TracingSamplingProb cfg) v.

(** ConfigKey provides a human-friendly identifier for this type of
    Config. *)
Definition ConfigKey : M t string :=
  mret tracingConfigKey.

(** Default sets the fields of this Config to sensible values. *)
Definition Default : M t (option error) :=
  modify (set_EnableTracing DefaultEnableTracing) ;;
  let agentAddr := value_or_nil (NewMultiaddr DefaultJaegerAgentEndpoint) in
  modify (set_JaegerAgentEndpoint agentAddr) ;;
  modify (set_TracingSamplingProb DefaultTracingSamplingProb) ;;
  modify (set_TracingServiceName DefaultTracingServiceName) ;;
  mret None.

(** Validate checks that the fields of this Config have working values,
    at least in appearance. *)
Definition Validate : M t (option error) :=
  cfg ← get;
  if EnableTracing cfg then
    match JaegerAgentEndpoint cfg with
    | None =>
        mret (Some (errors_New "tracing.jaeger_agent_endpoint is undefined"))
    | Some _ =>
        if float64_lt (TracingSamplingProb cfg) float64_zero then
          mret (Some (errors_New "tracing.sampling_prob is invalid"))
        else mret None
    end
  else mret None.

Definition loadTracingOptions (jcfg : jsonTracingConfig.t)
  : M t (option error) :=
  modify (set_EnableTracing (jsonTracingConfig.EnableTracing jcfg)) ;;
  match NewMultiaddr (jsonTracingConfig.JaegerAgentEndpoint jcfg) with
  | Err err =>
      mret (Some (fmt_Errorf
                    "loadTracingOptions: JaegerAgentEndpoint multiaddr: %v"
                    err))
  | Ok agentAddr =>
      modify (set_JaegerAgentEndpoint (Some agentAddr)) ;;
      modify (set_TracingSamplingProb
                (jsonTracingConfig.TracingSamplingProb jcfg)) ;;
      modify (set_TracingServiceName
                (jsonTracingConfig.TracingServiceName jcfg)) ;;
      mret None
  end.

(** LoadJSON sets the fields of this Config to the values defined by
    the JSON representation of it, as generated by ToJSON. *)
Definition LoadJSON (env : Env) (raw : string) : M t (option error) :=
  match json_Unmarshal jsonTracingConfig.fields raw jsonTracingConfig.zero with
  | Err err =>
      logger_Error "Error unmarshaling observations config" ;;
      mret (Some err)
  | Ok jcfg =>
      Default ;;
      (* override json config with env var *)
      match envconfig_Process env envConfigKey jsonTracingConfig.fields jcfg with
      | Err err => mret (Some err)
      | Ok jcfg =>
          err ← loadTracingOptions jcfg;
          match err with
          | Some err => mret (Some err)
          | None => Validate
          end
      end
  end.

(** ToJSON generates a human-friendly JSON representation of this
    Config. *)
Definition ToJSON : M t (outcome (result string)) :=
  cfg ← get;
  match JaegerAgentEndpoint cfg with
  | None => mret (Panics nil_dereference)
  | Some endpoint =>
      let jcfg :=
        {| jsonTracingConfig.EnableTracing := EnableTracing cfg;
           jsonTracingConfig.JaegerAgentEndpoint := Multiaddr_String endpoint;
           jsonTracingConfig.TracingSamplingProb := TracingSamplingProb cfg;
           jsonTracingConfig.TracingServiceName := TracingServiceName cfg |} in
      mret (Returns (DefaultJSONMarshal jsonTracingConfig.fields jcfg))
  end.
End WithLibs.
End TracingConfig.

(** ** A reference implementation of the imported packages

    An executable instance of [Libs], written after the packages' own
    algorithms, on which the model runs on concrete documents.  It covers
    the multiaddr protocols [ip4], [tcp] and [udp], decimal (not
    hexadecimal) float literals, and compares keys by ASCII case folding;
    bytes above 127 in JSON strings are copied as they are. *)
Module Ref.

Local Open Scope Z_scope.

(** *** Text helpers *)

Definition is_digit (c : ascii) : bool :=
  let n := nat_of_ascii c in (48 <=? n)%nat && (n <=? 57)%nat.

Definition digit_val (c : ascii) : Z := Z.of_nat (nat_of_ascii c) - 48.

Definition digit_char (d : Z) : ascii := ascii_of_nat (Z.to_nat (d + 48)).

(** The decimal digits of [v >= 0], most significant first. *)
Fixpoint fmtInt_go (fuel : nat) (v : Z) (tail : string) : string :=
  match fuel with
  | O => tail
  | S fuel' =>
      let tail' := String (digit_char (v mod 10)) tail in
      if v / 10 =? 0 then tail' else fmtInt_go fuel' (v / 10) tail'
  end.

Definition fmtInt (v : Z) : string :=
  fmtInt_go (S (Z.to_nat (Z.log2 v))) v "".

(** The longest prefix of digits, and what follows it. *)
Fixpoint span_digits (s : string) : string * string :=
  match s with
  | String c rest =>
      if is_digit c
      then let '(ds, rem) := span_digits rest in (String c ds, rem)
      else ("", s)
  | EmptyString => ("", "")
  end.

Fixpoint digits_value (ds : string) (x : Z) : Z :=
  match ds with
  | String c rest => digits_value rest (x * 10 + digit_val c)
  | EmptyString => x
  end.

(** [strings.Split(s, sep)] for a one-byte separator. *)
Fixpoint Split (s : string) (sep : ascii) : list string :=
  match s with
  | EmptyString => [""%string]
  | String c rest =>
      if Ascii.eqb c sep then ""%string :: Split rest sep
      else match Split rest sep with
           | p :: ps => String c p :: ps
           | [] => [String c ""]
           end
  end.

(** [strings.TrimRight(s, "/")]. *)
Fixpoint TrimRight_slash (s : string) : string :=
  match s with
  | EmptyString => EmptyString
  | String c rest =>
      match TrimRight_slash rest with
      | EmptyString => if Ascii.eqb c "/" then EmptyString else String c ""
      | rest' => String c rest'
      end
  end.

(** [strconv.Atoi]: an optional sign and decimal digits. *)
Definition Atoi (s : string) : option Z :=
  let '(neg, body) :=
    match s with
    | String "-" r => (true, r)
    | String "+" r => (false, r)
    | _ => (false, s)
    end in
  match span_digits body with
  | (String c ds, EmptyString) =>
      let v := digits_value (String c ds) 0 in
      Some (if neg then - v else v)
  | _ => None
  end.

(** *** go-multiaddr, for the protocols ip4, tcp and udp *)

Inductive component : Type :=
| ip4 (a b c d : Z)
| tcp (port : Z)
| udp (port : Z).

(** One field of a dotted quad: one to three digits, no leading zero,
    at most 255. *)
Definition octet (s : string) : option Z :=
  match span_digits s with
  | (String c ds, EmptyString) =>
      let v := digits_value (String c ds) 0 in
      if ((String.length ds <=? 2)%nat
          && (negb (Ascii.eqb c "0") || (String.length ds =? 0)%nat)
          && (v <=? 255))%bool
      then Some v else None
  | _ => None
  end.

Definition ParseIP4 (s : string) : option component :=
  match Split s "." with
  | [a; b; c; d] =>
      match octet a, octet b, octet c, octet d with
      | Some a, Some b, Some c, Some d => Some (ip4 a b c d)
      | _, _, _, _ => None
      end
  | _ => None
  end.

Definition port (s : string) : option Z :=
  match Atoi s with
  | Some i => if (0 <=? i) && (i <? 65536) then Some i else None
  | None => None
  end.

Definition ma_error (s : string) (why : string) : error :=
  lib_error "multiaddr"
    (Sprintf "failed to parse multiaddr %v: %v" [s; why])%string.

(** The loop of [stringToBytes] over the parts between slashes. *)
Fixpoint components (fuel : nat) (s : string) (sp : list string)
  : result (list component) :=
  match fuel, sp with
  | _, [] => Ok []
  | O, _ => Err (ma_error s "too long")
  | S fuel', name :: sp' =>
      let value (parse : string -> option component) :=
        match sp' with
        | [] => Err (ma_error s ("unexpected end of multiaddr"))
        | v :: sp'' =>
            match parse v with
            | None =>
                Err (ma_error s
                       (Sprintf "invalid value %v for protocol %v"
                          [v; name]))
            | Some c =>
                match components fuel' s sp'' with
                | Ok cs => Ok (c :: cs)
                | Err e => Err e
                end
            end
        end in
      if String.eqb name "ip4" then value ParseIP4
      else if String.eqb name "tcp" then
        value (fun v => option_map tcp (port v))
      else if String.eqb name "udp" then
        value (fun v => option_map udp (port v))
      else Err (ma_error s (Sprintf "unknown protocol %v" [name]))
  end.

Definition NewMultiaddr (s : string) : result (list component) :=
  let sp := Split (TrimRight_slash s) "/" in
  match sp with
  | EmptyString :: [] => Err (ma_error s "empty multiaddr")
  | EmptyString :: sp' => components (List.length sp') s sp'
  | _ => Err (ma_error s "must begin with /")
  end.

Definition component_String (c : component) : string :=
  match c with
  | ip4 a b c d =>
      "/ip4/" ++ fmtInt a ++ "." ++ fmtInt b ++ "." ++ fmtInt c ++ "."
        ++ fmtInt d
  | tcp p => "/tcp/" ++ fmtInt p
  | udp p => "/udp/" ++ fmtInt p
  end%string.

Definition Multiaddr_String (m : list component) : string :=
  List.fold_right (fun c out => (component_String c ++ out)%string)
    ""%string m.

(** *** binary64 arithmetic *)

Definition prec : Z := 53.
Definition emax : Z := 1024.

(** The float64 nearest to [m * 2^e] (ties to even). *)
Definition float64_of (m e : Z) : float64 :=
  binary_normalize prec emax m e false.

(** The conversion [uint64(x)] of a non-negative finite float64. *)
Definition to_uint64 (x : float64) : Z :=
  match x with
  | S754_finite false m e =>
      if 0 <=? e then Z.pos m * 2 ^ e else Z.pos m / 2 ^ (- e)
  | _ => 0
  end.

(** *** time: Duration.String and ParseDuration *)

Definition Nanosecond : Z := 1.
Definition Microsecond : Z := 1000 * Nanosecond.
Definition Millisecond : Z := 1000 * Microsecond.
Definition Minute : Z := 60 * Second.
Definition Hour : Z := 60 * Minute.

(** The micro sign U+00B5 and the Greek mu U+03BC, in UTF-8. *)
Definition micro : string :=
  String (ascii_of_nat 194) (String (ascii_of_nat 181) "").
Definition mu : string :=
  String (ascii_of_nat 206) (String (ascii_of_nat 188) "").

(** [fmtFrac]: the fraction of [v / 10^prec] without trailing zeros
    (and without the point when it is zero), and [v / 10^prec]. *)
Fixpoint fmtFrac (prec : nat) (v : Z) (print : bool) (tail : string)
  : string * Z :=
  match prec with
  | O => ((if print then String "." tail else tail), v)
  | S prec' =>
      let digit := v mod 10 in
      let print := print || negb (digit =? 0) in
      fmtFrac prec' (v / 10) print
        (if print then String (digit_char digit) tail else tail)
  end.

Definition Duration_String (d : Duration) : string :=
  let u := Z.abs d in
  let sign := if d <? 0 then "-"%string else ""%string in
  if u <? Second then
    if u =? 0 then "0s"%string
    else
      let '(prec, unit) :=
        if u <? Microsecond then (0%nat, "ns"%string)
        else if u <? Millisecond then (3%nat, (micro ++ "s")%string)
        else (6%nat, "ms"%string) in
      let '(frac, u) := fmtFrac prec u false unit in
      (sign ++ fmtInt u ++ frac)%string
  else
    let '(frac, u) := fmtFrac 9 u false "s" in
    (* u is now integer seconds *)
    let secs := (fmtInt (u mod 60) ++ frac)%string in
    let u := u / 60 in
    (* u is now integer minutes *)
    if 0 <? u then
      let mins := (fmtInt (u mod 60) ++ "m" ++ secs)%string in
      let u := u / 60 in
      (* u is now integer hours *)
      if 0 <? u then (sign ++ fmtInt u ++ "h" ++ mins)%string
      else (sign ++ mins)%string
    else (sign ++ secs)%string.

Definition unitMap (u : string) : option Z :=
  if String.eqb u "ns" then Some Nanosecond
  else if String.eqb u "us" then Some Microsecond
  else if String.eqb u (micro ++ "s") then Some Microsecond
  else if String.eqb u (mu ++ "s") then Some Microsecond
  else if String.eqb u "ms" then Some Millisecond
  else if String.eqb u "s" then Some Second
  else if String.eqb u "m" then Some Minute
  else if String.eqb u "h" then Some Hour
  else None.

(** [leadingInt]: the leading digits as a uint64; [None] on overflow. *)
Fixpoint leadingInt (s : string) (x : Z) : option (Z * string) :=
  match s with
  | String c rest =>
      if is_digit c then
        if 2 ^ 63 / 10 <? x then None
        else
          let x := x * 10 + digit_val c in
          if 2 ^ 63 <? x then None else leadingInt rest x
      else Some (x, s)
  | EmptyString => Some (x, ""%string)
  end.

(** [leadingFraction]: the leading digits as a uint64 and the power of
    ten they are to be divided by; digits past the precision of a uint64
    are dropped. *)
Fixpoint leadingFraction (s : string) (x : Z) (scale : float64)
    (overflow : bool) : Z * float64 * string :=
  match s with
  | String c rest =>
      if is_digit c then
        if overflow then leadingFraction rest x scale overflow
        else if (2 ^ 63 - 1) / 10 <? x then
          leadingFraction rest x scale true
        else
          let y := x * 10 + digit_val c in
          if 2 ^ 63 <? y then leadingFraction rest x scale true
          else
            leadingFraction rest y
              (SFmul prec emax scale (float64_of 10 0)) overflow
      else (x, scale, s)
  | EmptyString => (x, scale, ""%string)
  end.

(** The unit: everything up to the next point or digit. *)
Fixpoint span_unit (s : string) : string * string :=
  match s with
  | String c rest =>
      if Ascii.eqb c "." || is_digit c then (""%string, s)
      else let '(u, rem) := span_unit rest in (String c u, rem)
  | EmptyString => (""%string, ""%string)
  end.

Definition time_error (why orig : string) : error :=
  lib_error "time" (Sprintf "time: %v %v" [why; orig])%string.

(** The loop of [ParseDuration] over the groups "digits, an optional
    point and digits, a unit", adding up [d] as a uint64. *)
Fixpoint ParseDuration_groups (fuel : nat) (orig s : string) (d : Z)
  : result Z :=
  match s, fuel with
  | EmptyString, _ => Ok d
  | _, O => Err (time_error "invalid duration" orig)
  | String c0 _, S fuel' =>
      let invalid := Err (time_error "invalid duration" orig) in
      (* The next character must be a digit or a point. *)
      if negb (Ascii.eqb c0 "." || is_digit c0) then invalid
      else
        (* Consume the digits before the point. *)
        match leadingInt s 0 with
        | None => invalid
        | Some (v, s1) =>
            let pre := negb (String.length s =? String.length s1)%nat in
            (* Consume the point and the digits after it. *)
            let '(f, scale, s2, post) :=
              match s1 with
              | String "." s1' =>
                  let '(f, scale, s2) :=
                    leadingFraction s1' 0 (float64_of 1 0) false in
                  (f, scale, s2,
                   negb (String.length s1' =? String.length s2)%nat)
              | _ => (0, float64_of 1 0, s1, false)
              end in
            if negb pre && negb post then invalid
            else
              (* Consume unit. *)
              let '(u, s3) := span_unit s2 in
              if (String.length u =? 0)%nat then
                Err (time_error "missing unit in duration" orig)
              else
                match unitMap u with
                | None =>
                    Err (time_error
                           (Sprintf "unknown unit %v in duration" [u]) orig)
                | Some unit =>
                    if 2 ^ 63 / unit <? v then invalid
                    else
                      let v := v * unit in
                      let v :=
                        if 0 <? f then
                          (v + to_uint64
                                 (SFmul prec emax (float64_of f 0)
                                    (SFdiv prec emax (float64_of unit 0)
                                       scale))) mod 2 ^ 64
                        else v in
                      if (0 <? f) && (2 ^ 63 <? v) then invalid
                      else
                        let d := (d + v) mod 2 ^ 64 in
                        if 2 ^ 63 <? d then invalid
                        else ParseDuration_groups fuel' orig s3 d
                end
        end
  end.

Definition ParseDuration (s : string) : result Duration :=
  let orig := s in
  (* Consume the sign. *)
  let '(neg, s) :=
    match s with
    | String "-" r => (true, r)
    | String "+" r => (false, r)
    | _ => (false, s)
    end in
  (* Special case: if all that is left is "0", this is zero. *)
  if String.eqb s "0" then Ok 0
  else if String.eqb s "" then Err (time_error "invalid duration" orig)
  else
    match ParseDuration_groups (String.length s) orig s 0 with
    | Err e => Err e
    | Ok d =>
        if neg then Ok (- d)
        else if 2 ^ 63 - 1 <? d then Err (time_error "invalid duration" orig)
        else Ok d
    end.

(** Modelled from the spec: [config.ParseDurations] is not in this file;
    it parses the interval string into a duration and stores it in
    [*Dst], failing if the string is malformed. *)
Definition ParseDurations (component : string) (opt : DurationOpt)
  : option error * Duration :=
  match ParseDuration (opt_Duration opt) with
  | Ok t => (None, t)
  | Err err => (Some err, opt_Dst opt)
  end.

(** *** strconv: ParseBool, ParseFloat, and the float64 of encoding/json *)

Definition ParseBool (str : string) : result bool :=
  if List.existsb (String.eqb str) ["1"; "t"; "T"; "true"; "TRUE"; "True"]%string
  then Ok true
  else if List.existsb (String.eqb str)
            ["0"; "f"; "F"; "false"; "FALSE"; "False"]%string
  then Ok false
  else Err (lib_error "strconv"
              (Sprintf "strconv.ParseBool: parsing %v: invalid syntax" [str])).

(** The float64 nearest to [d * 10^e] for [d >= 0], by exact integer
    arithmetic: the quotient is taken with more bits than the format
    keeps and one sticky bit for the remainder. *)
Definition decimal_to_float64 (neg : bool) (d e : Z) : float64 :=
  if d =? 0 then S754_zero neg
  else if 400 <? e + Z.log2 d then S754_infinity neg
  else if e + Z.log2 d <? -1200 then S754_zero neg
  else
    let x :=
      if 0 <=? e then float64_of (d * 10 ^ e) 0
      else
        let den := 10 ^ (- e) in
        let k := Z.max 0 (Z.log2 den - Z.log2 d + 66) in
        let q := (d * 2 ^ k) / den in
        let sticky := if (d * 2 ^ k) mod den =? 0 then 0 else 1 in
        float64_of (2 * q + sticky) (- (k + 1)) in
    if neg then SFopp x else x.

Definition lower (c : ascii) : ascii :=
  let n := nat_of_ascii c in
  if (65 <=? n)%nat && (n <=? 90)%nat then ascii_of_nat (n + 32) else c.

Fixpoint ToLower (s : string) : string :=
  match s with
  | EmptyString => EmptyString
  | String c rest => String (lower c) (ToLower rest)
  end.

Definition syntax_error (fn s : string) : error :=
  lib_error "strconv"
    (Sprintf "strconv.%v: parsing %v: invalid syntax" [fn; s])%string.

Definition range_error (fn s : string) : error :=
  lib_error "strconv"
    (Sprintf "strconv.%v: parsing %v: value out of range" [fn; s])%string.

(** [strconv.ParseFloat(s, 64)] on decimal literals: a sign, digits with
    an optional point, an optional exponent; or an infinity or NaN by
    name. *)
Definition ParseFloat (s : string) : result float64 :=
  let '(neg, signed, body) :=
    match s with
    | String "-" r => (true, true, r)
    | String "+" r => (false, true, r)
    | _ => (false, false, s)
    end in
  let name := ToLower body in
  if String.eqb name "inf" || String.eqb name "infinity"
  then Ok (S754_infinity neg)
  else if String.eqb name "nan" && negb signed then Ok S754_nan
  else
    let '(ip, r1) := span_digits body in
    let '(fp, r2) :=
      match r1 with
      | String "." r => span_digits r
      | _ => (""%string, r1)
      end in
    if (String.length ip + String.length fp =? 0)%nat
    then Err (syntax_error "ParseFloat" s)
    else
      let exponent :=
        match r2 with
        | EmptyString => Some 0
        | String c r =>
            if Ascii.eqb c "e" || Ascii.eqb c "E" then
              let '(eneg, r) :=
                match r with
                | String "-" r' => (true, r')
                | String "+" r' => (false, r')
                | _ => (false, r)
                end in
              match span_digits r with
              | (String c ds, EmptyString) =>
                  (* an exponent beyond any float64 is as good as 10000 *)
                  let v :=
                    if (5 <? String.length ds)%nat then 100000
                    else digits_value (String c ds) 0 in
                  Some (if eneg then - v else v)
              | _ => None
              end
            else None
        end in
      match exponent with
      | None => Err (syntax_error "ParseFloat" s)
      | Some ex =>
          let d := digits_value (ip ++ fp) 0 in
          let x :=
            decimal_to_float64 neg d (ex - Z.of_nat (String.length fp)) in
          if IsInf x then Err (range_error "ParseFloat" s) else Ok x
      end.

(** Whether [10^p <= num / den]. *)
Definition ge_pow10 (num den p : Z) : bool :=
  if 0 <=? p then den * 10 ^ p <=? num else den <=? num * 10 ^ (- p).

Fixpoint first_pow10_above (fuel : nat) (num den p : Z) : Z :=
  match fuel with
  | O => p
  | S fuel' =>
      if ge_pow10 num den p then first_pow10_above fuel' num den (p + 1)
      else p
  end.

(** The decimal point of [num / den > 0]: the [p] with
    [10^(p-1) <= num / den < 10^p]. *)
Definition decimal_point (num den : Z) : Z :=
  let est := (Z.log2 num - Z.log2 den) * 30103 / 100000 in
  first_pow10_above 8 num den (est - 2).

(** [num / den] rounded to [n] significant digits (ties to even): the
    digits as an integer, and the decimal point. *)
Definition round_digits (num den : Z) (n : Z) : Z * Z :=
  let p := decimal_point num den in
  let '(N, D) :=
    if 0 <=? p - n then (num, den * 10 ^ (p - n))
    else (num * 10 ^ (n - p), den) in
  let q := N / D in
  let r := N mod D in
  let q := if (D <? 2 * r) || ((2 * r =? D) && Z.odd q) then q + 1 else q in
  if q =? 10 ^ n then (10 ^ (n - 1), p + 1) else (q, p).

Definition same_float64 (x y : float64) : bool :=
  match x, y with
  | S754_finite sx mx ex, S754_finite sy my ey =>
      Bool.eqb sx sy && Pos.eqb mx my && (ex =? ey)
  | S754_zero sx, S754_zero sy => Bool.eqb sx sy
  | S754_infinity sx, S754_infinity sy => Bool.eqb sx sy
  | S754_nan, S754_nan => true
  | _, _ => false
  end.

(** The shortest digits that parse back to the positive float64
    [m * 2^e], looked for among its roundings to 1, 2, ... 17 digits. *)
Fixpoint shortest (fuel : nat) (m : positive) (e : Z) (n : Z) : Z * Z :=
  let num := if 0 <=? e then Z.pos m * 2 ^ e else Z.pos m in
  let den := if 0 <=? e then 1 else 2 ^ (- e) in
  let '(q, p) := round_digits num den n in
  match fuel with
  | O => (q, p)
  | S fuel' =>
      if same_float64 (decimal_to_float64 false q (p - n))
           (S754_finite false m e)
      then (q, p)
      else shortest fuel' m e (n + 1)
  end.

Fixpoint zeros (n : nat) : string :=
  match n with
  | O => ""%string
  | S n' => String "0" (zeros n')
  end.

Fixpoint take (n : nat) (s : string) : string :=
  match n, s with
  | S n', String c rest => String c (take n' rest)
  | _, _ => ""%string
  end.

Fixpoint drop (n : nat) (s : string) : string :=
  match n, s with
  | S n', String c rest => drop n' rest
  | _, _ => s
  end.

(** Format ['f'] with the shortest digits. *)
Definition fmtF (digs : string) (dp : Z) : string :=
  let n := Z.of_nat (String.length digs) in
  if dp <=? 0 then ("0." ++ zeros (Z.to_nat (- dp)) ++ digs)%string
  else if n <=? dp then (digs ++ zeros (Z.to_nat (dp - n)))%string
  else (take (Z.to_nat dp) digs ++ "." ++ drop (Z.to_nat dp) digs)%string.

(** Format ['e'] with the shortest digits, the exponent without a
    leading zero (encoding/json turns [e-09] into [e-9]). *)
Definition fmtE (digs : string) (dp : Z) : string :=
  let ex := dp - 1 in
  (take 1 digs
     ++ (if (1 <? String.length digs)%nat then "." ++ drop 1 digs else "")
     ++ "e" ++ (if (ex <? 0)%Z then "-" else "+") ++ fmtInt (Z.abs ex))%string.

Fixpoint strip_zeros (fuel : nat) (q : Z) : Z :=
  match fuel with
  | O => q
  | S fuel' => if (q mod 10 =? 0) && (0 <? q) then strip_zeros fuel' (q / 10) else q
  end.

(** A finite float64 as encoding/json writes it. *)
Definition FormatFloat (x : float64) : string :=
  match x with
  | S754_zero s => if s then "-0"%string else "0"%string
  | S754_finite s m e =>
      let '(q, dp) := shortest 16 m e 1 in
      let digs := fmtInt (strip_zeros 17 q) in
      let a := S754_finite false m e in
      let text :=
        if SFltb a (decimal_to_float64 false 1 (-6))
           || negb (SFltb a (decimal_to_float64 false 1 21))
        then fmtE digs dp else fmtF digs dp in
      ((if s then "-" else "") ++ text)%string
  | S754_infinity s => if s then "-Inf"%string else "+Inf"%string
  | S754_nan => "NaN"%string
  end.

(** *** encoding/json: the scanner and the indenting printer *)

Definition json_syntax_error (why : string) : error :=
  lib_error "json" ("json: " ++ why)%string.

Definition is_space (c : ascii) : bool :=
  let n := nat_of_ascii c in
  (n =? 32)%nat || (n =? 9)%nat || (n =? 13)%nat || (n =? 10)%nat.

Fixpoint skip_ws (s : string) : string :=
  match s with
  | String c rest => if is_space c then skip_ws rest else s
  | EmptyString => s
  end.

Definition hex_val (c : ascii) : option Z :=
  let n := Z.of_nat (nat_of_ascii c) in
  if (48 <=? n) && (n <=? 57) then Some (n - 48)
  else if (97 <=? n) && (n <=? 102) then Some (n - 87)
  else if (65 <=? n) && (n <=? 70) then Some (n - 55)
  else None.

Definition hex4 (s : string) : option (Z * string) :=
  match s with
  | String a (String b (String c (String d rest))) =>
      match hex_val a, hex_val b, hex_val c, hex_val d with
      | Some a, Some b, Some c, Some d =>
          Some (((a * 16 + b) * 16 + c) * 16 + d, rest)
      | _, _, _, _ => None
      end
  | _ => None
  end.

Definition byte (n : Z) : ascii := ascii_of_nat (Z.to_nat n).

(** The UTF-8 encoding of a code point. *)
Definition utf8 (cp : Z) : string :=
  if cp <? 128 then String (byte cp) ""
  else if cp <? 2048 then
    String (byte (192 + cp / 64)) (String (byte (128 + cp mod 64)) "")
  else if cp <? 65536 then
    String (byte (224 + cp / 4096))
      (String (byte (128 + cp / 64 mod 64))
         (String (byte (128 + cp mod 64)) ""))
  else
    String (byte (240 + cp / 262144))
      (String (byte (128 + cp / 4096 mod 64))
         (String (byte (128 + cp / 64 mod 64))
            (String (byte (128 + cp mod 64)) ""))).

Definition is_surrogate (cp : Z) : bool := (55296 <=? cp) && (cp <? 57344).

(** The code point of a [\u] escape whose four digits gave [cp], and
    what follows it: a surrogate pair is joined, a lone surrogate is
    replaced by U+FFFD. *)
Definition escape_u (cp : Z) (rest : string) : Z * string :=
  if negb (is_surrogate cp) then (cp, rest)
  else
    match rest with
    | String "\" (String "u" r) =>
        match hex4 r with
        | Some (lo, r') =>
            if (cp <? 56320) && (56320 <=? lo) && (lo <? 57344)
            then ((cp - 55296) * 1024 + (lo - 56320) + 65536, r')
            else (65533, rest)
        | None => (65533, rest)
        end
    | _ => (65533, rest)
    end.

Definition dquote : ascii := byte 34.

Definition simple_escape (c : ascii) : option ascii :=
  if Ascii.eqb c dquote then Some dquote
  else if Ascii.eqb c "\" then Some "\"%char
  else if Ascii.eqb c "/" then Some "/"%char
  else if Ascii.eqb c "b" then Some (byte 8)
  else if Ascii.eqb c "f" then Some (byte 12)
  else if Ascii.eqb c "n" then Some (byte 10)
  else if Ascii.eqb c "r" then Some (byte 13)
  else if Ascii.eqb c "t" then Some (byte 9)
  else None.

(** A string literal, from after its opening quote: its value and what
    follows the closing quote. *)
Fixpoint scan_string (fuel : nat) (s : string) : option (string * string) :=
  match fuel, s with
  | S fuel', String c rest =>
      let more (prefix : string) (r : string) :=
        match scan_string fuel' r with
        | Some (v, r') => Some ((prefix ++ v)%string, r')
        | None => None
        end in
      if Ascii.eqb c dquote then Some (""%string, rest)
      else if Ascii.eqb c "\" then
        match rest with
        | String "u" r =>
            match hex4 r with
            | Some (cp, r') =>
                let '(cp, r2) := escape_u cp r' in more (utf8 cp) r2
            | None => None
            end
        | String e r =>
            match simple_escape e with
            | Some x => more (String x "") r
            | None => None
            end
        | EmptyString => None
        end
      else if (nat_of_ascii c <? 32)%nat then None
      else more (String c "") rest
  | _, _ => None
  end.

(** A number literal: its text and what follows it. *)
Definition scan_number (s : string) : option (string * string) :=
  let '(sign, s1) :=
    match s with
    | String "-" r => ("-"%string, r)
    | _ => (""%string, s)
    end in
  let '(ip, s2) := span_digits s1 in
  let ip_ok :=
    match ip with
    | EmptyString => false
    | String "0" (String _ _) => false
    | _ => true
    end in
  if negb ip_ok then None
  else
    let frac :=
      match s2 with
      | String "." r =>
          match span_digits r with
          | (String c ds, r') => Some (String "." (String c ds), r')
          | _ => None
          end
      | _ => Some (""%string, s2)
      end in
    match frac with
    | None => None
    | Some (fp, s3) =>
        let ex :=
          match s3 with
          | String c r =>
              if Ascii.eqb c "e" || Ascii.eqb c "E" then
                let '(es, r) :=
                  match r with
                  | String "-" r' => ("-"%string, r')
                  | String "+" r' => ("+"%string, r')
                  | _ => (""%string, r)
                  end in
                match span_digits r with
                | (String d ds, r') =>
                    Some ((String c es ++ String d ds)%string, r')
                | _ => None
                end
              else Some (""%string, s3)
          | EmptyString => Some (""%string, s3)
          end in
        match ex with
        | None => None
        | Some (ep, s4) => Some ((sign ++ ip ++ fp ++ ep)%string, s4)
        end
    end.

Definition literal (word : string) (v : json) (s : string)
  : option (json * string) :=
  if String.eqb (take (String.length word) s) word
  then Some (v, drop (String.length word) s) else None.

(** The elements of an array after its first element. *)
Fixpoint scan_elements (value : string -> option (json * string))
    (fuel : nat) (s : string) : option (list json * string) :=
  match fuel, skip_ws s with
  | S fuel', String "]" r => Some ([], r)
  | S fuel', String "," r =>
      match value r with
      | Some (v, r1) =>
          match scan_elements value fuel' r1 with
          | Some (vs, r2) => Some (v :: vs, r2)
          | None => None
          end
      | None => None
      end
  | _, _ => None
  end.

Definition scan_member (value : string -> option (json * string))
    (s : string) : option (string * json * string) :=
  match skip_ws s with
  | String c r =>
      if Ascii.eqb c dquote then
        match scan_string (S (String.length r)) r with
        | Some (key, r1) =>
            match skip_ws r1 with
            | String ":" r2 =>
                match value r2 with
                | Some (v, r3) => Some (key, v, r3)
                | None => None
                end
            | _ => None
            end
        | None => None
        end
      else None
  | _ => None
  end.

(** The members of an object after its first member. *)
Fixpoint scan_members (value : string -> option (json * string))
    (fuel : nat) (s : string) : option (list (string * json) * string) :=
  match fuel, skip_ws s with
  | S fuel', String "}" r => Some ([], r)
  | S fuel', String "," r =>
      match scan_member value r with
      | Some (k, v, r1) =>
          match scan_members value fuel' r1 with
          | Some (ms, r2) => Some ((k, v) :: ms, r2)
          | None => None
          end
      | None => None
      end
  | _, _ => None
  end.

Fixpoint scan_value (fuel : nat) (s : string) : option (json * string) :=
  match fuel with
  | O => None
  | S fuel' =>
      let s := skip_ws s in
      match s with
      | String "{" r =>
          match skip_ws r with
          | String "}" r1 => Some (JObject [], r1)
          | _ =>
              match scan_member (scan_value fuel') r with
              | Some (k, v, r1) =>
                  match scan_members (scan_value fuel')
                          (S (String.length r1)) r1 with
                  | Some (ms, r2) => Some (JObject ((k, v) :: ms), r2)
                  | None => None
                  end
              | None => None
              end
          end
      | String "[" r =>
          match skip_ws r with
          | String "]" r1 => Some (JArray [], r1)
          | _ =>
              match scan_value fuel' r with
              | Some (v, r1) =>
                  match scan_elements (scan_value fuel')
                          (S (String.length r1)) r1 with
                  | Some (vs, r2) => Some (JArray (v :: vs), r2)
                  | None => None
                  end
              | None => None
              end
          end
      | String "t" _ => literal "true" (JBool true) s
      | String "f" _ => literal "false" (JBool false) s
      | String "n" _ => literal "null" JNull s
      | String c r =>
          if Ascii.eqb c dquote then
            match scan_string (S (String.length r)) r with
            | Some (v, r1) => Some (JString v, r1)
            | None => None
            end
          else
            match scan_number s with
            | Some (lit, r1) => Some (JNumber lit, r1)
            | None => None
            end
      | EmptyString => None
      end
  end.

Definition json_scan (raw : string) : result json :=
  match scan_value (S (String.length raw)) raw with
  | Some (v, rest) =>
      match skip_ws rest with
      | EmptyString => Ok v
      | _ =>
          Err (json_syntax_error "invalid character after top-level value")
      end
  | None =>
      Err (json_syntax_error
             "invalid character or unexpected end of JSON input")
  end.

Definition hex_digit (d : Z) : ascii :=
  if d <? 10 then byte (48 + d) else byte (87 + d).

(** The body and closing quote of a string as the encoder writes it,
    with HTML escaping on. *)
Fixpoint quote_body (s : string) : string :=
  match s with
  | EmptyString => String dquote ""
  | String c rest =>
      let n := Z.of_nat (nat_of_ascii c) in
      let out :=
        if Ascii.eqb c dquote then String "\" (String dquote "")
        else if Ascii.eqb c "\" then "\\"%string
        else if n =? 10 then "\n"%string
        else if n =? 13 then "\r"%string
        else if n =? 9 then "\t"%string
        else if (n <? 32) || Ascii.eqb c "<" || Ascii.eqb c ">"
                || Ascii.eqb c "&"
        then ("\u00" ++ String (hex_digit (n / 16))
                (String (hex_digit (n mod 16)) ""))%string
        else String c "" in
      (out ++ quote_body rest)%string
  end.

Definition quote (s : string) : string := String dquote (quote_body s).

Fixpoint spaces (depth : nat) : string :=
  match depth with
  | O => ""%string
  | S d => ("  " ++ spaces d)%string
  end.

Definition newline : string := String (byte 10) "".

(** [json.MarshalIndent] with an empty prefix and two spaces of
    indentation. *)
Fixpoint indent (depth : nat) (v : json) : string :=
  match v with
  | JNull => "null"
  | JBool b => if b then "true" else "false"
  | JNumber lit => lit
  | JString s => quote s
  | JArray [] => "[]"
  | JArray (x :: xs) =>
      "[" ++ newline ++ spaces (S depth) ++ indent (S depth) x
        ++ (fix rest (l : list json) : string :=
              match l with
              | [] => ""
              | y :: l' =>
                  "," ++ newline ++ spaces (S depth) ++ indent (S depth) y
                    ++ rest l'
              end) xs
        ++ newline ++ spaces depth ++ "]"
  | JObject [] => "{}"
  | JObject ((k, x) :: ms) =>
      "{" ++ newline ++ spaces (S depth) ++ quote k ++ ": "
        ++ indent (S depth) x
        ++ (fix rest (l : list (string * json)) : string :=
              match l with
              | [] => ""
              | (k', y) :: l' =>
                  "," ++ newline ++ spaces (S depth) ++ quote k' ++ ": "
                    ++ indent (S depth) y ++ rest l'
              end) ms
        ++ newline ++ spaces depth ++ "}"
  end%string.

Definition json_indent (v : json) : string := indent 0 v.

(** Documents are written here with ['] for the double quote, which
    [doc] puts back. *)
Fixpoint doc (s : string) : string :=
  match s with
  | EmptyString => EmptyString
  | String c rest =>
      String (if Ascii.eqb c "'" then dquote else c) (doc rest)
  end.

(** The comparison of a key with a field name, by ASCII case folding. *)
Definition EqualFold (a b : string) : bool :=
  String.eqb (ToLower a) (ToLower b).

End Ref.

(** The reference implementation; its [config.Saver] carries nothing. *)
Definition RefLibs : Libs := {|
  Multiaddr := list Ref.component;
  NewMultiaddr := Ref.NewMultiaddr;
  Multiaddr_String := Ref.Multiaddr_String;
  Duration_String := Ref.Duration_String;
  ParseBool := Ref.ParseBool;
  ParseFloat := Ref.ParseFloat;
  FormatFloat := Ref.FormatFloat;
  json_scan := Ref.json_scan;
  json_indent := Ref.json_indent;
  EqualFold := Ref.EqualFold;
  config_Saver := unit;
  ParseDurations := Ref.ParseDurations
|}.

(** Zero-valued instances, as a caller constructs them, over the reference
    implementation. *)
Definition MetricsConfig_zero : @MetricsConfig.t RefLibs :=
  MetricsConfig.mk (tt : @config_Saver RefLibs) false None 0%Z.

Definition TracingConfig_zero : @TracingConfig.t RefLibs :=
  TracingConfig.mk (tt : @config_Saver RefLibs) false None float64_zero "".

(** An implementation whose address parser knows no protocol and rejects
    every string; the rest is the reference implementation.  It runs the
    paths on which the default endpoint does not parse. *)
Definition NoProtocolLibs : Libs := {|
  Multiaddr := list Ref.component;
  NewMultiaddr := fun s => Err (Ref.ma_error s "no protocols registered");
  Multiaddr_String := Ref.Multiaddr_String;
  Duration_String := Ref.Duration_String;
  ParseBool := Ref.ParseBool;
  ParseFloat := Ref.ParseFloat;
  FormatFloat := Ref.FormatFloat;
  json_scan := Ref.json_scan;
  json_indent := Ref.json_indent;
  EqualFold := Ref.EqualFold;
  config_Saver := unit;
  ParseDurations := Ref.ParseDurations
|}.

(** An implementation whose address parser reads the empty string as
    the address with no component and is the reference parser on every
    other string; the rest is the reference implementation.  It runs the
    paths on which an empty endpoint string parses. *)
Definition EmptyAddressLibs : Libs := {|
  Multiaddr := list Ref.component;
  NewMultiaddr := fun s =>
    match s with
    | EmptyString => Ok []
    | _ => Ref.NewMultiaddr s
    end;
  Multiaddr_String := Ref.Multiaddr_String;
  Duration_String := Ref.Duration_String;
  ParseBool := Ref.ParseBool;
  ParseFloat := Ref.ParseFloat;
  FormatFloat := Ref.FormatFloat;
  json_scan := Ref.json_scan;
  json_indent := Ref.json_indent;
  EqualFold := Ref.EqualFold;
  config_Saver := unit;
  ParseDurations := Ref.ParseDurations
|}.

(** ** Where the value of a field comes from

    The vocabulary of the precedence property: the member of a document
    that decides a field, and the two ways a source can be absent. *)
Section Sources.
Context `{Libs}.
Context {S : Type}.

(** The members of a decoded document: those of an object; [null]
    has none. *)
Definition members_of (document : json) : list (string * json) :=
  match document with
  | JObject members => members
  | _ => []
  end.

(** The last member of the document that is stored into the field of
    Go name [name] and is not [null]: the one that decides the field. *)
Fixpoint last_for (fields : list (field S))
    (members : list (string * json)) (name : string) : option json :=
  match members with
  | [] => None
  | (key, v) :: rest =>
      match last_for fields rest name with
      | Some x => Some x
      | None =>
          match field_for fields key with
          | Some g =>
              if String.eqb (goName g) name
              then match v with JNull => None | _ => Some v end
              else None
          | None => None
          end
      end
  end.

(** A field holds [a] from the document: the deciding member denotes
    [a], or there is none and [a] is the zero value. *)
Definition from_document {A} (denotes : json -> A -> Prop) (zero : A)
    (decider : option json) (a : A) : Prop :=
  match decider with
  | Some v => denotes v a
  | None => a = zero
  end.

(** A field holds [a] after the environment: the variable is set and
    parses to [a], or it is unset and [a] is the value from below. *)
Definition from_environment {A} (parse : string -> result A)
    (variable : option string) (below : A) (a : A) : Prop :=
  match variable with
  | Some value => parse value = Ok a
  | None => a = below
  end.

Definition is_bool (v : json) (b : bool) : Prop := v = JBool b.
Definition is_string (v : json) (s : string) : Prop := v = JString s.
Definition is_float64 (v : json) (x : float64) : Prop :=
  exists lit, v = JNumber lit /\ ParseFloat lit = Ok x.
End Sources.

(** ** Properties *)

(** Running a method: unfold the receiver monad down to records. *)
Ltac run :=
  unfold mbind, mret, M_MBind, M_MRet, M_bind, M_ret, get, modify,
    logger_Error in *;
  cbn [ret recv logged] in *.

(** Case analysis on a field of a struct declaration. *)
Ltac each_field Hin :=
  cbn [In jsonMetricsConfig.fields jsonTracingConfig.fields] in Hin;
  repeat (destruct Hin as [<-|Hin]); [..|destruct Hin].

Ltac other_field :=
  intros g v s Hin Hname; each_field Hin;
  cbn [goName] in Hname; try congruence;
  unfold store; cbn [acc]; destruct v; try reflexivity;
  destruct (ParseFloat _); reflexivity.

Ltac same_field :=
  intros g v s Hin Hname Hnull Herr; each_field Hin;
  cbn [goName] in Hname; try discriminate Hname;
  unfold store in *; cbn [acc] in *; destruct v; try discriminate Herr;
  try congruence; try reflexivity.

(** The names of the variables, computed. *)
Ltac eval_keys :=
  repeat match goal with
    | H : context [env_key ?p ?f] |- _ =>
        let k := eval vm_compute in (env_key p f) in
        change (env_key p f) with k in H
    end.

Section Properties.
Context `{Libs}.

(** *** Identification, defaults and validation *)

(** C8. ConfigKey is a pure function of the type: on every
    MetricsConfig it returns exactly "metrics", on every TracingConfig
    exactly "tracing"; it leaves the receiver as it was (and logs
    nothing), and its result does not depend on the receiver. *)
Theorem ConfigKey_pure (m : MetricsConfig.t) (t : TracingConfig.t) :
  MetricsConfig.ConfigKey m = mkRan "metrics" m []
  /\ TracingConfig.ConfigKey t = mkRan "tracing" t []
  /\ (forall m', ret (MetricsConfig.ConfigKey m')
                 = ret (MetricsConfig.ConfigKey m))
  /\ (forall t', ret (TracingConfig.ConfigKey t')
                 = ret (TracingConfig.ConfigKey t)).
Proof. repeat split. Qed.

(** C4. Default, on any instance (a zero-valued one in particular),
    returns no error and leaves exactly the documented defaults:
    EnableStats false, PrometheusEndpoint the parse of
    "/ip4/0.0.0.0/tcp/8888", StatsReportingInterval two seconds;
    EnableTracing false, JaegerAgentEndpoint the parse of
    "/ip4/0.0.0.0/udp/6831", TracingSamplingProb the float64 0.3,
    TracingServiceName "cluster-daemon".  The embedded Saver is not
    touched. *)
Theorem Default_sets_documented_values
    (m : MetricsConfig.t) (t : TracingConfig.t) :
  let rm := MetricsConfig.Default m in
  let rt := TracingConfig.Default t in
  (ret rm = None
   /\ MetricsConfig.EnableStats (recv rm) = false
   /\ MetricsConfig.PrometheusEndpoint (recv rm)
      = value_or_nil (NewMultiaddr "/ip4/0.0.0.0/tcp/8888")
   /\ MetricsConfig.StatsReportingInterval (recv rm) = 2000000000%Z
   /\ MetricsConfig.Saver (recv rm) = MetricsConfig.Saver m)
  /\ (ret rt = None
      /\ TracingConfig.EnableTracing (recv rt) = false
      /\ TracingConfig.JaegerAgentEndpoint (recv rt)
         = value_or_nil (NewMultiaddr "/ip4/0.0.0.0/udp/6831")
      /\ TracingConfig.TracingSamplingProb (recv rt)
         = S754_finite false 5404319552844595 (-54)
      /\ TracingConfig.TracingServiceName (recv rt) = "cluster-daemon"
      /\ TracingConfig.Saver (recv rt) = TracingConfig.Saver t).
Proof. repeat split. Qed.

(** Validate reads the receiver and never writes it. *)
Lemma MetricsConfig_Validate_reads (m : MetricsConfig.t) :
  recv (MetricsConfig.Validate m) = m
  /\ logged (MetricsConfig.Validate m) = [].
Proof.
  unfold MetricsConfig.Validate. run.
  destruct (MetricsConfig.EnableStats m); [|done].
  destruct (MetricsConfig.PrometheusEndpoint m); [|done].
  by destruct (MetricsConfig.StatsReportingInterval m <? 0)%Z.
Qed.

Lemma TracingConfig_Validate_reads (t : TracingConfig.t) :
  recv (TracingConfig.Validate t) = t
  /\ logged (TracingConfig.Validate t) = [].
Proof.
  unfold TracingConfig.Validate. run.
  destruct (TracingConfig.EnableTracing t); [|done].
  destruct (TracingConfig.JaegerAgentEndpoint t); [|done].
  by destruct (float64_lt (TracingConfig.TracingSamplingProb t) float64_zero).
Qed.

(** What Validate returns, case by case. *)
Lemma MetricsConfig_Validate_ret (m : MetricsConfig.t) :
  ret (MetricsConfig.Validate m) =
    if MetricsConfig.EnableStats m then
      match MetricsConfig.PrometheusEndpoint m with
      | None => Some (errors_New "metrics.prometheus_endpoint is undefined")
      | Some _ =>
          if (MetricsConfig.StatsReportingInterval m <? 0)%Z
          then Some (errors_New "metrics.reporting_interval is invalid")
          else None
      end
    else None.
Proof.
  unfold MetricsConfig.Validate. run.
  destruct (MetricsConfig.EnableStats m); [|done].
  destruct (MetricsConfig.PrometheusEndpoint m); [|done].
  by destruct (MetricsConfig.StatsReportingInterval m <? 0)%Z.
Qed.

Lemma TracingConfig_Validate_ret (t : TracingConfig.t) :
  ret (TracingConfig.Validate t) =
    if TracingConfig.EnableTracing t then
      match TracingConfig.JaegerAgentEndpoint t with
      | None =>
          Some (errors_New "tracing.jaeger_agent_endpoint is undefined")
      | Some _ =>
          if float64_lt (TracingConfig.TracingSamplingProb t) float64_zero
          then Some (errors_New "tracing.sampling_prob is invalid")
          else None
      end
    else None.
Proof.
  unfold TracingConfig.Validate. run.
  destruct (TracingConfig.EnableTracing t); [|done].
  destruct (TracingConfig.JaegerAgentEndpoint t); [|done].
  by destruct (float64_lt (TracingConfig.TracingSamplingProb t) float64_zero).
Qed.

(** C2. Validation is gated by the enable flag.  With the flag false,
    Validate returns no error whatever the endpoint and the numeric field
    hold (endpoint nil, interval or probability negative).  With the flag
    true, Validate returns an error if and only if the endpoint is nil or
    the numeric field is negative. *)
Theorem Validate_gating (m : MetricsConfig.t) (t : TracingConfig.t) :
  (MetricsConfig.EnableStats m = false ->
     ret (MetricsConfig.Validate m) = None)
  /\ (MetricsConfig.EnableStats m = true ->
        (is_Some (ret (MetricsConfig.Validate m))
         <-> MetricsConfig.PrometheusEndpoint m = None
             \/ (MetricsConfig.StatsReportingInterval m < 0)%Z))
  /\ (TracingConfig.EnableTracing t = false ->
        ret (TracingConfig.Validate t) = None)
  /\ (TracingConfig.EnableTracing t = true ->
        (is_Some (ret (TracingConfig.Validate t))
         <-> TracingConfig.JaegerAgentEndpoint t = None
             \/ float64_lt (TracingConfig.TracingSamplingProb t)
                  float64_zero = true)).
Proof.
  rewrite MetricsConfig_Validate_ret, TracingConfig_Validate_ret.
  split; [|split; [|split]].
  - by intros ->.
  - intros ->.
    destruct (MetricsConfig.PrometheusEndpoint m) as [a|].
    + destruct (Z.ltb_spec (MetricsConfig.StatsReportingInterval m) 0).
      * split; [intros _; by right | intros _; by eexists].
      * split; [intros [e He]; discriminate | intros [?|?]; [done | lia]].
    + split; [intros _; by left | intros _; by eexists].
  - by intros ->.
  - intros ->.
    destruct (TracingConfig.JaegerAgentEndpoint t) as [a|].
    + destruct (float64_lt (TracingConfig.TracingSamplingProb t)
                  float64_zero).
      * split; [intros _; by right | intros _; by eexists].
      * split; [intros [e He]; discriminate | intros [?|?]; done].
    + split; [intros _; by left | intros _; by eexists].
Qed.

(** A float64 above 1.0 is not below zero. *)
Lemma above_one_not_negative (p : float64) :
  float64_lt (S754_finite false 4503599627370496 (-52)) p = true ->
  float64_lt p float64_zero = false.
Proof.
  unfold float64_lt, float64_zero, SFltb.
  destruct p as [s|[]| |[] mp ep]; cbn; try done.
Qed.

(** C7. Validate puts no upper bound on the sampling probability: with
    tracing enabled and an agent endpoint present, a probability above
    1.0 (2.0, say) passes. *)
Theorem Validate_no_upper_bound (t : TracingConfig.t) (a : Multiaddr) :
  TracingConfig.EnableTracing t = true ->
  TracingConfig.JaegerAgentEndpoint t = Some a ->
  float64_lt (S754_finite false 4503599627370496 (-52))
    (TracingConfig.TracingSamplingProb t) = true ->
  ret (TracingConfig.Validate t) = None.
Proof.
  intros He Ha Hp.
  rewrite TracingConfig_Validate_ret, He, Ha.
  by rewrite (above_one_not_negative _ Hp).
Qed.

(** C10. ToJSON needs a non-nil endpoint: on a MetricsConfig (a
    TracingConfig) whose PrometheusEndpoint (JaegerAgentEndpoint) is
    nil, as on a zero-valued instance, the call of the endpoint's String
    method panics with a nil dereference; ToJSON does not return, with an
    error or otherwise. *)
Theorem ToJSON_nil_endpoint_panics
    (m : MetricsConfig.t) (t : TracingConfig.t) :
  MetricsConfig.PrometheusEndpoint m = None ->
  TracingConfig.JaegerAgentEndpoint t = None ->
  ret (MetricsConfig.ToJSON m) = Panics nil_dereference
  /\ ret (TracingConfig.ToJSON t) = Panics nil_dereference
  /\ (forall r, ret (MetricsConfig.ToJSON m) <> Returns r)
  /\ (forall r, ret (TracingConfig.ToJSON t) <> Returns r).
Proof.
  intros Hm Ht.
  unfold MetricsConfig.ToJSON, TracingConfig.ToJSON. run.
  rewrite Hm, Ht. cbn. repeat split; intros r; discriminate.
Qed.
(** *** The two sources of a field: the document and the environment *)

Section Decoding.
Context {S : Type}.
Implicit Types (fields : list (field S)) (g : field S) (s : S).

Lemma field_for_elem fields key g :
  field_for fields key = Some g -> In g fields.
Proof.
  unfold field_for.
  destruct (List.find _ fields) as [f|] eqn:Hexact.
  - intros [= <-]. by apply List.find_some in Hexact as [? _].
  - intros Hfold. by apply List.find_some in Hfold as [? _].
Qed.

Lemma store_null g s : store g JNull s = (s, None).
Proof. unfold store. by destruct (acc g). Qed.

(** An error, once saved, stays. *)
Lemma decode_members_saved fields members s e :
  exists e', (decode_members fields members s (Some e)).2 = Some e'.
Proof.
  revert s. induction members as [|[key v] rest IH]; intros s; cbn.
  - by exists e.
  - destruct (field_for fields key) as [g|]; [|apply IH].
    destruct (store g v s) as [s1 e1]. apply IH.
Qed.

(** The field read by [rd], after a document decoded without error:
    the deciding member denotes it, or it is as it was. *)
Lemma decode_members_field {A} (rd : S -> A) (denotes : json -> A -> Prop)
    fields name :
  (forall g v s, In g fields -> goName g <> name ->
     rd (store g v s).1 = rd s) ->
  (forall g v s, In g fields -> goName g = name -> v <> JNull ->
     (store g v s).2 = None -> denotes v (rd (store g v s).1)) ->
  forall members s s',
    decode_members fields members s None = (s', None) ->
    match last_for fields members name with
    | Some v => denotes v (rd s')
    | None => rd s' = rd s
    end.
Proof.
  intros Hother Hsame.
  induction members as [|[key v] rest IH]; intros s s' Hdec.
  - cbn in *. by injection Hdec as ->.
  - cbn [decode_members last_for] in *.
    destruct (field_for fields key) as [g|] eqn:Hg.
    2: { specialize (IH _ _ Hdec).
         by destruct (last_for fields rest name). }
    pose proof (field_for_elem _ _ _ Hg) as Hin.
    destruct (store g v s) as [s1 e1] eqn:Hst.
    destruct e1 as [e1|].
    { destruct (decode_members_saved fields rest s1 e1) as [e' He'].
      rewrite Hdec in He'. discriminate. }
    specialize (IH _ _ Hdec).
    destruct (last_for fields rest name) as [x|]; [done|].
    rewrite IH.
    destruct (String.eqb_spec (goName g) name) as [Hname|Hname].
    + assert (v = JNull \/ v <> JNull) as [->|Hv]
        by (destruct v; (by left) || (by right)).
      * rewrite store_null in Hst. by injection Hst as <-.
      * replace s1 with (store g v s).1 by by rewrite Hst.
        assert (denotes v (rd (store g v s).1)) as Hd.
        { apply Hsame; [done..|by rewrite Hst]. }
        by destruct v.
    + replace s1 with (store g v s).1 by by rewrite Hst.
      by apply Hother.
Qed.
End Decoding.

(** The document layer of a jsonMetricsConfig: each field is decided by
    its last member in the document, and is the zero value when the
    document has none. *)
Lemma jsonMetricsConfig_from_document raw document j0 :
  json_scan raw = Ok document ->
  json_Unmarshal jsonMetricsConfig.fields raw jsonMetricsConfig.zero
    = Ok j0 ->
  let decider := last_for jsonMetricsConfig.fields (members_of document) in
  from_document is_bool false (decider "EnableStats")
    (jsonMetricsConfig.EnableStats j0)
  /\ from_document is_string "" (decider "PrometheusEndpoint")
       (jsonMetricsConfig.PrometheusEndpoint j0)
  /\ from_document is_string "" (decider "StatsReportingInterval")
       (jsonMetricsConfig.StatsReportingInterval j0).
Proof.
  intros Hscan Hj0 decider. subst decider.
  unfold json_Unmarshal in Hj0. rewrite Hscan in Hj0.
  destruct document as [| | | | |members]; try discriminate Hj0.
  { injection Hj0 as <-. by cbn. }
  cbn [members_of].
  destruct (decode_members _ members _ None) as [s' [e|]] eqn:Hdec;
    [discriminate Hj0|].
  injection Hj0 as ->.
  unfold from_document. repeat split.
  - apply (decode_members_field jsonMetricsConfig.EnableStats is_bool
             jsonMetricsConfig.fields "EnableStats" ltac:(other_field) ltac:(same_field)
             _ _ _ Hdec).
  - apply (decode_members_field jsonMetricsConfig.PrometheusEndpoint
             is_string jsonMetricsConfig.fields "PrometheusEndpoint"
             ltac:(other_field) ltac:(same_field) _ _ _ Hdec).
  - apply (decode_members_field jsonMetricsConfig.StatsReportingInterval
             is_string jsonMetricsConfig.fields "StatsReportingInterval"
             ltac:(other_field) ltac:(same_field) _ _ _ Hdec).
Qed.

Lemma jsonTracingConfig_from_document raw document j0 :
  json_scan raw = Ok document ->
  json_Unmarshal jsonTracingConfig.fields raw jsonTracingConfig.zero
    = Ok j0 ->
  let decider := last_for jsonTracingConfig.fields (members_of document) in
  from_document is_bool false (decider "EnableTracing")
    (jsonTracingConfig.EnableTracing j0)
  /\ from_document is_string "" (decider "JaegerAgentEndpoint")
       (jsonTracingConfig.JaegerAgentEndpoint j0)
  /\ from_document is_float64 float64_zero (decider "TracingSamplingProb")
       (jsonTracingConfig.TracingSamplingProb j0)
  /\ from_document is_string "" (decider "TracingServiceName")
       (jsonTracingConfig.TracingServiceName j0).
Proof.
  intros Hscan Hj0 decider. subst decider.
  unfold json_Unmarshal in Hj0. rewrite Hscan in Hj0.
  destruct document as [| | | | |members]; try discriminate Hj0.
  { injection Hj0 as <-. by cbn. }
  cbn [members_of].
  destruct (decode_members _ members _ None) as [s' [e|]] eqn:Hdec;
    [discriminate Hj0|].
  injection Hj0 as ->.
  unfold from_document. repeat split.
  - apply (decode_members_field jsonTracingConfig.EnableTracing is_bool
             jsonTracingConfig.fields "EnableTracing" ltac:(other_field) ltac:(same_field)
             _ _ _ Hdec).
  - apply (decode_members_field jsonTracingConfig.JaegerAgentEndpoint
             is_string jsonTracingConfig.fields "JaegerAgentEndpoint"
             ltac:(other_field) ltac:(same_field) _ _ _ Hdec).
  - refine (decode_members_field jsonTracingConfig.TracingSamplingProb
              is_float64 jsonTracingConfig.fields
              "TracingSamplingProb" ltac:(other_field) _
              members jsonTracingConfig.zero j0 Hdec).
    intros g v s Hin Hname Hnull Herr; each_field Hin;
      cbn [goName] in Hname; try discriminate Hname.
    unfold store in *; cbn [acc] in *; destruct v; try discriminate Herr;
      try congruence.
    destruct (ParseFloat lit) as [x|] eqn:Hx; [|discriminate Herr].
    by exists lit.
  - apply (decode_members_field jsonTracingConfig.TracingServiceName
             is_string jsonTracingConfig.fields "TracingServiceName"
             ltac:(other_field) ltac:(same_field) _ _ _ Hdec).
Qed.

(** The environment layer of a jsonMetricsConfig: each field is the
    parsed value of its variable when the variable is set, and the
    document's value otherwise. *)
Lemma jsonMetricsConfig_from_environment env j0 j :
  envconfig_Process env envConfigKey jsonMetricsConfig.fields j0 = Ok j ->
  from_environment ParseBool (env !! "CLUSTER_OBSERVATIONS_ENABLESTATS")
    (jsonMetricsConfig.EnableStats j0) (jsonMetricsConfig.EnableStats j)
  /\ from_environment Ok (env !! "CLUSTER_OBSERVATIONS_PROMETHEUSENDPOINT")
       (jsonMetricsConfig.PrometheusEndpoint j0)
       (jsonMetricsConfig.PrometheusEndpoint j)
  /\ from_environment Ok
       (env !! "CLUSTER_OBSERVATIONS_STATSREPORTINGINTERVAL")
       (jsonMetricsConfig.StatsReportingInterval j0)
       (jsonMetricsConfig.StatsReportingInterval j).
Proof.
  intros Hj.
  cbn [envconfig_Process jsonMetricsConfig.fields] in Hj. eval_keys.
  unfold processField in Hj. cbn [acc] in Hj.
  unfold from_environment.
  destruct (env !! "CLUSTER_OBSERVATIONS_ENABLESTATS") as [v1|];
    [destruct (ParseBool v1) as [b|] eqn:Hb; [|discriminate Hj]|];
    destruct (env !! "CLUSTER_OBSERVATIONS_PROMETHEUSENDPOINT") as [v2|];
    destruct (env !! "CLUSTER_OBSERVATIONS_STATSREPORTINGINTERVAL")
      as [v3|];
    injection Hj as <-; repeat split; done.
Qed.

Lemma jsonTracingConfig_from_environment env j0 j :
  envconfig_Process env envConfigKey jsonTracingConfig.fields j0 = Ok j ->
  from_environment ParseBool (env !! "CLUSTER_OBSERVATIONS_ENABLETRACING")
    (jsonTracingConfig.EnableTracing j0) (jsonTracingConfig.EnableTracing j)
  /\ from_environment Ok
       (env !! "CLUSTER_OBSERVATIONS_JAEGERAGENTENDPOINT")
       (jsonTracingConfig.JaegerAgentEndpoint j0)
       (jsonTracingConfig.JaegerAgentEndpoint j)
  /\ from_environment ParseFloat
       (env !! "CLUSTER_OBSERVATIONS_TRACINGSAMPLINGPROB")
       (jsonTracingConfig.TracingSamplingProb j0)
       (jsonTracingConfig.TracingSamplingProb j)
  /\ from_environment Ok
       (env !! "CLUSTER_OBSERVATIONS_TRACINGSERVICENAME")
       (jsonTracingConfig.TracingServiceName j0)
       (jsonTracingConfig.TracingServiceName j).
Proof.
  intros Hj.
  cbn [envconfig_Process jsonTracingConfig.fields] in Hj. eval_keys.
  unfold processField in Hj. cbn [acc] in Hj.
  unfold from_environment.
  destruct (env !! "CLUSTER_OBSERVATIONS_ENABLETRACING") as [v1|];
    [destruct (ParseBool v1) as [b|] eqn:Hb; [|discriminate Hj]|];
    destruct (env !! "CLUSTER_OBSERVATIONS_JAEGERAGENTENDPOINT") as [v2|];
    (destruct (env !! "CLUSTER_OBSERVATIONS_TRACINGSAMPLINGPROB") as [v3|];
     [destruct (ParseFloat v3) as [x|] eqn:Hx; [|discriminate Hj]|]);
    destruct (env !! "CLUSTER_OBSERVATIONS_TRACINGSERVICENAME") as [v4|];
    injection Hj as <-; repeat split; done.
Qed.

Lemma json_Unmarshal_scanned {S} (fields : list (field S)) raw (s s' : S) :
  json_Unmarshal fields raw s = Ok s' ->
  exists document, json_scan raw = Ok document.
Proof.
  unfold json_Unmarshal.
  destruct (json_scan raw) as [document|]; [by exists document|done].
Qed.

(** *** Loading *)

Lemma append_empty_r (s : string) : (s ++ "")%string = s.
Proof.
  induction s as [|c s IH]; [done|].
  change (String c (s ++ "") = String c s). by rewrite IH.
Qed.

(** The two messages built with fmt.Errorf. *)
Lemma fmt_Errorf_PrometheusEndpoint e :
  fmt_Errorf "loadMetricsOptions: PrometheusEndpoint multiaddr: %v" e
  = errors_New
      ("loadMetricsOptions: PrometheusEndpoint multiaddr: " ++ Error e).
Proof.
  unfold fmt_Errorf. f_equal. cbn [Sprintf Error].
  rewrite append_empty_r. reflexivity.
Qed.

Lemma fmt_Errorf_JaegerAgentEndpoint e :
  fmt_Errorf "loadTracingOptions: JaegerAgentEndpoint multiaddr: %v" e
  = errors_New
      ("loadTracingOptions: JaegerAgentEndpoint multiaddr: " ++ Error e).
Proof.
  unfold fmt_Errorf. f_equal. cbn [Sprintf Error].
  rewrite append_empty_r. reflexivity.
Qed.

(** With no variable set, envconfig.Process leaves the struct alone. *)
Lemma envconfig_Process_no_overrides {S} env prefix
    (fields : list (field S)) (s : S) :
  no_overrides env prefix fields ->
  envconfig_Process env prefix fields s = Ok s.
Proof.
  induction 1 as [|f fields Hf _ IH]; [done|].
  cbn [envconfig_Process]. by rewrite Hf.
Qed.

Lemma no_overrides_empty {S} prefix (fields : list (field S)) :
  no_overrides ∅ prefix fields.
Proof. apply Forall_forall. intros f _. apply lookup_empty. Qed.

(** The state in which loadMetricsOptions finds the receiver: Default
    has run. *)
Lemma MetricsConfig_Default_run (m : MetricsConfig.t) :
  MetricsConfig.Default m =
    mkRan None
      (MetricsConfig.mk (MetricsConfig.Saver m) DefaultEnableStats
         (value_or_nil (NewMultiaddr DefaultPrometheusEndpoint))
         DefaultStatsReportingInterval) [].
Proof. reflexivity. Qed.

Lemma TracingConfig_Default_run (t : TracingConfig.t) :
  TracingConfig.Default t =
    mkRan None
      (TracingConfig.mk (TracingConfig.Saver t) DefaultEnableTracing
         (value_or_nil (NewMultiaddr DefaultJaegerAgentEndpoint))
         DefaultTracingSamplingProb DefaultTracingServiceName) [].
Proof. reflexivity. Qed.

(** LoadJSON from the struct that envconfig.Process hands over. *)
Lemma MetricsConfig_LoadJSON_run env raw (m : MetricsConfig.t) j0 j :
  json_Unmarshal jsonMetricsConfig.fields raw jsonMetricsConfig.zero
    = Ok j0 ->
  envconfig_Process env envConfigKey jsonMetricsConfig.fields j0 = Ok j ->
  MetricsConfig.LoadJSON env raw m =
    match NewMultiaddr (jsonMetricsConfig.PrometheusEndpoint j) with
    | Err err =>
        mkRan
          (Some (fmt_Errorf
                   "loadMetricsOptions: PrometheusEndpoint multiaddr: %v"
                   err))
          (MetricsConfig.mk (MetricsConfig.Saver m)
             (jsonMetricsConfig.EnableStats j)
             (value_or_nil (NewMultiaddr DefaultPrometheusEndpoint))
             DefaultStatsReportingInterval) []
    | Ok a =>
        let '(err, dst) :=
          ParseDurations metricsConfigKey
            {| opt_Duration := jsonMetricsConfig.StatsReportingInterval j;
               opt_Dst := DefaultStatsReportingInterval;
               opt_Name := "metrics.reporting_interval" |} in
        let m' :=
          MetricsConfig.mk (MetricsConfig.Saver m)
            (jsonMetricsConfig.EnableStats j) (Some a) dst in
        match err with
        | Some err => mkRan (Some err) m' []
        | None => mkRan (ret (MetricsConfig.Validate m')) m' []
        end
    end.
Proof.
  intros Hj0 Hj. unfold MetricsConfig.LoadJSON. rewrite Hj0. run.
  rewrite MetricsConfig_Default_run. cbn [ret recv logged].
  rewrite Hj. unfold MetricsConfig.loadMetricsOptions. run.
  destruct (NewMultiaddr (jsonMetricsConfig.PrometheusEndpoint j)) as [a|e];
    [|reflexivity].
  cbn.
  destruct (ParseDurations _ _) as [[err|] dst]; cbn; [reflexivity|].
  match goal with
  | |- context [MetricsConfig.Validate ?c] =>
      destruct (MetricsConfig_Validate_reads c) as [-> ->]
  end.
  reflexivity.
Qed.

Lemma TracingConfig_LoadJSON_run env raw (t : TracingConfig.t) j0 j :
  json_Unmarshal jsonTracingConfig.fields raw jsonTracingConfig.zero
    = Ok j0 ->
  envconfig_Process env envConfigKey jsonTracingConfig.fields j0 = Ok j ->
  TracingConfig.LoadJSON env raw t =
    match NewMultiaddr (jsonTracingConfig.JaegerAgentEndpoint j) with
    | Err err =>
        mkRan
          (Some (fmt_Errorf
                   "loadTracingOptions: JaegerAgentEndpoint multiaddr: %v"
                   err))
          (TracingConfig.mk (TracingConfig.Saver t)
             (jsonTracingConfig.EnableTracing j)
             (value_or_nil (NewMultiaddr DefaultJaegerAgentEndpoint))
             DefaultTracingSamplingProb DefaultTracingServiceName) []
    | Ok a =>
        let t' :=
          TracingConfig.mk (TracingConfig.Saver t)
            (jsonTracingConfig.EnableTracing j) (Some a)
            (jsonTracingConfig.TracingSamplingProb j)
            (jsonTracingConfig.TracingServiceName j) in
        mkRan (ret (TracingConfig.Validate t')) t' []
    end.
Proof.
  intros Hj0 Hj. unfold TracingConfig.LoadJSON. rewrite Hj0. run.
  rewrite TracingConfig_Default_run. cbn [ret recv logged].
  rewrite Hj. unfold TracingConfig.loadTracingOptions. run.
  destruct (NewMultiaddr (jsonTracingConfig.JaegerAgentEndpoint j)) as [a|e];
    [|reflexivity].
  cbn.
  match goal with
  | |- context [TracingConfig.Validate ?c] =>
      destruct (TracingConfig_Validate_reads c) as [-> ->]
  end.
  reflexivity.
Qed.

(** A document that fails to decode: the error of json.Unmarshal is
    returned as it is, one line is logged and the receiver is not
    touched. *)
Lemma MetricsConfig_LoadJSON_undecodable env raw (m : MetricsConfig.t) e :
  json_Unmarshal jsonMetricsConfig.fields raw jsonMetricsConfig.zero
    = Err e ->
  MetricsConfig.LoadJSON env raw m =
    mkRan (Some e) m ["Error unmarshaling observations config"].
Proof. intros He. unfold MetricsConfig.LoadJSON. by rewrite He. Qed.

(** C5. A document that decodes and whose prometheus_endpoint is a
    string that fails network-address parsing (no variable set): LoadJSON
    returns the error built by the endpoint-parsing step, which names the
    PrometheusEndpoint field and carries the parser's message; the
    instance is left with the default endpoint, not a loaded one. *)
Theorem LoadJSON_malformed_endpoint env raw document
    (m : MetricsConfig.t) j s e :
  json_scan raw = Ok document ->
  json_Unmarshal jsonMetricsConfig.fields raw jsonMetricsConfig.zero
    = Ok j ->
  last_for jsonMetricsConfig.fields (members_of document)
    "PrometheusEndpoint" = Some (JString s) ->
  no_overrides env envConfigKey jsonMetricsConfig.fields ->
  NewMultiaddr s = Err e ->
  let r := MetricsConfig.LoadJSON env raw m in
  ret r = Some (errors_New
                  ("loadMetricsOptions: PrometheusEndpoint multiaddr: "
                     ++ Error e))
  /\ MetricsConfig.PrometheusEndpoint (recv r)
     = value_or_nil (NewMultiaddr DefaultPrometheusEndpoint)
  /\ MetricsConfig.StatsReportingInterval (recv r)
     = DefaultStatsReportingInterval.
Proof.
  intros Hdoc Hj Hendpoint Henv He r. subst r.
  destruct (jsonMetricsConfig_from_document _ _ _ Hdoc Hj) as (_ & D2 & _).
  cbv zeta in D2. rewrite Hendpoint in D2. cbn in D2.
  unfold is_string in D2. injection D2 as D2.
  rewrite (MetricsConfig_LoadJSON_run env raw m j j Hj
             (envconfig_Process_no_overrides _ _ _ _ Henv)).
  rewrite <- D2, He, fmt_Errorf_PrometheusEndpoint. repeat split.
Qed.

(** C6. A document that decodes, with enable_stats true, a well-formed
    endpoint and reporting_interval "-5s", which parses to minus five
    seconds (no variable set): LoadJSON returns the error of Validate for
    a negative interval; the duration itself was parsed and stored. *)
Theorem LoadJSON_negative_interval env raw document
    (m : MetricsConfig.t) j s a :
  json_scan raw = Ok document ->
  json_Unmarshal jsonMetricsConfig.fields raw jsonMetricsConfig.zero
    = Ok j ->
  let decider := last_for jsonMetricsConfig.fields (members_of document) in
  decider "EnableStats" = Some (JBool true) ->
  decider "PrometheusEndpoint" = Some (JString s) ->
  decider "StatsReportingInterval" = Some (JString "-5s") ->
  no_overrides env envConfigKey jsonMetricsConfig.fields ->
  NewMultiaddr s = Ok a ->
  ParseDurations metricsConfigKey
    {| opt_Duration := "-5s";
       opt_Dst := DefaultStatsReportingInterval;
       opt_Name := "metrics.reporting_interval" |}
    = (None, (-5 * Second)%Z) ->
  let r := MetricsConfig.LoadJSON env raw m in
  ret r = Some (errors_New "metrics.reporting_interval is invalid")
  /\ ret r = ret (MetricsConfig.Validate (recv r))
  /\ MetricsConfig.StatsReportingInterval (recv r) = (-5 * Second)%Z.
Proof.
  intros Hdoc Hj decider Henable Hendpoint Hinterval Henv Ha Hd r.
  subst r decider.
  destruct (jsonMetricsConfig_from_document _ _ _ Hdoc Hj) as (D1 & D2 & D3).
  cbv zeta in D1, D2, D3.
  rewrite Henable in D1. rewrite Hendpoint in D2. rewrite Hinterval in D3.
  cbn in D1, D2, D3. unfold is_bool, is_string in *.
  injection D1 as D1. injection D2 as D2. injection D3 as D3.
  rewrite (MetricsConfig_LoadJSON_run env raw m j j Hj
             (envconfig_Process_no_overrides _ _ _ _ Henv)).
  rewrite <- D1, <- D2, <- D3, Ha, Hd. cbn -[Z.mul].
  repeat split.
Qed.

(** *** Round trip *)

(** Decoding the object that the encoder builds for a
    jsonMetricsConfig gives the struct back. *)
Lemma jsonMetricsConfig_decode_encoded (e : bool) (s d : string) :
  decode_members jsonMetricsConfig.fields
    [("enable_stats", JBool e); ("prometheus_endpoint", JString s);
     ("reporting_interval", JString d)]
    jsonMetricsConfig.zero None
  = (jsonMetricsConfig.mk e s d, None).
Proof. reflexivity. Qed.

Lemma jsonTracingConfig_decode_encoded (e : bool) (s lit n : string)
    (p : float64) :
  ParseFloat lit = Ok p ->
  decode_members jsonTracingConfig.fields
    [("enable_tracing", JBool e); ("jaeger_agent_endpoint", JString s);
     ("sampling_prob", JNumber lit); ("service_name", JString n)]
    jsonTracingConfig.zero None
  = (jsonTracingConfig.mk e s p n, None).
Proof.
  intros Hp.
  cbn [decode_members field_for List.find jsonTracingConfig.fields jsonTag
       String.eqb Ascii.eqb Bool.eqb].
  cbn [store acc]. rewrite Hp. reflexivity.
Qed.

(** A successful LoadJSON, taken apart: the document decoded, the
    environment was applied, both parsers accepted their strings,
    Validate passed, and the receiver holds the parsed values. *)
Lemma MetricsConfig_LoadJSON_success env raw (m : MetricsConfig.t) :
  ret (MetricsConfig.LoadJSON env raw m) = None ->
  exists j0 j a dst,
    json_Unmarshal jsonMetricsConfig.fields raw jsonMetricsConfig.zero
      = Ok j0
    /\ envconfig_Process env envConfigKey jsonMetricsConfig.fields j0 = Ok j
    /\ NewMultiaddr (jsonMetricsConfig.PrometheusEndpoint j) = Ok a
    /\ ParseDurations metricsConfigKey
         {| opt_Duration := jsonMetricsConfig.StatsReportingInterval j;
            opt_Dst := DefaultStatsReportingInterval;
            opt_Name := "metrics.reporting_interval" |} = (None, dst)
    /\ MetricsConfig.LoadJSON env raw m
       = mkRan None
           (MetricsConfig.mk (MetricsConfig.Saver m)
              (jsonMetricsConfig.EnableStats j) (Some a) dst) []
    /\ ret (MetricsConfig.Validate
              (MetricsConfig.mk (MetricsConfig.Saver m)
                 (jsonMetricsConfig.EnableStats j) (Some a) dst)) = None.
Proof.
  intros Hret.
  destruct (json_Unmarshal jsonMetricsConfig.fields raw
              jsonMetricsConfig.zero) as [j0|e] eqn:Hj0.
  2: { by rewrite (MetricsConfig_LoadJSON_undecodable _ _ _ _ Hj0) in Hret. }
  destruct (envconfig_Process env envConfigKey jsonMetricsConfig.fields j0)
    as [j|e] eqn:Hj.
  2: { unfold MetricsConfig.LoadJSON in Hret. rewrite Hj0 in Hret. run.
       rewrite MetricsConfig_Default_run in Hret. cbn [recv] in Hret.
       by rewrite Hj in Hret. }
  rewrite (MetricsConfig_LoadJSON_run _ _ _ _ _ Hj0 Hj) in Hret |- *.
  destruct (NewMultiaddr (jsonMetricsConfig.PrometheusEndpoint j))
    as [a|e] eqn:Ha; [|done].
  destruct (ParseDurations _ _) as [[err|] dst] eqn:Hd; [done|].
  cbn [ret] in Hret.
  exists j0, j, a, dst. cbv zeta. rewrite Hret. done.
Qed.

Lemma TracingConfig_LoadJSON_undecodable env raw (t : TracingConfig.t) e :
  json_Unmarshal jsonTracingConfig.fields raw jsonTracingConfig.zero
    = Err e ->
  TracingConfig.LoadJSON env raw t =
    mkRan (Some e) t ["Error unmarshaling observations config"].
Proof. intros He. unfold TracingConfig.LoadJSON. by rewrite He. Qed.

Lemma TracingConfig_LoadJSON_success env raw (t : TracingConfig.t) :
  ret (TracingConfig.LoadJSON env raw t) = None ->
  exists j0 j a,
    json_Unmarshal jsonTracingConfig.fields raw jsonTracingConfig.zero
      = Ok j0
    /\ envconfig_Process env envConfigKey jsonTracingConfig.fields j0 = Ok j
    /\ NewMultiaddr (jsonTracingConfig.JaegerAgentEndpoint j) = Ok a
    /\ TracingConfig.LoadJSON env raw t
       = mkRan None
           (TracingConfig.mk (TracingConfig.Saver t)
              (jsonTracingConfig.EnableTracing j) (Some a)
              (jsonTracingConfig.TracingSamplingProb j)
              (jsonTracingConfig.TracingServiceName j)) []
    /\ ret (TracingConfig.Validate
              (TracingConfig.mk (TracingConfig.Saver t)
                 (jsonTracingConfig.EnableTracing j) (Some a)
                 (jsonTracingConfig.TracingSamplingProb j)
                 (jsonTracingConfig.TracingServiceName j))) = None.
Proof.
  intros Hret.
  destruct (json_Unmarshal jsonTracingConfig.fields raw
              jsonTracingConfig.zero) as [j0|e] eqn:Hj0.
  2: { by rewrite (TracingConfig_LoadJSON_undecodable _ _ _ _ Hj0) in Hret. }
  destruct (envconfig_Process env envConfigKey jsonTracingConfig.fields j0)
    as [j|e] eqn:Hj.
  2: { unfold TracingConfig.LoadJSON in Hret. rewrite Hj0 in Hret. run.
       rewrite TracingConfig_Default_run in Hret. cbn [recv] in Hret.
       by rewrite Hj in Hret. }
  rewrite (TracingConfig_LoadJSON_run _ _ _ _ _ Hj0 Hj) in Hret |- *.
  destruct (NewMultiaddr (jsonTracingConfig.JaegerAgentEndpoint j))
    as [a|e] eqn:Ha; [|done].
  cbn [ret] in Hret.
  exists j0, j, a. cbv zeta. rewrite Hret. done.
Qed.

(** The round trip of a MetricsConfig, under the round trips of the
    imported packages at the values it holds. *)
Lemma MetricsConfig_round_trip env raw (m0 m1 : MetricsConfig.t) :
  let c := recv (MetricsConfig.LoadJSON env raw m0) in
  no_overrides env envConfigKey jsonMetricsConfig.fields ->
  ret (MetricsConfig.LoadJSON env raw m0) = None ->
  (forall a, MetricsConfig.PrometheusEndpoint c = Some a ->
     exists a', NewMultiaddr (Multiaddr_String a) = Ok a'
                /\ Multiaddr_String a' = Multiaddr_String a) ->
  ParseDurations metricsConfigKey
    {| opt_Duration :=
         Duration_String (MetricsConfig.StatsReportingInterval c);
       opt_Dst := DefaultStatsReportingInterval;
       opt_Name := "metrics.reporting_interval" |}
    = (None, MetricsConfig.StatsReportingInterval c) ->
  (forall a, MetricsConfig.PrometheusEndpoint c = Some a ->
     let doc :=
       JObject
         [("enable_stats", JBool (MetricsConfig.EnableStats c));
          ("prometheus_endpoint", JString (Multiaddr_String a));
          ("reporting_interval",
           JString (Duration_String
                      (MetricsConfig.StatsReportingInterval c)))] in
     json_scan (json_indent doc) = Ok doc) ->
  exists bytes a a',
    ret (MetricsConfig.ToJSON c) = Returns (Ok bytes)
    /\ MetricsConfig.PrometheusEndpoint c = Some a
    /\ Multiaddr_String a' = Multiaddr_String a
    /\ MetricsConfig.LoadJSON env bytes m1
       = mkRan None
           (MetricsConfig.mk (MetricsConfig.Saver m1)
              (MetricsConfig.EnableStats c) (Some a')
              (MetricsConfig.StatsReportingInterval c)) [].
Proof.
  intros c Henv Hret Hma Hdur Hjson. subst c.
  destruct (MetricsConfig_LoadJSON_success _ _ _ Hret)
    as (j0 & j & a & dst & _ & _ & _ & _ & Hload & Hval).
  rewrite Hload in *. cbn [recv] in *.
  cbn [MetricsConfig.EnableStats MetricsConfig.PrometheusEndpoint
       MetricsConfig.StatsReportingInterval] in *.
  destruct (Hma a eq_refl) as (a' & Hparse & Hsame).
  specialize (Hjson a eq_refl). cbv zeta in Hjson.
  exists (json_indent
            (JObject
               [("enable_stats", JBool (jsonMetricsConfig.EnableStats j));
                ("prometheus_endpoint", JString (Multiaddr_String a));
                ("reporting_interval", JString (Duration_String dst))])),
    a, a'.
  split; [reflexivity|]. split; [done|]. split; [done|].
  erewrite MetricsConfig_LoadJSON_run; cycle 1.
  - unfold json_Unmarshal. rewrite Hjson.
    by rewrite jsonMetricsConfig_decode_encoded.
  - by apply envconfig_Process_no_overrides.
  - cbn [jsonMetricsConfig.PrometheusEndpoint
         jsonMetricsConfig.StatsReportingInterval
         jsonMetricsConfig.EnableStats].
    rewrite Hparse, Hdur. cbv zeta.
    rewrite MetricsConfig_Validate_ret in Hval |- *.
    cbn [MetricsConfig.EnableStats MetricsConfig.PrometheusEndpoint
         MetricsConfig.StatsReportingInterval] in *.
    by rewrite Hval.
Qed.

(** The round trip of a TracingConfig, likewise. *)
Lemma TracingConfig_round_trip env raw (t0 t1 : TracingConfig.t) :
  let c := recv (TracingConfig.LoadJSON env raw t0) in
  no_overrides env envConfigKey jsonTracingConfig.fields ->
  ret (TracingConfig.LoadJSON env raw t0) = None ->
  IsNaN (TracingConfig.TracingSamplingProb c)
  || IsInf (TracingConfig.TracingSamplingProb c) = false ->
  (forall a, TracingConfig.JaegerAgentEndpoint c = Some a ->
     exists a', NewMultiaddr (Multiaddr_String a) = Ok a'
                /\ Multiaddr_String a' = Multiaddr_String a) ->
  ParseFloat (FormatFloat (TracingConfig.TracingSamplingProb c))
    = Ok (TracingConfig.TracingSamplingProb c) ->
  (forall a, TracingConfig.JaegerAgentEndpoint c = Some a ->
     let doc :=
       JObject
         [("enable_tracing", JBool (TracingConfig.EnableTracing c));
          ("jaeger_agent_endpoint", JString (Multiaddr_String a));
          ("sampling_prob",
           JNumber (FormatFloat (TracingConfig.TracingSamplingProb c)));
          ("service_name", JString (TracingConfig.TracingServiceName c))] in
     json_scan (json_indent doc) = Ok doc) ->
  exists bytes a a',
    ret (TracingConfig.ToJSON c) = Returns (Ok bytes)
    /\ TracingConfig.JaegerAgentEndpoint c = Some a
    /\ Multiaddr_String a' = Multiaddr_String a
    /\ TracingConfig.LoadJSON env bytes t1
       = mkRan None
           (TracingConfig.mk (TracingConfig.Saver t1)
              (TracingConfig.EnableTracing c) (Some a')
              (TracingConfig.TracingSamplingProb c)
              (TracingConfig.TracingServiceName c)) [].
Proof.
  intros c Henv Hret Hfinite Hma Hfloat Hjson. subst c.
  destruct (TracingConfig_LoadJSON_success _ _ _ Hret)
    as (j0 & j & a & _ & _ & _ & Hload & Hval).
  rewrite Hload in *. cbn [recv] in *.
  cbn [TracingConfig.EnableTracing TracingConfig.JaegerAgentEndpoint
       TracingConfig.TracingSamplingProb TracingConfig.TracingServiceName]
    in *.
  destruct (Hma a eq_refl) as (a' & Hparse & Hsame).
  specialize (Hjson a eq_refl). cbv zeta in Hjson.
  exists (json_indent
            (JObject
               [("enable_tracing",
                 JBool (jsonTracingConfig.EnableTracing j));
                ("jaeger_agent_endpoint", JString (Multiaddr_String a));
                ("sampling_prob",
                 JNumber (FormatFloat
                            (jsonTracingConfig.TracingSamplingProb j)));
                ("service_name",
                 JString (jsonTracingConfig.TracingServiceName j))])),
    a, a'.
  split.
  { unfold TracingConfig.ToJSON. run.
    cbn [TracingConfig.JaegerAgentEndpoint TracingConfig.EnableTracing
         TracingConfig.TracingSamplingProb TracingConfig.TracingServiceName].
    unfold DefaultJSONMarshal.
    cbn [encode_fields encode_field jsonTracingConfig.fields acc jsonTag
         jsonTracingConfig.EnableTracing jsonTracingConfig.JaegerAgentEndpoint
         jsonTracingConfig.TracingSamplingProb
         jsonTracingConfig.TracingServiceName].
    rewrite Hfinite. reflexivity. }
  split; [done|]. split; [done|].
  erewrite TracingConfig_LoadJSON_run; cycle 1.
  - unfold json_Unmarshal. rewrite Hjson.
    by rewrite (jsonTracingConfig_decode_encoded _ _ _ _ _ Hfloat).
  - by apply envconfig_Process_no_overrides.
  - cbn [jsonTracingConfig.EnableTracing
         jsonTracingConfig.JaegerAgentEndpoint
         jsonTracingConfig.TracingSamplingProb
         jsonTracingConfig.TracingServiceName].
    rewrite Hparse. cbv zeta.
    rewrite TracingConfig_Validate_ret in Hval |- *.
    cbn [TracingConfig.EnableTracing TracingConfig.JaegerAgentEndpoint
         TracingConfig.TracingSamplingProb] in *.
    by rewrite Hval.
Qed.

(** C1. Round trip.  Let a config be produced by a successful LoadJSON
    with no variable set.  Provided the imported packages read back what
    they wrote at the values in question (NewMultiaddr the endpoint's
    String, up to the string; ParseDurations the interval's String;
    ParseFloat the rendering of the probability, a finite number; the
    JSON scanner the printed document), ToJSON returns bytes for it, and
    LoadJSON on those bytes succeeds, on any instance, and yields the same
    enable flag, the same endpoint string and the same interval (metrics),
    the same sampling probability and service name (tracing). *)
Theorem LoadJSON_ToJSON_round_trip env raw_m raw_t
    (m0 m1 : MetricsConfig.t) (t0 t1 : TracingConfig.t) :
  (let c := recv (MetricsConfig.LoadJSON env raw_m m0) in
   no_overrides env envConfigKey jsonMetricsConfig.fields ->
   ret (MetricsConfig.LoadJSON env raw_m m0) = None ->
   (forall a, MetricsConfig.PrometheusEndpoint c = Some a ->
      exists a', NewMultiaddr (Multiaddr_String a) = Ok a'
                 /\ Multiaddr_String a' = Multiaddr_String a) ->
   ParseDurations metricsConfigKey
     {| opt_Duration :=
          Duration_String (MetricsConfig.StatsReportingInterval c);
        opt_Dst := DefaultStatsReportingInterval;
        opt_Name := "metrics.reporting_interval" |}
     = (None, MetricsConfig.StatsReportingInterval c) ->
   (forall a, MetricsConfig.PrometheusEndpoint c = Some a ->
      let doc :=
        JObject
          [("enable_stats", JBool (MetricsConfig.EnableStats c));
           ("prometheus_endpoint", JString (Multiaddr_String a));
           ("reporting_interval",
            JString (Duration_String
                       (MetricsConfig.StatsReportingInterval c)))] in
      json_scan (json_indent doc) = Ok doc) ->
   exists bytes,
     ret (MetricsConfig.ToJSON c) = Returns (Ok bytes)
     /\ let r := MetricsConfig.LoadJSON env bytes m1 in
        ret r = None
        /\ MetricsConfig.EnableStats (recv r) = MetricsConfig.EnableStats c
        /\ Multiaddr_String <$> MetricsConfig.PrometheusEndpoint (recv r)
           = Multiaddr_String <$> MetricsConfig.PrometheusEndpoint c
        /\ MetricsConfig.StatsReportingInterval (recv r)
           = MetricsConfig.StatsReportingInterval c)
  /\
  (let c := recv (TracingConfig.LoadJSON env raw_t t0) in
   no_overrides env envConfigKey jsonTracingConfig.fields ->
   ret (TracingConfig.LoadJSON env raw_t t0) = None ->
   IsNaN (TracingConfig.TracingSamplingProb c)
   || IsInf (TracingConfig.TracingSamplingProb c) = false ->
   (forall a, TracingConfig.JaegerAgentEndpoint c = Some a ->
      exists a', NewMultiaddr (Multiaddr_String a) = Ok a'
                 /\ Multiaddr_String a' = Multiaddr_String a) ->
   ParseFloat (FormatFloat (TracingConfig.TracingSamplingProb c))
     = Ok (TracingConfig.TracingSamplingProb c) ->
   (forall a, TracingConfig.JaegerAgentEndpoint c = Some a ->
      let doc :=
        JObject
          [("enable_tracing", JBool (TracingConfig.EnableTracing c));
           ("jaeger_agent_endpoint", JString (Multiaddr_String a));
           ("sampling_prob",
            JNumber (FormatFloat (TracingConfig.TracingSamplingProb c)));
           ("service_name",
            JString (TracingConfig.TracingServiceName c))] in
      json_scan (json_indent doc) = Ok doc) ->
   exists bytes,
     ret (TracingConfig.ToJSON c) = Returns (Ok bytes)
     /\ let r := TracingConfig.LoadJSON env bytes t1 in
        ret r = None
        /\ TracingConfig.EnableTracing (recv r)
           = TracingConfig.EnableTracing c
        /\ Multiaddr_String <$> TracingConfig.JaegerAgentEndpoint (recv r)
           = Multiaddr_String <$> TracingConfig.JaegerAgentEndpoint c
        /\ TracingConfig.TracingSamplingProb (recv r)
           = TracingConfig.TracingSamplingProb c
        /\ TracingConfig.TracingServiceName (recv r)
           = TracingConfig.TracingServiceName c).
Proof.
  split.
  - intros c Henv Hret Hma Hdur Hjson.
    destruct (MetricsConfig_round_trip env raw_m m0 m1
                Henv Hret Hma Hdur Hjson)
      as (bytes & a & a' & Hbytes & Hc & Hsame & Hr).
    exists bytes. split; [done|]. cbv zeta.
    subst c. rewrite Hr, Hc. cbn. by rewrite Hsame.
  - intros c Henv Hret Hfinite Hma Hfl Hjson.
    destruct (TracingConfig_round_trip env raw_t t0 t1
                Henv Hret Hfinite Hma Hfl Hjson)
      as (bytes & a & a' & Hbytes & Hc & Hsame & Hr).
    exists bytes. split; [done|]. cbv zeta.
    subst c. rewrite Hr, Hc. cbn. by rewrite Hsame.
Qed.

(** *** Precedence *)

(** C3, as amended.  In a successfully loaded config every field comes
    from the intermediate JSON struct, whose fields follow the
    precedence order, lowest to highest: the Go zero value (false, the
    empty string, 0), then the value of the deciding member of the JSON
    document, then the parsed value of the environment variable.  The
    enable flag, the sampling probability and the service name are
    copied from the struct; the endpoint is the parse of the struct's
    string; the reporting interval is what config.ParseDurations leaves
    in a destination holding the compiled default.  So the compiled
    default is no fallback for the enable flag, the endpoint, the
    sampling probability or the service name: with sampling_prob
    (service_name) absent from the document and the environment, the
    loaded TracingSamplingProb is 0 (TracingServiceName is empty).  And
    whatever the document says of enable_stats (false, say), a variable
    whose value parses to true leaves EnableStats true. *)
Theorem LoadJSON_precedence env raw
    (m0 : MetricsConfig.t) (t0 : TracingConfig.t) :
  let rm := MetricsConfig.LoadJSON env raw m0 in
  let rt := TracingConfig.LoadJSON env raw t0 in
  (ret rm = None ->
   exists document j0 j a,
     let decider :=
       last_for jsonMetricsConfig.fields (members_of document) in
     json_scan raw = Ok document
     /\ (from_document is_bool false (decider "EnableStats")
           (jsonMetricsConfig.EnableStats j0)
         /\ from_environment ParseBool
              (env !! "CLUSTER_OBSERVATIONS_ENABLESTATS")
              (jsonMetricsConfig.EnableStats j0)
              (jsonMetricsConfig.EnableStats j)
         /\ MetricsConfig.EnableStats (recv rm)
            = jsonMetricsConfig.EnableStats j)
     /\ (from_document is_string "" (decider "PrometheusEndpoint")
           (jsonMetricsConfig.PrometheusEndpoint j0)
         /\ from_environment Ok
              (env !! "CLUSTER_OBSERVATIONS_PROMETHEUSENDPOINT")
              (jsonMetricsConfig.PrometheusEndpoint j0)
              (jsonMetricsConfig.PrometheusEndpoint j)
         /\ NewMultiaddr (jsonMetricsConfig.PrometheusEndpoint j) = Ok a
         /\ MetricsConfig.PrometheusEndpoint (recv rm) = Some a)
     /\ (from_document is_string "" (decider "StatsReportingInterval")
           (jsonMetricsConfig.StatsReportingInterval j0)
         /\ from_environment Ok
              (env !! "CLUSTER_OBSERVATIONS_STATSREPORTINGINTERVAL")
              (jsonMetricsConfig.StatsReportingInterval j0)
              (jsonMetricsConfig.StatsReportingInterval j)
         /\ ParseDurations metricsConfigKey
              {| opt_Duration := jsonMetricsConfig.StatsReportingInterval j;
                 opt_Dst := DefaultStatsReportingInterval;
                 opt_Name := "metrics.reporting_interval" |}
            = (None, MetricsConfig.StatsReportingInterval (recv rm))))
  /\ (ret rt = None ->
      exists document j0 j a,
        let decider :=
          last_for jsonTracingConfig.fields (members_of document) in
        json_scan raw = Ok document
        /\ (from_document is_bool false (decider "EnableTracing")
              (jsonTracingConfig.EnableTracing j0)
            /\ from_environment ParseBool
                 (env !! "CLUSTER_OBSERVATIONS_ENABLETRACING")
                 (jsonTracingConfig.EnableTracing j0)
                 (jsonTracingConfig.EnableTracing j)
            /\ TracingConfig.EnableTracing (recv rt)
               = jsonTracingConfig.EnableTracing j)
        /\ (from_document is_string "" (decider "JaegerAgentEndpoint")
              (jsonTracingConfig.JaegerAgentEndpoint j0)
            /\ from_environment Ok
                 (env !! "CLUSTER_OBSERVATIONS_JAEGERAGENTENDPOINT")
                 (jsonTracingConfig.JaegerAgentEndpoint j0)
                 (jsonTracingConfig.JaegerAgentEndpoint j)
            /\ NewMultiaddr (jsonTracingConfig.JaegerAgentEndpoint j) = Ok a
            /\ TracingConfig.JaegerAgentEndpoint (recv rt) = Some a)
        /\ (from_document is_float64 float64_zero
              (decider "TracingSamplingProb")
              (jsonTracingConfig.TracingSamplingProb j0)
            /\ from_environment ParseFloat
                 (env !! "CLUSTER_OBSERVATIONS_TRACINGSAMPLINGPROB")
                 (jsonTracingConfig.TracingSamplingProb j0)
                 (jsonTracingConfig.TracingSamplingProb j)
            /\ TracingConfig.TracingSamplingProb (recv rt)
               = jsonTracingConfig.TracingSamplingProb j)
        /\ (from_document is_string "" (decider "TracingServiceName")
              (jsonTracingConfig.TracingServiceName j0)
            /\ from_environment Ok
                 (env !! "CLUSTER_OBSERVATIONS_TRACINGSERVICENAME")
                 (jsonTracingConfig.TracingServiceName j0)
                 (jsonTracingConfig.TracingServiceName j)
            /\ TracingConfig.TracingServiceName (recv rt)
               = jsonTracingConfig.TracingServiceName j))
  /\ (forall document,
        ret rt = None ->
        json_scan raw = Ok document ->
        (last_for jsonTracingConfig.fields (members_of document)
           "TracingSamplingProb" = None ->
         env !! "CLUSTER_OBSERVATIONS_TRACINGSAMPLINGPROB" = None ->
         TracingConfig.TracingSamplingProb (recv rt) = float64_zero)
        /\ (last_for jsonTracingConfig.fields (members_of document)
              "TracingServiceName" = None ->
            env !! "CLUSTER_OBSERVATIONS_TRACINGSERVICENAME" = None ->
            TracingConfig.TracingServiceName (recv rt) = ""))
  /\ (forall value,
        ret rm = None ->
        env !! "CLUSTER_OBSERVATIONS_ENABLESTATS" = Some value ->
        ParseBool value = Ok true ->
        MetricsConfig.EnableStats (recv rm) = true).
Proof.
  intros rm rt.
  assert (ret rm = None ->
          exists document j0 j a dst,
            json_scan raw = Ok document
            /\ json_Unmarshal jsonMetricsConfig.fields raw
                 jsonMetricsConfig.zero = Ok j0
            /\ envconfig_Process env envConfigKey
                 jsonMetricsConfig.fields j0 = Ok j
            /\ NewMultiaddr (jsonMetricsConfig.PrometheusEndpoint j) = Ok a
            /\ ParseDurations metricsConfigKey
                 {| opt_Duration :=
                      jsonMetricsConfig.StatsReportingInterval j;
                    opt_Dst := DefaultStatsReportingInterval;
                    opt_Name := "metrics.reporting_interval" |}
               = (None, dst)
            /\ recv rm
               = MetricsConfig.mk (MetricsConfig.Saver m0)
                   (jsonMetricsConfig.EnableStats j) (Some a) dst) as Hm.
  { intros Hret.
    destruct (MetricsConfig_LoadJSON_success _ _ _ Hret)
      as (j0 & j & a & dst & Hj0 & Hj & Ha & Hd & Hload & _).
    destruct (json_Unmarshal_scanned _ _ _ _ Hj0) as [document Hdoc].
    exists document, j0, j, a, dst. subst rm. by rewrite Hload. }
  assert (ret rt = None ->
          exists document j0 j a,
            json_scan raw = Ok document
            /\ json_Unmarshal jsonTracingConfig.fields raw
                 jsonTracingConfig.zero = Ok j0
            /\ envconfig_Process env envConfigKey
                 jsonTracingConfig.fields j0 = Ok j
            /\ NewMultiaddr (jsonTracingConfig.JaegerAgentEndpoint j) = Ok a
            /\ recv rt
               = TracingConfig.mk (TracingConfig.Saver t0)
                   (jsonTracingConfig.EnableTracing j) (Some a)
                   (jsonTracingConfig.TracingSamplingProb j)
                   (jsonTracingConfig.TracingServiceName j)) as Ht.
  { intros Hret.
    destruct (TracingConfig_LoadJSON_success _ _ _ Hret)
      as (j0 & j & a & Hj0 & Hj & Ha & Hload & _).
    destruct (json_Unmarshal_scanned _ _ _ _ Hj0) as [document Hdoc].
    exists document, j0, j, a. subst rt. by rewrite Hload. }
  split; [|split; [|split]].
  - intros Hret.
    destruct (Hm Hret) as (document & j0 & j & a & dst & Hdoc & Hj0 & Hj
                           & Ha & Hd & ->).
    destruct (jsonMetricsConfig_from_document _ _ _ Hdoc Hj0)
      as (D1 & D2 & D3).
    destruct (jsonMetricsConfig_from_environment _ _ _ Hj)
      as (E1 & E2 & E3).
    exists document, j0, j, a. cbv zeta. repeat split; done.
  - intros Hret.
    destruct (Ht Hret) as (document & j0 & j & a & Hdoc & Hj0 & Hj
                           & Ha & ->).
    destruct (jsonTracingConfig_from_document _ _ _ Hdoc Hj0)
      as (D1 & D2 & D3 & D4).
    destruct (jsonTracingConfig_from_environment _ _ _ Hj)
      as (E1 & E2 & E3 & E4).
    exists document, j0, j, a. cbv zeta. repeat split; done.
  - intros document Hret Hdoc.
    destruct (Ht Hret) as (document' & j0 & j & a & Hdoc' & Hj0 & Hj
                           & Ha & ->).
    rewrite Hdoc in Hdoc'. injection Hdoc' as <-.
    destruct (jsonTracingConfig_from_document _ _ _ Hdoc Hj0)
      as (_ & _ & D3 & D4).
    destruct (jsonTracingConfig_from_environment _ _ _ Hj)
      as (_ & _ & E3 & E4).
    cbv zeta in D3, D4. cbn [TracingConfig.TracingSamplingProb
                             TracingConfig.TracingServiceName].
    split; intros Hdecider Hvar.
    + rewrite Hdecider in D3. rewrite Hvar in E3. cbn in D3, E3. congruence.
    + rewrite Hdecider in D4. rewrite Hvar in E4. cbn in D4, E4. congruence.
  - intros value Hret Hvar Hparse.
    destruct (Hm Hret) as (document & j0 & j & a & dst & Hdoc & Hj0 & Hj
                           & Ha & Hd & ->).
    destruct (jsonMetricsConfig_from_environment _ _ _ Hj) as (E1 & _).
    rewrite Hvar in E1. cbn in E1. cbn [MetricsConfig.EnableStats].
    congruence.
Qed.
End Properties.

(** ** Further properties of the two sections *)

Section Further.
Context `{Libs}.

(** *** The paths of LoadJSON *)

(** A variable that does not parse: the error of envconfig.Process is
    returned, and the receiver is as Default left it. *)
Lemma MetricsConfig_LoadJSON_env_error env raw (m : MetricsConfig.t) j0 e :
  json_Unmarshal jsonMetricsConfig.fields raw jsonMetricsConfig.zero
    = Ok j0 ->
  envconfig_Process env envConfigKey jsonMetricsConfig.fields j0 = Err e ->
  MetricsConfig.LoadJSON env raw m
  = mkRan (Some e)
      (MetricsConfig.mk (MetricsConfig.Saver m) DefaultEnableStats
         (value_or_nil (NewMultiaddr DefaultPrometheusEndpoint))
         DefaultStatsReportingInterval) [].
Proof.
  intros Hj0 Hj. unfold MetricsConfig.LoadJSON. rewrite Hj0. run.
  rewrite MetricsConfig_Default_run. cbn [ret recv logged].
  by rewrite Hj.
Qed.

Lemma TracingConfig_LoadJSON_env_error env raw (t : TracingConfig.t) j0 e :
  json_Unmarshal jsonTracingConfig.fields raw jsonTracingConfig.zero
    = Ok j0 ->
  envconfig_Process env envConfigKey jsonTracingConfig.fields j0 = Err e ->
  TracingConfig.LoadJSON env raw t
  = mkRan (Some e)
      (TracingConfig.mk (TracingConfig.Saver t) DefaultEnableTracing
         (value_or_nil (NewMultiaddr DefaultJaegerAgentEndpoint))
         DefaultTracingSamplingProb DefaultTracingServiceName) [].
Proof.
  intros Hj0 Hj. unfold TracingConfig.LoadJSON. rewrite Hj0. run.
  rewrite TracingConfig_Default_run. cbn [ret recv logged].
  by rewrite Hj.
Qed.

(** LoadJSON of a MetricsConfig ends in one of five ways: the document
    does not decode; a variable does not parse; the endpoint does not
    parse; the interval does not parse; or Validate gives the verdict. *)
Lemma MetricsConfig_LoadJSON_cases env raw (m : MetricsConfig.t) :
  (exists e,
     json_Unmarshal jsonMetricsConfig.fields raw jsonMetricsConfig.zero
       = Err e
     /\ MetricsConfig.LoadJSON env raw m
        = mkRan (Some e) m ["Error unmarshaling observations config"])
  \/ (exists j0 e,
        json_Unmarshal jsonMetricsConfig.fields raw jsonMetricsConfig.zero
          = Ok j0
        /\ envconfig_Process env envConfigKey jsonMetricsConfig.fields j0
           = Err e
        /\ MetricsConfig.LoadJSON env raw m
           = mkRan (Some e)
               (MetricsConfig.mk (MetricsConfig.Saver m) DefaultEnableStats
                  (value_or_nil (NewMultiaddr DefaultPrometheusEndpoint))
                  DefaultStatsReportingInterval) [])
  \/ (exists j0 j e,
        json_Unmarshal jsonMetricsConfig.fields raw jsonMetricsConfig.zero
          = Ok j0
        /\ envconfig_Process env envConfigKey jsonMetricsConfig.fields j0
           = Ok j
        /\ NewMultiaddr (jsonMetricsConfig.PrometheusEndpoint j) = Err e
        /\ MetricsConfig.LoadJSON env raw m
           = mkRan
               (Some (fmt_Errorf
                        "loadMetricsOptions: PrometheusEndpoint multiaddr: %v"
                        e))
               (MetricsConfig.mk (MetricsConfig.Saver m)
                  (jsonMetricsConfig.EnableStats j)
                  (value_or_nil (NewMultiaddr DefaultPrometheusEndpoint))
                  DefaultStatsReportingInterval) [])
  \/ (exists j0 j a e dst,
        json_Unmarshal jsonMetricsConfig.fields raw jsonMetricsConfig.zero
          = Ok j0
        /\ envconfig_Process env envConfigKey jsonMetricsConfig.fields j0
           = Ok j
        /\ NewMultiaddr (jsonMetricsConfig.PrometheusEndpoint j) = Ok a
        /\ ParseDurations metricsConfigKey
             {| opt_Duration := jsonMetricsConfig.StatsReportingInterval j;
                opt_Dst := DefaultStatsReportingInterval;
                opt_Name := "metrics.reporting_interval" |} = (Some e, dst)
        /\ MetricsConfig.LoadJSON env raw m
           = mkRan (Some e)
               (MetricsConfig.mk (MetricsConfig.Saver m)
                  (jsonMetricsConfig.EnableStats j) (Some a) dst) [])
  \/ (exists j0 j a dst,
        json_Unmarshal jsonMetricsConfig.fields raw jsonMetricsConfig.zero
          = Ok j0
        /\ envconfig_Process env envConfigKey jsonMetricsConfig.fields j0
           = Ok j
        /\ NewMultiaddr (jsonMetricsConfig.PrometheusEndpoint j) = Ok a
        /\ ParseDurations metricsConfigKey
             {| opt_Duration := jsonMetricsConfig.StatsReportingInterval j;
                opt_Dst := DefaultStatsReportingInterval;
                opt_Name := "metrics.reporting_interval" |} = (None, dst)
        /\ MetricsConfig.LoadJSON env raw m
           = mkRan
               (ret (MetricsConfig.Validate
                       (MetricsConfig.mk (MetricsConfig.Saver m)
                          (jsonMetricsConfig.EnableStats j) (Some a) dst)))
               (MetricsConfig.mk (MetricsConfig.Saver m)
                  (jsonMetricsConfig.EnableStats j) (Some a) dst) []).
Proof.
  destruct (json_Unmarshal jsonMetricsConfig.fields raw
              jsonMetricsConfig.zero) as [j0|e] eqn:Hj0.
  2: { left. exists e. split; [done|].
       by apply MetricsConfig_LoadJSON_undecodable. }
  right.
  destruct (envconfig_Process env envConfigKey jsonMetricsConfig.fields j0)
    as [j|e] eqn:Hj.
  2: { left. exists j0, e. split; [done|]. split; [done|].
       by apply (MetricsConfig_LoadJSON_env_error _ _ _ j0). }
  right.
  rewrite (MetricsConfig_LoadJSON_run _ _ _ _ _ Hj0 Hj).
  destruct (NewMultiaddr (jsonMetricsConfig.PrometheusEndpoint j))
    as [a|e] eqn:Ha.
  2: { left. by exists j0, j, e. }
  right.
  destruct (ParseDurations _ _) as [[e|] dst] eqn:Hd.
  - left. by exists j0, j, a, e, dst.
  - right. by exists j0, j, a, dst.
Qed.

(** LoadJSON of a TracingConfig ends in one of four ways. *)
Lemma TracingConfig_LoadJSON_cases env raw (t : TracingConfig.t) :
  (exists e,
     json_Unmarshal jsonTracingConfig.fields raw jsonTracingConfig.zero
       = Err e
     /\ TracingConfig.LoadJSON env raw t
        = mkRan (Some e) t ["Error unmarshaling observations config"])
  \/ (exists j0 e,
        json_Unmarshal jsonTracingConfig.fields raw jsonTracingConfig.zero
          = Ok j0
        /\ envconfig_Process env envConfigKey jsonTracingConfig.fields j0
           = Err e
        /\ TracingConfig.LoadJSON env raw t
           = mkRan (Some e)
               (TracingConfig.mk (TracingConfig.Saver t) DefaultEnableTracing
                  (value_or_nil (NewMultiaddr DefaultJaegerAgentEndpoint))
                  DefaultTracingSamplingProb DefaultTracingServiceName) [])
  \/ (exists j0 j e,
        json_Unmarshal jsonTracingConfig.fields raw jsonTracingConfig.zero
          = Ok j0
        /\ envconfig_Process env envConfigKey jsonTracingConfig.fields j0
           = Ok j
        /\ NewMultiaddr (jsonTracingConfig.JaegerAgentEndpoint j) = Err e
        /\ TracingConfig.LoadJSON env raw t
           = mkRan
               (Some (fmt_Errorf
                        "loadTracingOptions: JaegerAgentEndpoint multiaddr: %v"
                        e))
               (TracingConfig.mk (TracingConfig.Saver t)
                  (jsonTracingConfig.EnableTracing j)
                  (value_or_nil (NewMultiaddr DefaultJaegerAgentEndpoint))
                  DefaultTracingSamplingProb DefaultTracingServiceName) [])
  \/ (exists j0 j a,
        json_Unmarshal jsonTracingConfig.fields raw jsonTracingConfig.zero
          = Ok j0
        /\ envconfig_Process env envConfigKey jsonTracingConfig.fields j0
           = Ok j
        /\ NewMultiaddr (jsonTracingConfig.JaegerAgentEndpoint j) = Ok a
        /\ TracingConfig.LoadJSON env raw t
           = mkRan
               (ret (TracingConfig.Validate
                       (TracingConfig.mk (TracingConfig.Saver t)
                          (jsonTracingConfig.EnableTracing j) (Some a)
                          (jsonTracingConfig.TracingSamplingProb j)
                          (jsonTracingConfig.TracingServiceName j))))
               (TracingConfig.mk (TracingConfig.Saver t)
                  (jsonTracingConfig.EnableTracing j) (Some a)
                  (jsonTracingConfig.TracingSamplingProb j)
                  (jsonTracingConfig.TracingServiceName j)) []).
Proof.
  destruct (json_Unmarshal jsonTracingConfig.fields raw
              jsonTracingConfig.zero) as [j0|e] eqn:Hj0.
  2: { left. exists e. split; [done|].
       by apply TracingConfig_LoadJSON_undecodable. }
  right.
  destruct (envconfig_Process env envConfigKey jsonTracingConfig.fields j0)
    as [j|e] eqn:Hj.
  2: { left. exists j0, e. split; [done|]. split; [done|].
       by apply (TracingConfig_LoadJSON_env_error _ _ _ j0). }
  right.
  rewrite (TracingConfig_LoadJSON_run _ _ _ _ _ Hj0 Hj).
  destruct (NewMultiaddr (jsonTracingConfig.JaegerAgentEndpoint j))
    as [a|e] eqn:Ha.
  - right. by exists j0, j, a.
  - left. by exists j0, j, e.
Qed.

(** *** What LoadJSON writes, and where *)

(** X1. LoadJSON writes to the logger exactly when the document does not
    decode: then it logs one line, returns the decoder's error as it is
    and leaves the receiver untouched (Default has not run); when the
    document decodes, nothing is logged, whatever happens next. *)
Theorem LoadJSON_logs_on_decode_failure_only env raw
    (m : MetricsConfig.t) (t : TracingConfig.t) :
  (forall e,
     json_Unmarshal jsonMetricsConfig.fields raw jsonMetricsConfig.zero
       = Err e ->
     MetricsConfig.LoadJSON env raw m
     = mkRan (Some e) m ["Error unmarshaling observations config"])
  /\ (forall j0,
        json_Unmarshal jsonMetricsConfig.fields raw jsonMetricsConfig.zero
          = Ok j0 ->
        logged (MetricsConfig.LoadJSON env raw m) = [])
  /\ (forall e,
        json_Unmarshal jsonTracingConfig.fields raw jsonTracingConfig.zero
          = Err e ->
        TracingConfig.LoadJSON env raw t
        = mkRan (Some e) t ["Error unmarshaling observations config"])
  /\ (forall j0,
        json_Unmarshal jsonTracingConfig.fields raw jsonTracingConfig.zero
          = Ok j0 ->
        logged (TracingConfig.LoadJSON env raw t) = []).
Proof.
  split; [|split; [|split]].
  - intros e He. by apply MetricsConfig_LoadJSON_undecodable.
  - intros j0 Hok.
    destruct (MetricsConfig_LoadJSON_cases env raw m)
      as [(e & Hj0 & Hr)|[(j & e & Hj0 & Hj & Hr)
         |[(j & j' & e & Hj0 & Hj & Ha & Hr)
          |[(j & j' & a & e & dst & Hj0 & Hj & Ha & Hd & Hr)
           |(j & j' & a & dst & Hj0 & Hj & Ha & Hd & Hr)]]]];
      rewrite Hr; [congruence|done..].
  - intros e He. by apply TracingConfig_LoadJSON_undecodable.
  - intros j0 Hok.
    destruct (TracingConfig_LoadJSON_cases env raw t)
      as [(e & Hj0 & Hr)|[(j & e & Hj0 & Hj & Hr)
         |[(j & j' & e & Hj0 & Hj & Ha & Hr)
          |(j & j' & a & Hj0 & Hj & Ha & Hr)]]];
      rewrite Hr; [congruence|done..].
Qed.

(** X2. No method assigns the embedded Saver: it is the same after
    Default and after LoadJSON, on every path.  Validate and ToJSON assign
    nothing at all and do not log. *)
Theorem Saver_is_never_assigned env raw
    (m : MetricsConfig.t) (t : TracingConfig.t) :
  (MetricsConfig.Saver (recv (MetricsConfig.Default m))
   = MetricsConfig.Saver m
   /\ MetricsConfig.Saver (recv (MetricsConfig.LoadJSON env raw m))
      = MetricsConfig.Saver m
   /\ MetricsConfig.Validate m
      = mkRan (ret (MetricsConfig.Validate m)) m []
   /\ MetricsConfig.ToJSON m = mkRan (ret (MetricsConfig.ToJSON m)) m [])
  /\ (TracingConfig.Saver (recv (TracingConfig.Default t))
      = TracingConfig.Saver t
      /\ TracingConfig.Saver (recv (TracingConfig.LoadJSON env raw t))
         = TracingConfig.Saver t
      /\ TracingConfig.Validate t
         = mkRan (ret (TracingConfig.Validate t)) t []
      /\ TracingConfig.ToJSON t = mkRan (ret (TracingConfig.ToJSON t)) t []).
Proof.
  split; (split; [reflexivity|split; [|split]]).
  - destruct (MetricsConfig_LoadJSON_cases env raw m)
      as [(e & Hj0 & Hr)|[(j & e & Hj0 & Hj & Hr)
         |[(j & j' & e & Hj0 & Hj & Ha & Hr)
          |[(j & j' & a & e & dst & Hj0 & Hj & Ha & Hd & Hr)
           |(j & j' & a & dst & Hj0 & Hj & Ha & Hd & Hr)]]]];
      by rewrite Hr.
  - destruct (MetricsConfig_Validate_reads m) as [Hrecv Hlog].
    destruct (MetricsConfig.Validate m); cbn in *; congruence.
  - unfold MetricsConfig.ToJSON. run.
    by destruct (MetricsConfig.PrometheusEndpoint m).
  - destruct (TracingConfig_LoadJSON_cases env raw t)
      as [(e & Hj0 & Hr)|[(j & e & Hj0 & Hj & Hr)
         |[(j & j' & e & Hj0 & Hj & Ha & Hr)
          |(j & j' & a & Hj0 & Hj & Ha & Hr)]]];
      by rewrite Hr.
  - destruct (TracingConfig_Validate_reads t) as [Hrecv Hlog].
    destruct (TracingConfig.Validate t); cbn in *; congruence.
  - unfold TracingConfig.ToJSON. run.
    by destruct (TracingConfig.JaegerAgentEndpoint t).
Qed.

(** X3. A decoded document makes LoadJSON forget the receiver: two
    instances, whatever they held, come out of the same LoadJSON with the
    same result and the same fields (Default is run first, and the
    interval's destination holds the compiled default).  Only the Saver
    is kept. *)
Theorem LoadJSON_forgets_the_receiver env raw
    (m1 m2 : MetricsConfig.t) (t1 t2 : TracingConfig.t) :
  (forall j0,
     json_Unmarshal jsonMetricsConfig.fields raw jsonMetricsConfig.zero
       = Ok j0 ->
     let r1 := MetricsConfig.LoadJSON env raw m1 in
     let r2 := MetricsConfig.LoadJSON env raw m2 in
     ret r1 = ret r2
     /\ MetricsConfig.EnableStats (recv r1)
        = MetricsConfig.EnableStats (recv r2)
     /\ MetricsConfig.PrometheusEndpoint (recv r1)
        = MetricsConfig.PrometheusEndpoint (recv r2)
     /\ MetricsConfig.StatsReportingInterval (recv r1)
        = MetricsConfig.StatsReportingInterval (recv r2))
  /\ (forall j0,
        json_Unmarshal jsonTracingConfig.fields raw jsonTracingConfig.zero
          = Ok j0 ->
        let r1 := TracingConfig.LoadJSON env raw t1 in
        let r2 := TracingConfig.LoadJSON env raw t2 in
        ret r1 = ret r2
        /\ TracingConfig.EnableTracing (recv r1)
           = TracingConfig.EnableTracing (recv r2)
        /\ TracingConfig.JaegerAgentEndpoint (recv r1)
           = TracingConfig.JaegerAgentEndpoint (recv r2)
        /\ TracingConfig.TracingSamplingProb (recv r1)
           = TracingConfig.TracingSamplingProb (recv r2)
        /\ TracingConfig.TracingServiceName (recv r1)
           = TracingConfig.TracingServiceName (recv r2)).
Proof.
  split; intros j0 Hj0 r1 r2; subst r1 r2.
  - destruct (envconfig_Process env envConfigKey jsonMetricsConfig.fields j0)
      as [j|e] eqn:Hj.
    2: { by rewrite !(MetricsConfig_LoadJSON_env_error _ _ _ _ _ Hj0 Hj). }
    rewrite !(MetricsConfig_LoadJSON_run _ _ _ _ _ Hj0 Hj).
    destruct (NewMultiaddr _) as [a|e]; [|done].
    destruct (ParseDurations _ _) as [[e|] dst]; [done|].
    cbv zeta. cbn [ret recv]. by rewrite !MetricsConfig_Validate_ret.
  - destruct (envconfig_Process env envConfigKey jsonTracingConfig.fields j0)
      as [j|e] eqn:Hj.
    2: { by rewrite !(TracingConfig_LoadJSON_env_error _ _ _ _ _ Hj0 Hj). }
    rewrite !(TracingConfig_LoadJSON_run _ _ _ _ _ Hj0 Hj).
    destruct (NewMultiaddr _) as [a|e]; [|done].
    cbv zeta. cbn [ret recv]. by rewrite !TracingConfig_Validate_ret.
Qed.

(** X4. LoadJSON is idempotent: loading the same document again, in the
    same environment, into the instance it was loaded into changes
    nothing, and returns and logs the same.  So is Default. *)
Theorem LoadJSON_idempotent env raw
    (m : MetricsConfig.t) (t : TracingConfig.t) :
  MetricsConfig.LoadJSON env raw (recv (MetricsConfig.LoadJSON env raw m))
  = MetricsConfig.LoadJSON env raw m
  /\ TracingConfig.LoadJSON env raw (recv (TracingConfig.LoadJSON env raw t))
     = TracingConfig.LoadJSON env raw t
  /\ MetricsConfig.Default (recv (MetricsConfig.Default m))
     = MetricsConfig.Default m
  /\ TracingConfig.Default (recv (TracingConfig.Default t))
     = TracingConfig.Default t.
Proof.
  split; [|split; [|split; reflexivity]].
  - destruct (MetricsConfig_LoadJSON_cases env raw m)
      as [(e & Hj0 & Hr)|[(j0 & e & Hj0 & Hj & Hr)
         |[(j0 & j & e & Hj0 & Hj & Ha & Hr)
          |[(j0 & j & a & e & dst & Hj0 & Hj & Ha & Hd & Hr)
           |(j0 & j & a & dst & Hj0 & Hj & Ha & Hd & Hr)]]]];
      rewrite Hr; cbn [recv].
    + by apply MetricsConfig_LoadJSON_undecodable.
    + by rewrite (MetricsConfig_LoadJSON_env_error _ _ _ _ _ Hj0 Hj).
    + by rewrite (MetricsConfig_LoadJSON_run _ _ _ _ _ Hj0 Hj), Ha.
    + by rewrite (MetricsConfig_LoadJSON_run _ _ _ _ _ Hj0 Hj), Ha, Hd.
    + by rewrite (MetricsConfig_LoadJSON_run _ _ _ _ _ Hj0 Hj), Ha, Hd.
  - destruct (TracingConfig_LoadJSON_cases env raw t)
      as [(e & Hj0 & Hr)|[(j0 & e & Hj0 & Hj & Hr)
         |[(j0 & j & e & Hj0 & Hj & Ha & Hr)
          |(j0 & j & a & Hj0 & Hj & Ha & Hr)]]];
      rewrite Hr; cbn [recv].
    + by apply TracingConfig_LoadJSON_undecodable.
    + by rewrite (TracingConfig_LoadJSON_env_error _ _ _ _ _ Hj0 Hj).
    + by rewrite (TracingConfig_LoadJSON_run _ _ _ _ _ Hj0 Hj), Ha.
    + by rewrite (TracingConfig_LoadJSON_run _ _ _ _ _ Hj0 Hj), Ha.
Qed.

(** *** Default, and what can follow it *)

(** X5. What Default leaves always passes Validate, on any instance and
    even if the default endpoint string were rejected by NewMultiaddr:
    both defaults are disabled, and Validate does not look further. *)
Theorem Default_passes_Validate (m : MetricsConfig.t) (t : TracingConfig.t) :
  ret (MetricsConfig.Validate (recv (MetricsConfig.Default m))) = None
  /\ ret (TracingConfig.Validate (recv (TracingConfig.Default t))) = None.
Proof.
  by rewrite MetricsConfig_Validate_ret, TracingConfig_Validate_ret.
Qed.

(** X6. Default drops the error of NewMultiaddr.  If the default endpoint
    string parses, ToJSON after Default returns the document of the
    defaults, under the keys of the struct tags.  If it does not, Default
    still returns nil, the endpoint is left nil, and ToJSON after Default
    panics. *)
Theorem ToJSON_after_Default (m : MetricsConfig.t) (t : TracingConfig.t) :
  (forall a,
     NewMultiaddr DefaultPrometheusEndpoint = Ok a ->
     ret (MetricsConfig.ToJSON (recv (MetricsConfig.Default m)))
     = Returns
         (Ok (json_indent
                (JObject
                   [("enable_stats", JBool false);
                    ("prometheus_endpoint", JString (Multiaddr_String a));
                    ("reporting_interval",
                     JString (Duration_String (2 * Second)%Z))]))))
  /\ (forall e,
        NewMultiaddr DefaultPrometheusEndpoint = Err e ->
        ret (MetricsConfig.Default m) = None
        /\ MetricsConfig.PrometheusEndpoint (recv (MetricsConfig.Default m))
           = None
        /\ ret (MetricsConfig.ToJSON (recv (MetricsConfig.Default m)))
           = Panics nil_dereference)
  /\ (forall a,
        NewMultiaddr DefaultJaegerAgentEndpoint = Ok a ->
        ret (TracingConfig.ToJSON (recv (TracingConfig.Default t)))
        = Returns
            (Ok (json_indent
                   (JObject
                      [("enable_tracing", JBool false);
                       ("jaeger_agent_endpoint",
                        JString (Multiaddr_String a));
                       ("sampling_prob",
                        JNumber (FormatFloat DefaultTracingSamplingProb));
                       ("service_name", JString "cluster-daemon")]))))
  /\ (forall e,
        NewMultiaddr DefaultJaegerAgentEndpoint = Err e ->
        ret (TracingConfig.Default t) = None
        /\ TracingConfig.JaegerAgentEndpoint (recv (TracingConfig.Default t))
           = None
        /\ ret (TracingConfig.ToJSON (recv (TracingConfig.Default t)))
           = Panics nil_dereference).
Proof.
  rewrite MetricsConfig_Default_run, TracingConfig_Default_run.
  cbn [ret recv].
  unfold MetricsConfig.ToJSON, TracingConfig.ToJSON. run.
  cbn [MetricsConfig.PrometheusEndpoint TracingConfig.JaegerAgentEndpoint].
  split; [|split; [|split]].
  - by intros a ->.
  - by intros e ->.
  - by intros a ->.
  - by intros e ->.
Qed.

(** *** When LoadJSON accepts *)

(** X7. MetricsConfig.LoadJSON returns nil exactly when every step
    passes: the document decodes, the variables parse, the endpoint
    string parses, the interval string parses, and, if the flag is on,
    the interval is not negative. *)
Theorem MetricsConfig_LoadJSON_accepts_iff env raw (m : MetricsConfig.t) :
  ret (MetricsConfig.LoadJSON env raw m) = None
  <-> exists j0 j a dst,
        json_Unmarshal jsonMetricsConfig.fields raw jsonMetricsConfig.zero
          = Ok j0
        /\ envconfig_Process env envConfigKey jsonMetricsConfig.fields j0
           = Ok j
        /\ NewMultiaddr (jsonMetricsConfig.PrometheusEndpoint j) = Ok a
        /\ ParseDurations metricsConfigKey
             {| opt_Duration := jsonMetricsConfig.StatsReportingInterval j;
                opt_Dst := DefaultStatsReportingInterval;
                opt_Name := "metrics.reporting_interval" |} = (None, dst)
        /\ (jsonMetricsConfig.EnableStats j = true -> (0 <= dst)%Z).
Proof.
  split.
  - intros Hret.
    destruct (MetricsConfig_LoadJSON_success _ _ _ Hret)
      as (j0 & j & a & dst & Hj0 & Hj & Ha & Hd & _ & Hval).
    exists j0, j, a, dst. repeat split; try done.
    intros Hen. rewrite MetricsConfig_Validate_ret in Hval.
    cbn [MetricsConfig.EnableStats MetricsConfig.PrometheusEndpoint
         MetricsConfig.StatsReportingInterval] in Hval.
    rewrite Hen in Hval.
    destruct (Z.ltb_spec dst 0); [discriminate Hval|lia].
  - intros (j0 & j & a & dst & Hj0 & Hj & Ha & Hd & Hpos).
    rewrite (MetricsConfig_LoadJSON_run _ _ _ _ _ Hj0 Hj), Ha, Hd.
    cbv zeta. cbn [ret]. rewrite MetricsConfig_Validate_ret.
    cbn [MetricsConfig.EnableStats MetricsConfig.PrometheusEndpoint
         MetricsConfig.StatsReportingInterval].
    destruct (jsonMetricsConfig.EnableStats j); [|done].
    specialize (Hpos eq_refl).
    destruct (Z.ltb_spec dst 0); [lia|done].
Qed.

(** X8. TracingConfig.LoadJSON returns nil exactly when the document
    decodes, the variables parse, the endpoint string parses, and, if the
    flag is on, the probability is not below zero.  Nothing else is
    looked at: not an upper bound, not the service name. *)
Theorem TracingConfig_LoadJSON_accepts_iff env raw (t : TracingConfig.t) :
  ret (TracingConfig.LoadJSON env raw t) = None
  <-> exists j0 j a,
        json_Unmarshal jsonTracingConfig.fields raw jsonTracingConfig.zero
          = Ok j0
        /\ envconfig_Process env envConfigKey jsonTracingConfig.fields j0
           = Ok j
        /\ NewMultiaddr (jsonTracingConfig.JaegerAgentEndpoint j) = Ok a
        /\ (jsonTracingConfig.EnableTracing j = true ->
            float64_lt (jsonTracingConfig.TracingSamplingProb j)
              float64_zero = false).
Proof.
  split.
  - intros Hret.
    destruct (TracingConfig_LoadJSON_success _ _ _ Hret)
      as (j0 & j & a & Hj0 & Hj & Ha & _ & Hval).
    exists j0, j, a. repeat split; try done.
    intros Hen. rewrite TracingConfig_Validate_ret in Hval.
    cbn [TracingConfig.EnableTracing TracingConfig.JaegerAgentEndpoint
         TracingConfig.TracingSamplingProb] in Hval.
    rewrite Hen in Hval.
    by destruct (float64_lt _ _).
  - intros (j0 & j & a & Hj0 & Hj & Ha & Hpos).
    rewrite (TracingConfig_LoadJSON_run _ _ _ _ _ Hj0 Hj), Ha.
    cbv zeta. cbn [ret]. rewrite TracingConfig_Validate_ret.
    cbn [TracingConfig.EnableTracing TracingConfig.JaegerAgentEndpoint
         TracingConfig.TracingSamplingProb].
    destruct (jsonTracingConfig.EnableTracing j); [|done].
    by rewrite (Hpos eq_refl).
Qed.

(** X9. What a successful LoadJSON leaves can be used: it passes
    Validate, its endpoint is not nil, and ToJSON on it does not panic;
    for a MetricsConfig ToJSON returns bytes. *)
Theorem loaded_config_is_usable env raw
    (m : MetricsConfig.t) (t : TracingConfig.t) :
  (ret (MetricsConfig.LoadJSON env raw m) = None ->
   let c := recv (MetricsConfig.LoadJSON env raw m) in
   ret (MetricsConfig.Validate c) = None
   /\ is_Some (MetricsConfig.PrometheusEndpoint c)
   /\ exists bytes, ret (MetricsConfig.ToJSON c) = Returns (Ok bytes))
  /\ (ret (TracingConfig.LoadJSON env raw t) = None ->
      let c := recv (TracingConfig.LoadJSON env raw t) in
      ret (TracingConfig.Validate c) = None
      /\ is_Some (TracingConfig.JaegerAgentEndpoint c)
      /\ exists res, ret (TracingConfig.ToJSON c) = Returns res).
Proof.
  split; intros Hret c; subst c.
  - destruct (MetricsConfig_LoadJSON_success _ _ _ Hret)
      as (j0 & j & a & dst & _ & _ & _ & _ & Hload & Hval).
    rewrite Hload. cbn [recv]. split; [done|]. split; [by eexists|].
    unfold MetricsConfig.ToJSON. run. cbn. by eexists.
  - destruct (TracingConfig_LoadJSON_success _ _ _ Hret)
      as (j0 & j & a & _ & _ & _ & Hload & Hval).
    rewrite Hload. cbn [recv]. split; [done|]. split; [by eexists|].
    unfold TracingConfig.ToJSON. run.
    cbn [TracingConfig.JaegerAgentEndpoint]. by eexists.
Qed.

(** *** When LoadJSON rejects, and what it leaves behind *)

(** envconfig.Process over the fields of a jsonMetricsConfig, with the
    names of the variables computed. *)
Lemma jsonMetricsConfig_Process_eq env j0 :
  envconfig_Process env envConfigKey jsonMetricsConfig.fields j0 =
    match env !! "CLUSTER_OBSERVATIONS_ENABLESTATS" with
    | Some v =>
        match ParseBool v with
        | Ok b =>
            Ok (jsonMetricsConfig.mk b
                  (default (jsonMetricsConfig.PrometheusEndpoint j0)
                     (env !! "CLUSTER_OBSERVATIONS_PROMETHEUSENDPOINT"))
                  (default (jsonMetricsConfig.StatsReportingInterval j0)
                     (env !! "CLUSTER_OBSERVATIONS_STATSREPORTINGINTERVAL")))
        | Err e =>
            Err (lib_error "envconfig"
                   (Sprintf
                      "envconfig.Process: assigning %s to %s: converting '%s' to type %s. details: %s"
                      ["CLUSTER_OBSERVATIONS_ENABLESTATS"; "EnableStats"; v;
                       "bool"; Error e]))
        end
    | None =>
        Ok (jsonMetricsConfig.mk (jsonMetricsConfig.EnableStats j0)
              (default (jsonMetricsConfig.PrometheusEndpoint j0)
                 (env !! "CLUSTER_OBSERVATIONS_PROMETHEUSENDPOINT"))
              (default (jsonMetricsConfig.StatsReportingInterval j0)
                 (env !! "CLUSTER_OBSERVATIONS_STATSREPORTINGINTERVAL")))
    end.
Proof.
  cbn [envconfig_Process jsonMetricsConfig.fields].
  repeat match goal with
    | |- context [env_key ?p ?f] =>
        let k := eval vm_compute in (env_key p f) in
        change (env_key p f) with k
    end.
  unfold processField. cbn [acc goName type_name].
  destruct (env !! "CLUSTER_OBSERVATIONS_ENABLESTATS") as [v1|];
    [destruct (ParseBool v1) as [b|e]; [|reflexivity]|];
    destruct (env !! "CLUSTER_OBSERVATIONS_PROMETHEUSENDPOINT") as [v2|];
    destruct (env !! "CLUSTER_OBSERVATIONS_STATSREPORTINGINTERVAL") as [v3|];
    by destruct j0.
Qed.

(** The same for a jsonTracingConfig, once its flag has parsed. *)
Lemma jsonTracingConfig_Process_eq env j0 :
  envconfig_Process env envConfigKey jsonTracingConfig.fields j0 =
    let rest (b : bool) :=
      let endpoint :=
        default (jsonTracingConfig.JaegerAgentEndpoint j0)
          (env !! "CLUSTER_OBSERVATIONS_JAEGERAGENTENDPOINT") in
      let name :=
        default (jsonTracingConfig.TracingServiceName j0)
          (env !! "CLUSTER_OBSERVATIONS_TRACINGSERVICENAME") in
      match env !! "CLUSTER_OBSERVATIONS_TRACINGSAMPLINGPROB" with
      | Some v =>
          match ParseFloat v with
          | Ok x => Ok (jsonTracingConfig.mk b endpoint x name)
          | Err e =>
              Err (lib_error "envconfig"
                     (Sprintf
                        "envconfig.Process: assigning %s to %s: converting '%s' to type %s. details: %s"
                        ["CLUSTER_OBSERVATIONS_TRACINGSAMPLINGPROB";
                         "TracingSamplingProb"; v; "float64"; Error e]))
          end
      | None =>
          Ok (jsonTracingConfig.mk b endpoint
                (jsonTracingConfig.TracingSamplingProb j0) name)
      end in
    match env !! "CLUSTER_OBSERVATIONS_ENABLETRACING" with
    | Some v =>
        match ParseBool v with
        | Ok b => rest b
        | Err e =>
            Err (lib_error "envconfig"
                   (Sprintf
                      "envconfig.Process: assigning %s to %s: converting '%s' to type %s. details: %s"
                      ["CLUSTER_OBSERVATIONS_ENABLETRACING"; "EnableTracing";
                       v; "bool"; Error e]))
        end
    | None => rest (jsonTracingConfig.EnableTracing j0)
    end.
Proof.
  cbn [envconfig_Process jsonTracingConfig.fields].
  repeat match goal with
    | |- context [env_key ?p ?f] =>
        let k := eval vm_compute in (env_key p f) in
        change (env_key p f) with k
    end.
  unfold processField. cbn [acc goName type_name]. cbv zeta.
  destruct (env !! "CLUSTER_OBSERVATIONS_ENABLETRACING") as [v1|];
    [destruct (ParseBool v1) as [b|e]; [|reflexivity]|];
    destruct (env !! "CLUSTER_OBSERVATIONS_JAEGERAGENTENDPOINT") as [v2|];
    (destruct (env !! "CLUSTER_OBSERVATIONS_TRACINGSAMPLINGPROB") as [v3|];
     [destruct (ParseFloat v3) as [x|e]; [|reflexivity]|]);
    destruct (env !! "CLUSTER_OBSERVATIONS_TRACINGSERVICENAME") as [v4|];
    by destruct j0.
Qed.

(** X10. A variable that envconfig.Process cannot parse: LoadJSON returns
    the error of envconfig.Process as it is, and the receiver holds
    exactly the defaults; nothing of the document has been assigned, not
    even the members that were fine. *)
Theorem LoadJSON_rejected_variable_leaves_defaults env raw
    (m : MetricsConfig.t) (t : TracingConfig.t) :
  (forall j0 e,
     json_Unmarshal jsonMetricsConfig.fields raw jsonMetricsConfig.zero
       = Ok j0 ->
     envconfig_Process env envConfigKey jsonMetricsConfig.fields j0 = Err e ->
     MetricsConfig.LoadJSON env raw m
     = mkRan (Some e) (recv (MetricsConfig.Default m)) [])
  /\ (forall j0 e,
        json_Unmarshal jsonTracingConfig.fields raw jsonTracingConfig.zero
          = Ok j0 ->
        envconfig_Process env envConfigKey jsonTracingConfig.fields j0
          = Err e ->
        TracingConfig.LoadJSON env raw t
        = mkRan (Some e) (recv (TracingConfig.Default t)) []).
Proof.
  split; intros j0 e Hj0 Hj.
  - by rewrite (MetricsConfig_LoadJSON_env_error _ _ _ _ _ Hj0 Hj).
  - by rewrite (TracingConfig_LoadJSON_env_error _ _ _ _ _ Hj0 Hj).
Qed.

(** X11. Which variables can make the environment step fail: those of
    the bool and float64 fields, and only when set to something their
    parser rejects.  For a jsonMetricsConfig that is ENABLESTATS alone;
    for a jsonTracingConfig, ENABLETRACING and TRACINGSAMPLINGPROB.  The
    variables of the string fields (endpoints, interval, service name)
    are taken as they are and never fail this step. *)
Theorem environment_step_fails_iff env
    (jm : jsonMetricsConfig.t) (jt : jsonTracingConfig.t) :
  ((exists e,
      envconfig_Process env envConfigKey jsonMetricsConfig.fields jm = Err e)
   <-> exists v e,
         env !! "CLUSTER_OBSERVATIONS_ENABLESTATS" = Some v
         /\ ParseBool v = Err e)
  /\ ((exists e,
         envconfig_Process env envConfigKey jsonTracingConfig.fields jt
           = Err e)
      <-> (exists v e,
             env !! "CLUSTER_OBSERVATIONS_ENABLETRACING" = Some v
             /\ ParseBool v = Err e)
          \/ (exists v e,
                env !! "CLUSTER_OBSERVATIONS_TRACINGSAMPLINGPROB" = Some v
                /\ ParseFloat v = Err e)).
Proof.
  rewrite jsonMetricsConfig_Process_eq, jsonTracingConfig_Process_eq.
  cbv zeta. split; split.
  - destruct (env !! "CLUSTER_OBSERVATIONS_ENABLESTATS") as [v|];
      [destruct (ParseBool v) as [b|e] eqn:Hb|]; intros [e' He'];
      try discriminate He'.
    by exists v, e.
  - intros (v & e & -> & ->). by eexists.
  - destruct (env !! "CLUSTER_OBSERVATIONS_ENABLETRACING") as [v|];
      [destruct (ParseBool v) as [b|e] eqn:Hb|];
      (destruct (env !! "CLUSTER_OBSERVATIONS_TRACINGSAMPLINGPROB") as [w|];
       [destruct (ParseFloat w) as [x|e2] eqn:Hx|]);
      intros [e' He']; try discriminate He';
      try (by left; exists v, e); by right; exists w, e2.
  - intros [(v & e & Hv & Hb)|(w & e & Hw & Hx)].
    + rewrite Hv, Hb. by eexists.
    + rewrite Hw, Hx.
      destruct (env !! "CLUSTER_OBSERVATIONS_ENABLETRACING") as [v|];
        [destruct (ParseBool v) as [b|e1]|]; by eexists.
Qed.

(** X12. An interval string that config.ParseDurations rejects: LoadJSON
    returns the helper's error as it is (not wrapped, unlike the
    endpoint's), and Validate is not consulted.  The receiver already
    holds the enable flag and the parsed endpoint, and the interval is
    what the helper left in its destination. *)
Theorem LoadJSON_rejected_interval env raw (m : MetricsConfig.t)
    j0 j a e dst :
  json_Unmarshal jsonMetricsConfig.fields raw jsonMetricsConfig.zero
    = Ok j0 ->
  envconfig_Process env envConfigKey jsonMetricsConfig.fields j0 = Ok j ->
  NewMultiaddr (jsonMetricsConfig.PrometheusEndpoint j) = Ok a ->
  ParseDurations metricsConfigKey
    {| opt_Duration := jsonMetricsConfig.StatsReportingInterval j;
       opt_Dst := DefaultStatsReportingInterval;
       opt_Name := "metrics.reporting_interval" |} = (Some e, dst) ->
  MetricsConfig.LoadJSON env raw m
  = mkRan (Some e)
      (MetricsConfig.mk (MetricsConfig.Saver m)
         (jsonMetricsConfig.EnableStats j) (Some a) dst) [].
Proof.
  intros Hj0 Hj Ha Hd.
  by rewrite (MetricsConfig_LoadJSON_run _ _ _ _ _ Hj0 Hj), Ha, Hd.
Qed.

(** X13. After a rejected endpoint the receiver is half written: it has
    the enable flag of the document, and the endpoint and the other
    values of Default.  With a default endpoint that parses, this
    receiver passes Validate, enabled or not: the instance a failed load
    leaves behind looks like a valid one that points at the default
    endpoint. *)
Theorem LoadJSON_rejected_endpoint_leaves_valid_looking env raw
    (m : MetricsConfig.t) (t : TracingConfig.t) :
  (forall j0 j e d,
     json_Unmarshal jsonMetricsConfig.fields raw jsonMetricsConfig.zero
       = Ok j0 ->
     envconfig_Process env envConfigKey jsonMetricsConfig.fields j0 = Ok j ->
     NewMultiaddr (jsonMetricsConfig.PrometheusEndpoint j) = Err e ->
     NewMultiaddr DefaultPrometheusEndpoint = Ok d ->
     let r := MetricsConfig.LoadJSON env raw m in
     is_Some (ret r)
     /\ recv r
        = MetricsConfig.mk (MetricsConfig.Saver m)
            (jsonMetricsConfig.EnableStats j) (Some d) (2 * Second)%Z
     /\ ret (MetricsConfig.Validate (recv r)) = None)
  /\ (forall j0 j e d,
        json_Unmarshal jsonTracingConfig.fields raw jsonTracingConfig.zero
          = Ok j0 ->
        envconfig_Process env envConfigKey jsonTracingConfig.fields j0
          = Ok j ->
        NewMultiaddr (jsonTracingConfig.JaegerAgentEndpoint j) = Err e ->
        NewMultiaddr DefaultJaegerAgentEndpoint = Ok d ->
        let r := TracingConfig.LoadJSON env raw t in
        is_Some (ret r)
        /\ recv r
           = TracingConfig.mk (TracingConfig.Saver t)
               (jsonTracingConfig.EnableTracing j) (Some d)
               DefaultTracingSamplingProb "cluster-daemon"
        /\ ret (TracingConfig.Validate (recv r)) = None).
Proof.
  split; intros j0 j e d Hj0 Hj He Hd r; subst r.
  - rewrite (MetricsConfig_LoadJSON_run _ _ _ _ _ Hj0 Hj), He, Hd.
    cbn [ret recv value_or_nil]. split; [by eexists|]. split; [done|].
    rewrite MetricsConfig_Validate_ret.
    cbn [MetricsConfig.EnableStats MetricsConfig.PrometheusEndpoint
         MetricsConfig.StatsReportingInterval].
    by destruct (jsonMetricsConfig.EnableStats j).
  - rewrite (TracingConfig_LoadJSON_run _ _ _ _ _ Hj0 Hj), He, Hd.
    cbn [ret recv value_or_nil]. split; [by eexists|]. split; [done|].
    rewrite TracingConfig_Validate_ret.
    cbn [TracingConfig.EnableTracing TracingConfig.JaegerAgentEndpoint
         TracingConfig.TracingSamplingProb].
    by destruct (jsonTracingConfig.EnableTracing j).
Qed.

(** *** ToJSON, and loading what it prints *)

(** X14. ToJSON does not validate, and LoadJSON of its bytes does: for
    any config with an endpoint, valid or not, ToJSON of a MetricsConfig
    returns the document of its three fields under the keys of the struct
    tags, and (the imported packages reading back what they wrote, no
    variable set) LoadJSON of those bytes returns exactly the verdict of
    Validate on the config, leaving its enable flag, endpoint string and
    interval.  The same for a TracingConfig with a finite probability.
    So every valid config round-trips, also one filled by Default or by
    hand, and an enabled one with a negative interval or probability is
    printed but not loaded back. *)
Theorem LoadJSON_of_ToJSON_is_Validate env
    (c m1 : MetricsConfig.t) (tc t1 : TracingConfig.t) a ta :
  (MetricsConfig.PrometheusEndpoint c = Some a ->
   no_overrides env envConfigKey jsonMetricsConfig.fields ->
   (exists a', NewMultiaddr (Multiaddr_String a) = Ok a'
               /\ Multiaddr_String a' = Multiaddr_String a) ->
   ParseDurations metricsConfigKey
     {| opt_Duration :=
          Duration_String (MetricsConfig.StatsReportingInterval c);
        opt_Dst := DefaultStatsReportingInterval;
        opt_Name := "metrics.reporting_interval" |}
     = (None, MetricsConfig.StatsReportingInterval c) ->
   let doc :=
     JObject
       [("enable_stats", JBool (MetricsConfig.EnableStats c));
        ("prometheus_endpoint", JString (Multiaddr_String a));
        ("reporting_interval",
         JString (Duration_String (MetricsConfig.StatsReportingInterval c)))] in
   json_scan (json_indent doc) = Ok doc ->
   ret (MetricsConfig.ToJSON c) = Returns (Ok (json_indent doc))
   /\ let r := MetricsConfig.LoadJSON env (json_indent doc) m1 in
      ret r = ret (MetricsConfig.Validate c)
      /\ MetricsConfig.EnableStats (recv r) = MetricsConfig.EnableStats c
      /\ Multiaddr_String <$> MetricsConfig.PrometheusEndpoint (recv r)
         = Some (Multiaddr_String a)
      /\ MetricsConfig.StatsReportingInterval (recv r)
         = MetricsConfig.StatsReportingInterval c)
  /\
  (TracingConfig.JaegerAgentEndpoint tc = Some ta ->
   no_overrides env envConfigKey jsonTracingConfig.fields ->
   IsNaN (TracingConfig.TracingSamplingProb tc)
   || IsInf (TracingConfig.TracingSamplingProb tc) = false ->
   (exists a', NewMultiaddr (Multiaddr_String ta) = Ok a'
               /\ Multiaddr_String a' = Multiaddr_String ta) ->
   ParseFloat (FormatFloat (TracingConfig.TracingSamplingProb tc))
     = Ok (TracingConfig.TracingSamplingProb tc) ->
   let doc :=
     JObject
       [("enable_tracing", JBool (TracingConfig.EnableTracing tc));
        ("jaeger_agent_endpoint", JString (Multiaddr_String ta));
        ("sampling_prob",
         JNumber (FormatFloat (TracingConfig.TracingSamplingProb tc)));
        ("service_name", JString (TracingConfig.TracingServiceName tc))] in
   json_scan (json_indent doc) = Ok doc ->
   ret (TracingConfig.ToJSON tc) = Returns (Ok (json_indent doc))
   /\ let r := TracingConfig.LoadJSON env (json_indent doc) t1 in
      ret r = ret (TracingConfig.Validate tc)
      /\ TracingConfig.EnableTracing (recv r)
         = TracingConfig.EnableTracing tc
      /\ Multiaddr_String <$> TracingConfig.JaegerAgentEndpoint (recv r)
         = Some (Multiaddr_String ta)
      /\ TracingConfig.TracingSamplingProb (recv r)
         = TracingConfig.TracingSamplingProb tc
      /\ TracingConfig.TracingServiceName (recv r)
         = TracingConfig.TracingServiceName tc).
Proof.
  split.
  - intros Hc Henv (a' & Hparse & Hsame) Hdur doc Hjson.
    split.
    { unfold MetricsConfig.ToJSON. run. by rewrite Hc. }
    cbv zeta.
    erewrite MetricsConfig_LoadJSON_run; cycle 1.
    { unfold json_Unmarshal. subst doc. rewrite Hjson.
      by rewrite jsonMetricsConfig_decode_encoded. }
    { by apply envconfig_Process_no_overrides. }
    cbn [jsonMetricsConfig.PrometheusEndpoint
         jsonMetricsConfig.StatsReportingInterval
         jsonMetricsConfig.EnableStats].
    rewrite Hparse, Hdur. cbv zeta. cbn [ret recv].
    rewrite !MetricsConfig_Validate_ret.
    cbn [MetricsConfig.EnableStats MetricsConfig.PrometheusEndpoint
         MetricsConfig.StatsReportingInterval].
    rewrite Hc. cbn. by rewrite Hsame.
  - intros Hc Henv Hfinite (a' & Hparse & Hsame) Hfloat doc Hjson.
    split.
    { unfold TracingConfig.ToJSON. run. rewrite Hc.
      unfold DefaultJSONMarshal.
      cbn [encode_fields encode_field jsonTracingConfig.fields acc jsonTag
           jsonTracingConfig.EnableTracing
           jsonTracingConfig.JaegerAgentEndpoint
           jsonTracingConfig.TracingSamplingProb
           jsonTracingConfig.TracingServiceName].
      by rewrite Hfinite. }
    cbv zeta.
    erewrite TracingConfig_LoadJSON_run; cycle 1.
    { unfold json_Unmarshal. subst doc. rewrite Hjson.
      by rewrite (jsonTracingConfig_decode_encoded _ _ _ _ _ Hfloat). }
    { by apply envconfig_Process_no_overrides. }
    cbn [jsonTracingConfig.EnableTracing
         jsonTracingConfig.JaegerAgentEndpoint
         jsonTracingConfig.TracingSamplingProb
         jsonTracingConfig.TracingServiceName].
    rewrite Hparse. cbv zeta. cbn [ret recv].
    rewrite !TracingConfig_Validate_ret.
    cbn [TracingConfig.EnableTracing TracingConfig.JaegerAgentEndpoint
         TracingConfig.TracingSamplingProb TracingConfig.TracingServiceName].
    rewrite Hc. cbn. by rewrite Hsame.
Qed.

(** *** The environment *)

(** X16. LoadJSON reads the environment through the variables of its own
    struct only: three for a MetricsConfig, four for a TracingConfig,
    named after the Go fields.  Two environments that agree on them give
    the same LoadJSON, whatever else is set; in particular no variable of
    one section reaches the other, though both share the prefix. *)
Theorem LoadJSON_reads_its_own_variables env env' raw
    (m : MetricsConfig.t) (t : TracingConfig.t) :
  (env !! "CLUSTER_OBSERVATIONS_ENABLESTATS"
   = env' !! "CLUSTER_OBSERVATIONS_ENABLESTATS" ->
   env !! "CLUSTER_OBSERVATIONS_PROMETHEUSENDPOINT"
   = env' !! "CLUSTER_OBSERVATIONS_PROMETHEUSENDPOINT" ->
   env !! "CLUSTER_OBSERVATIONS_STATSREPORTINGINTERVAL"
   = env' !! "CLUSTER_OBSERVATIONS_STATSREPORTINGINTERVAL" ->
   MetricsConfig.LoadJSON env raw m = MetricsConfig.LoadJSON env' raw m)
  /\ (env !! "CLUSTER_OBSERVATIONS_ENABLETRACING"
      = env' !! "CLUSTER_OBSERVATIONS_ENABLETRACING" ->
      env !! "CLUSTER_OBSERVATIONS_JAEGERAGENTENDPOINT"
      = env' !! "CLUSTER_OBSERVATIONS_JAEGERAGENTENDPOINT" ->
      env !! "CLUSTER_OBSERVATIONS_TRACINGSAMPLINGPROB"
      = env' !! "CLUSTER_OBSERVATIONS_TRACINGSAMPLINGPROB" ->
      env !! "CLUSTER_OBSERVATIONS_TRACINGSERVICENAME"
      = env' !! "CLUSTER_OBSERVATIONS_TRACINGSERVICENAME" ->
      TracingConfig.LoadJSON env raw t = TracingConfig.LoadJSON env' raw t).
Proof.
  split.
  - intros H1 H2 H3.
    assert (forall j0,
              envconfig_Process env envConfigKey jsonMetricsConfig.fields j0
              = envconfig_Process env' envConfigKey
                  jsonMetricsConfig.fields j0) as Hsame.
    { intros j0. rewrite !jsonMetricsConfig_Process_eq.
      by rewrite H1, H2, H3. }
    destruct (json_Unmarshal jsonMetricsConfig.fields raw
                jsonMetricsConfig.zero) as [j0|e] eqn:Hj0.
    2: { by rewrite !(MetricsConfig_LoadJSON_undecodable _ _ _ _ Hj0). }
    destruct (envconfig_Process env envConfigKey jsonMetricsConfig.fields j0)
      as [j|e] eqn:Hj.
    + pose proof Hj as Hj'. rewrite Hsame in Hj'.
      by rewrite (MetricsConfig_LoadJSON_run _ _ _ _ _ Hj0 Hj),
        (MetricsConfig_LoadJSON_run _ _ _ _ _ Hj0 Hj').
    + pose proof Hj as Hj'. rewrite Hsame in Hj'.
      by rewrite (MetricsConfig_LoadJSON_env_error _ _ _ _ _ Hj0 Hj),
        (MetricsConfig_LoadJSON_env_error _ _ _ _ _ Hj0 Hj').
  - intros H1 H2 H3 H4.
    assert (forall j0,
              envconfig_Process env envConfigKey jsonTracingConfig.fields j0
              = envconfig_Process env' envConfigKey
                  jsonTracingConfig.fields j0) as Hsame.
    { intros j0. rewrite !jsonTracingConfig_Process_eq.
      by rewrite H1, H2, H3, H4. }
    destruct (json_Unmarshal jsonTracingConfig.fields raw
                jsonTracingConfig.zero) as [j0|e] eqn:Hj0.
    2: { by rewrite !(TracingConfig_LoadJSON_undecodable _ _ _ _ Hj0). }
    destruct (envconfig_Process env envConfigKey jsonTracingConfig.fields j0)
      as [j|e] eqn:Hj.
    + pose proof Hj as Hj'. rewrite Hsame in Hj'.
      by rewrite (TracingConfig_LoadJSON_run _ _ _ _ _ Hj0 Hj),
        (TracingConfig_LoadJSON_run _ _ _ _ _ Hj0 Hj').
    + pose proof Hj as Hj'. rewrite Hsame in Hj'.
      by rewrite (TracingConfig_LoadJSON_env_error _ _ _ _ _ Hj0 Hj),
        (TracingConfig_LoadJSON_env_error _ _ _ _ _ Hj0 Hj').
Qed.

(** *** A document without the endpoint *)

(** With no member for the endpoint in the document and its variable
    unset, the struct that leaves envconfig.Process holds the empty
    string for it. *)
Lemma jsonMetricsConfig_missing_endpoint env raw document j0 j :
  json_scan raw = Ok document ->
  json_Unmarshal jsonMetricsConfig.fields raw jsonMetricsConfig.zero
    = Ok j0 ->
  last_for jsonMetricsConfig.fields (members_of document)
    "PrometheusEndpoint" = None ->
  env !! "CLUSTER_OBSERVATIONS_PROMETHEUSENDPOINT" = None ->
  envconfig_Process env envConfigKey jsonMetricsConfig.fields j0 = Ok j ->
  jsonMetricsConfig.PrometheusEndpoint j = "".
Proof.
  intros Hscan Hj0 Habsent Hvar Hj.
  destruct (jsonMetricsConfig_from_document _ _ _ Hscan Hj0) as (_ & D2 & _).
  cbv zeta in D2. rewrite Habsent in D2. cbn in D2.
  rewrite jsonMetricsConfig_Process_eq, Hvar in Hj. cbn [default] in Hj.
  destruct (env !! "CLUSTER_OBSERVATIONS_ENABLESTATS") as [v|];
    [destruct (ParseBool v)|];
    try discriminate Hj; injection Hj as <-; exact D2.
Qed.

Lemma jsonTracingConfig_missing_endpoint env raw document j0 j :
  json_scan raw = Ok document ->
  json_Unmarshal jsonTracingConfig.fields raw jsonTracingConfig.zero
    = Ok j0 ->
  last_for jsonTracingConfig.fields (members_of document)
    "JaegerAgentEndpoint" = None ->
  env !! "CLUSTER_OBSERVATIONS_JAEGERAGENTENDPOINT" = None ->
  envconfig_Process env envConfigKey jsonTracingConfig.fields j0 = Ok j ->
  jsonTracingConfig.JaegerAgentEndpoint j = "".
Proof.
  intros Hscan Hj0 Habsent Hvar Hj.
  destruct (jsonTracingConfig_from_document _ _ _ Hscan Hj0)
    as (_ & D2 & _).
  cbv zeta in D2. rewrite Habsent in D2. cbn in D2.
  rewrite jsonTracingConfig_Process_eq, Hvar in Hj.
  cbv zeta in Hj. cbn [default] in Hj.
  destruct (env !! "CLUSTER_OBSERVATIONS_ENABLETRACING") as [v|];
    [destruct (ParseBool v)|];
    try discriminate Hj;
    (destruct (env !! "CLUSTER_OBSERVATIONS_TRACINGSAMPLINGPROB") as [w|];
     [destruct (ParseFloat w)|]);
    try discriminate Hj; injection Hj as <-; exact D2.
Qed.

(** X17. A document that has no member for the endpoint, with the
    endpoint's variable unset.  The string that loadMetricsOptions
    (loadTracingOptions) hands to NewMultiaddr is then the empty string,
    not the default endpoint: there is no test for a missing member.  So
    the load is decided by what NewMultiaddr makes of the empty string.
    If it rejects it, LoadJSON returns an error on every path, and once
    the variables have parsed that error is the wrapped error of
    NewMultiaddr.  If LoadJSON returns nil, NewMultiaddr accepted the
    empty string and the endpoint loaded is its result, whatever Default
    had stored. *)
Theorem LoadJSON_missing_endpoint_parses_empty_string env raw document
    (m : MetricsConfig.t) (t : TracingConfig.t) :
  json_scan raw = Ok document ->
  (last_for jsonMetricsConfig.fields (members_of document)
     "PrometheusEndpoint" = None ->
   env !! "CLUSTER_OBSERVATIONS_PROMETHEUSENDPOINT" = None ->
   let r := MetricsConfig.LoadJSON env raw m in
   (forall j0 j e,
      json_Unmarshal jsonMetricsConfig.fields raw jsonMetricsConfig.zero
        = Ok j0 ->
      envconfig_Process env envConfigKey jsonMetricsConfig.fields j0
        = Ok j ->
      NewMultiaddr "" = Err e ->
      ret r = Some (errors_New
                      ("loadMetricsOptions: PrometheusEndpoint multiaddr: "
                         ++ Error e)))
   /\ (forall e, NewMultiaddr "" = Err e -> is_Some (ret r))
   /\ (ret r = None ->
       exists a,
         NewMultiaddr "" = Ok a
         /\ MetricsConfig.PrometheusEndpoint (recv r) = Some a))
  /\ (last_for jsonTracingConfig.fields (members_of document)
        "JaegerAgentEndpoint" = None ->
      env !! "CLUSTER_OBSERVATIONS_JAEGERAGENTENDPOINT" = None ->
      let r := TracingConfig.LoadJSON env raw t in
      (forall j0 j e,
         json_Unmarshal jsonTracingConfig.fields raw jsonTracingConfig.zero
           = Ok j0 ->
         envconfig_Process env envConfigKey jsonTracingConfig.fields j0
           = Ok j ->
         NewMultiaddr "" = Err e ->
         ret r = Some (errors_New
                         ("loadTracingOptions: JaegerAgentEndpoint multiaddr: "
                            ++ Error e)))
      /\ (forall e, NewMultiaddr "" = Err e -> is_Some (ret r))
      /\ (ret r = None ->
          exists a,
            NewMultiaddr "" = Ok a
            /\ TracingConfig.JaegerAgentEndpoint (recv r) = Some a)).
Proof.
  intros Hscan. split.
  - intros Habsent Hvar r. subst r.
    assert (ret (MetricsConfig.LoadJSON env raw m) = None ->
            exists a,
              NewMultiaddr "" = Ok a
              /\ MetricsConfig.PrometheusEndpoint
                   (recv (MetricsConfig.LoadJSON env raw m)) = Some a)
      as Haccepted.
    { intros Hret.
      destruct (MetricsConfig_LoadJSON_cases env raw m) as
        [(e & _ & Hr)
        |[(j0 & e & _ & _ & Hr)
         |[(j0 & j & e & _ & _ & _ & Hr)
          |[(j0 & j & a & e & dst & _ & _ & _ & _ & Hr)
           |(j0 & j & a & dst & Hj0 & Hj & Ha & _ & Hr)]]]];
        rewrite Hr in Hret; cbn [ret] in Hret; try discriminate Hret.
      exists a.
      rewrite (jsonMetricsConfig_missing_endpoint _ _ _ _ _
                 Hscan Hj0 Habsent Hvar Hj) in Ha.
      split; [exact Ha|]. by rewrite Hr. }
    repeat split.
    + intros j0 j e Hj0 Hj He.
      rewrite (MetricsConfig_LoadJSON_run env raw m j0 j Hj0 Hj).
      rewrite (jsonMetricsConfig_missing_endpoint _ _ _ _ _
                 Hscan Hj0 Habsent Hvar Hj).
      by rewrite He, fmt_Errorf_PrometheusEndpoint.
    + intros e He.
      destruct (ret (MetricsConfig.LoadJSON env raw m)) as [err|] eqn:Hret;
        [by eexists|].
      destruct (Haccepted eq_refl) as (a & Ha & _). congruence.
    + exact Haccepted.
  - intros Habsent Hvar r. subst r.
    assert (ret (TracingConfig.LoadJSON env raw t) = None ->
            exists a,
              NewMultiaddr "" = Ok a
              /\ TracingConfig.JaegerAgentEndpoint
                   (recv (TracingConfig.LoadJSON env raw t)) = Some a)
      as Haccepted.
    { intros Hret.
      destruct (TracingConfig_LoadJSON_cases env raw t) as
        [(e & _ & Hr)
        |[(j0 & e & _ & _ & Hr)
         |[(j0 & j & e & _ & _ & _ & Hr)
          |(j0 & j & a & Hj0 & Hj & Ha & Hr)]]];
        rewrite Hr in Hret; cbn [ret] in Hret; try discriminate Hret.
      exists a.
      rewrite (jsonTracingConfig_missing_endpoint _ _ _ _ _
                 Hscan Hj0 Habsent Hvar Hj) in Ha.
      split; [exact Ha|]. by rewrite Hr. }
    repeat split.
    + intros j0 j e Hj0 Hj He.
      rewrite (TracingConfig_LoadJSON_run env raw t j0 j Hj0 Hj).
      rewrite (jsonTracingConfig_missing_endpoint _ _ _ _ _
                 Hscan Hj0 Habsent Hvar Hj).
      by rewrite He, fmt_Errorf_JaegerAgentEndpoint.
    + intros e He.
      destruct (ret (TracingConfig.LoadJSON env raw t)) as [err|] eqn:Hret;
        [by eexists|].
      destruct (Haccepted eq_refl) as (a & Ha & _). congruence.
    + exact Haccepted.
Qed.
End Further.



(** The float64 constants named in the statements above are 0.3, 1.0 and
    2.0. *)
Example float64_constants :
  Ref.ParseFloat "0.3" = Ok DefaultTracingSamplingProb
  /\ Ref.ParseFloat "1.0" = Ok (S754_finite false 4503599627370496 (-52))
  /\ Ref.ParseFloat "2.0" = Ok (S754_finite false 4503599627370496 (-51)).
Proof. by vm_compute. Qed.

(** [DefaultTracingSamplingProb] is within half a unit in the last place
    of 3/10: |m * 2^-54 - 3/10| <= 2^-55, cleared of denominators. *)
Example DefaultTracingSamplingProb_nearest :
  (Z.abs (10 * 5404319552844595 - 3 * 2 ^ 54) * 2 <= 10)%Z.
Proof. by vm_compute. Qed.

(** The end-to-end example of the specification, over the reference
    implementation: the document loads to the values it names, passes
    Validate, and ToJSON prints a document with the same members. *)
Example end_to_end :
  let raw :=
    Ref.doc "{'enable_stats': true, 'prometheus_endpoint': '/ip4/127.0.0.1/tcp/9090', 'reporting_interval': '5s'}" in
  let r := @MetricsConfig.LoadJSON RefLibs ∅ raw MetricsConfig_zero in
  ret r = None
  /\ MetricsConfig.EnableStats (recv r) = true
  /\ Multiaddr_String <$> MetricsConfig.PrometheusEndpoint (recv r)
     = Some "/ip4/127.0.0.1/tcp/9090"
  /\ MetricsConfig.StatsReportingInterval (recv r) = (5 * Second)%Z
  /\ ret (MetricsConfig.Validate (recv r)) = None
  /\ match ret (MetricsConfig.ToJSON (recv r)) with
     | Returns (Ok bytes) => Ref.json_scan bytes = Ref.json_scan raw
     | _ => False
     end.
Proof. vm_compute. repeat split; reflexivity. Qed.

(** A document that is not JSON: the error of the decoder, one logged
    line, and an untouched receiver. *)
Example undecodable :
  let r := @MetricsConfig.LoadJSON RefLibs ∅ "{" MetricsConfig_zero in
  ret r
  = Some (lib_error "json"
            "json: invalid character or unexpected end of JSON input")
  /\ logged r = ["Error unmarshaling observations config"]
  /\ recv r = MetricsConfig_zero.
Proof. repeat split; reflexivity. Qed.

(** C7 at 2.0, over the reference implementation. *)
Lemma Validate_no_upper_bound_witness :
  let t : @TracingConfig.t RefLibs :=
    TracingConfig.mk (tt : @config_Saver RefLibs) true
      (Some [Ref.ip4 0 0 0 0; Ref.udp 6831])
      (S754_finite false 4503599627370496 (-51)) "cluster-daemon" in
  ret (TracingConfig.Validate t) = None.
Proof.
  intros t.
  apply (@Validate_no_upper_bound RefLibs t [Ref.ip4 0 0 0 0; Ref.udp 6831]);
    reflexivity.
Defined.

(** C10 on the zero-valued instances. *)
Lemma ToJSON_nil_endpoint_panics_witness :
  ret (MetricsConfig.ToJSON MetricsConfig_zero) = Panics nil_dereference
  /\ ret (TracingConfig.ToJSON TracingConfig_zero) = Panics nil_dereference.
Proof.
  destruct (@ToJSON_nil_endpoint_panics RefLibs MetricsConfig_zero
              TracingConfig_zero eq_refl eq_refl) as (Hm & Ht & _).
  exact (conj Hm Ht).
Defined.

(** C2 on two instances: a disabled MetricsConfig with a nil endpoint and
    a negative interval passes; an enabled TracingConfig with a negative
    probability does not. *)
Lemma Validate_gating_witness :
  let m : @MetricsConfig.t RefLibs :=
    MetricsConfig.mk (tt : @config_Saver RefLibs) false None (-5)%Z in
  let t : @TracingConfig.t RefLibs :=
    TracingConfig.mk (tt : @config_Saver RefLibs) true
      (Some [Ref.ip4 0 0 0 0; Ref.udp 6831])
      (S754_finite true 4503599627370496 (-52)) "" in
  ret (MetricsConfig.Validate m) = None
  /\ is_Some (ret (TracingConfig.Validate t)).
Proof.
  intros m t.
  destruct (@Validate_gating RefLibs m t) as (Hm & _ & _ & Ht).
  split; [exact (Hm eq_refl) | apply (Ht eq_refl); right; reflexivity].
Defined.

(** C5 on the document of the specification's example. *)
Lemma LoadJSON_malformed_endpoint_witness :
  let raw := Ref.doc "{'prometheus_endpoint': 'not-a-multiaddr'}" in
  ret (@MetricsConfig.LoadJSON RefLibs ∅ raw MetricsConfig_zero)
  = Some (errors_New
            "loadMetricsOptions: PrometheusEndpoint multiaddr: failed to parse multiaddr not-a-multiaddr: must begin with /").
Proof.
  intros raw.
  refine (proj1 (@LoadJSON_malformed_endpoint RefLibs ∅ raw
                   (JObject [("prometheus_endpoint",
                              JString "not-a-multiaddr")])
                   MetricsConfig_zero
                   (jsonMetricsConfig.mk false "not-a-multiaddr" "")
                   "not-a-multiaddr"
                   (lib_error "multiaddr"
                      "failed to parse multiaddr not-a-multiaddr: must begin with /")
                   _ _ _ _ _)).
  - vm_compute. reflexivity.
  - vm_compute. reflexivity.
  - vm_compute. reflexivity.
  - apply no_overrides_empty.
  - vm_compute. reflexivity.
Defined.

(** C6 on a document with the interval "-5s". *)
Lemma LoadJSON_negative_interval_witness :
  let raw :=
    Ref.doc "{'enable_stats': true, 'prometheus_endpoint': '/ip4/127.0.0.1/tcp/9090', 'reporting_interval': '-5s'}" in
  ret (@MetricsConfig.LoadJSON RefLibs ∅ raw MetricsConfig_zero)
  = Some (errors_New "metrics.reporting_interval is invalid").
Proof.
  intros raw.
  refine (proj1 (@LoadJSON_negative_interval RefLibs ∅ raw
                   (JObject [("enable_stats", JBool true);
                             ("prometheus_endpoint",
                              JString "/ip4/127.0.0.1/tcp/9090");
                             ("reporting_interval", JString "-5s")])
                   MetricsConfig_zero
                   (jsonMetricsConfig.mk true "/ip4/127.0.0.1/tcp/9090" "-5s")
                   "/ip4/127.0.0.1/tcp/9090"
                   [Ref.ip4 127 0 0 1; Ref.tcp 9090] _ _ _ _ _ _ _ _)).
  - vm_compute. reflexivity.
  - vm_compute. reflexivity.
  - vm_compute. reflexivity.
  - vm_compute. reflexivity.
  - vm_compute. reflexivity.
  - apply no_overrides_empty.
  - vm_compute. reflexivity.
  - vm_compute. reflexivity.
Defined.

(** C1 on the documents of the specification's examples: what ToJSON
    prints for the loaded configs loads back to the same values. *)
Lemma LoadJSON_ToJSON_round_trip_witness :
  let raw_m :=
    Ref.doc "{'enable_stats': true, 'prometheus_endpoint': '/ip4/127.0.0.1/tcp/9090', 'reporting_interval': '5s'}" in
  let raw_t :=
    Ref.doc "{'enable_tracing': true, 'jaeger_agent_endpoint': '/ip4/0.0.0.0/udp/6831', 'sampling_prob': 0.3, 'service_name': 'cluster-daemon'}" in
  let m := recv (@MetricsConfig.LoadJSON RefLibs ∅ raw_m MetricsConfig_zero) in
  let t := recv (@TracingConfig.LoadJSON RefLibs ∅ raw_t TracingConfig_zero) in
  (exists bytes,
     ret (MetricsConfig.ToJSON m) = Returns (Ok bytes)
     /\ let r := MetricsConfig.LoadJSON ∅ bytes MetricsConfig_zero in
        ret r = None
        /\ MetricsConfig.EnableStats (recv r) = true
        /\ MetricsConfig.StatsReportingInterval (recv r) = (5 * Second)%Z)
  /\ (exists bytes,
        ret (TracingConfig.ToJSON t) = Returns (Ok bytes)
        /\ let r := TracingConfig.LoadJSON ∅ bytes TracingConfig_zero in
           ret r = None
           /\ TracingConfig.TracingSamplingProb (recv r)
              = DefaultTracingSamplingProb
           /\ TracingConfig.TracingServiceName (recv r) = "cluster-daemon").
Proof.
  intros raw_m raw_t m t.
  destruct (@LoadJSON_ToJSON_round_trip RefLibs ∅ raw_m raw_t
              MetricsConfig_zero MetricsConfig_zero
              TracingConfig_zero TracingConfig_zero) as [Hm Ht].
  split.
  - destruct Hm as (bytes & Hbytes & H1 & H2 & _ & H4).
    + apply no_overrides_empty.
    + vm_compute. reflexivity.
    + intros a Ha. vm_compute in Ha. injection Ha as <-.
      exists [Ref.ip4 127 0 0 1; Ref.tcp 9090]. vm_compute. split; reflexivity.
    + vm_compute. reflexivity.
    + intros a Ha. vm_compute in Ha. injection Ha as <-.
      vm_compute. reflexivity.
    + exists bytes. split; [exact Hbytes|]. cbv zeta.
      rewrite H1, H2, H4. vm_compute. repeat split; reflexivity.
  - destruct Ht as (bytes & Hbytes & H1 & _ & _ & H4 & H5).
    + apply no_overrides_empty.
    + vm_compute. reflexivity.
    + vm_compute. reflexivity.
    + intros a Ha. vm_compute in Ha. injection Ha as <-.
      exists [Ref.ip4 0 0 0 0; Ref.udp 6831]. vm_compute. split; reflexivity.
    + vm_compute. reflexivity.
    + intros a Ha. vm_compute in Ha. injection Ha as <-.
      vm_compute. reflexivity.
    + exists bytes. split; [exact Hbytes|]. cbv zeta.
      rewrite H1, H4, H5. vm_compute. repeat split; reflexivity.
Defined.

(** C3 as first stated fails.  A tracing document that gives only the
    agent endpoint, with nothing set in the environment, loads without
    error; sampling_prob and service_name are absent from the document
    and the environment, yet the loaded config holds 0 and the empty
    string, not the compiled defaults 0.3 and "cluster-daemon". *)
Lemma LoadJSON_default_does_not_survive :
  let raw := Ref.doc "{'jaeger_agent_endpoint': '/ip4/0.0.0.0/udp/6831'}" in
  let r := @TracingConfig.LoadJSON RefLibs ∅ raw TracingConfig_zero in
  Ref.json_scan raw
  = Ok (JObject [("jaeger_agent_endpoint", JString "/ip4/0.0.0.0/udp/6831")])
  /\ ret r = None
  /\ TracingConfig.TracingSamplingProb (recv r) = float64_zero
  /\ TracingConfig.TracingSamplingProb (recv r) <> DefaultTracingSamplingProb
  /\ TracingConfig.TracingServiceName (recv r) = ""
  /\ TracingConfig.TracingServiceName (recv r) <> DefaultTracingServiceName.
Proof. vm_compute. repeat split; discriminate. Qed.

(** C3 as amended, on two loads over the reference implementation: the
    variable wins over enable_stats=false, and an absent sampling_prob
    leaves 0. *)
Lemma LoadJSON_precedence_witness :
  let env : Env := {[ "CLUSTER_OBSERVATIONS_ENABLESTATS" := "true" ]} in
  let raw_m :=
    Ref.doc "{'enable_stats': false, 'prometheus_endpoint': '/ip4/127.0.0.1/tcp/9090', 'reporting_interval': '5s'}" in
  let raw_t := Ref.doc "{'jaeger_agent_endpoint': '/ip4/0.0.0.0/udp/6831'}" in
  MetricsConfig.EnableStats
    (recv (@MetricsConfig.LoadJSON RefLibs env raw_m MetricsConfig_zero))
  = true
  /\ TracingConfig.TracingSamplingProb
       (recv (@TracingConfig.LoadJSON RefLibs ∅ raw_t TracingConfig_zero))
     = float64_zero.
Proof.
  intros env raw_m raw_t. split.
  - destruct (@LoadJSON_precedence RefLibs env raw_m MetricsConfig_zero
                TracingConfig_zero) as (_ & _ & _ & Hexample).
    apply (Hexample "true").
    + vm_compute. reflexivity.
    + vm_compute. reflexivity.
    + vm_compute. reflexivity.
  - destruct (@LoadJSON_precedence RefLibs ∅ raw_t MetricsConfig_zero
                TracingConfig_zero) as (_ & _ & Habsent & _).
    refine (proj1 (Habsent
                     (JObject [("jaeger_agent_endpoint",
                                JString "/ip4/0.0.0.0/udp/6831")]) _ _) _ _).
    + vm_compute. reflexivity.
    + vm_compute. reflexivity.
    + vm_compute. reflexivity.
    + apply lookup_empty.
Defined.

(** *** The further properties on concrete loads *)

(** X1: a truncated document is logged and leaves the instance alone; a
    document that decodes but names a bad endpoint is not logged. *)
Lemma LoadJSON_logs_on_decode_failure_only_witness :
  let r := @MetricsConfig.LoadJSON RefLibs ∅ "{" MetricsConfig_zero in
  let raw := Ref.doc "{'prometheus_endpoint': 'not-a-multiaddr'}" in
  (logged r = ["Error unmarshaling observations config"]
   /\ recv r = MetricsConfig_zero)
  /\ logged (@MetricsConfig.LoadJSON RefLibs ∅ raw MetricsConfig_zero) = [].
Proof.
  intros r raw. split.
  - subst r.
    rewrite (proj1 (@LoadJSON_logs_on_decode_failure_only RefLibs ∅ "{"
                      MetricsConfig_zero TracingConfig_zero)
               (lib_error "json"
                  "json: invalid character or unexpected end of JSON input")
               eq_refl).
    split; reflexivity.
  - refine (proj1 (proj2 (@LoadJSON_logs_on_decode_failure_only RefLibs ∅ raw
                            MetricsConfig_zero TracingConfig_zero))
              (jsonMetricsConfig.mk false "not-a-multiaddr" "") _).
    vm_compute. reflexivity.
Defined.

(** X3: an instance that held an enabled config with a negative interval
    and a zero-valued one come out of the same load alike. *)
Lemma LoadJSON_forgets_the_receiver_witness :
  let raw :=
    Ref.doc "{'enable_stats': false, 'prometheus_endpoint': '/ip4/127.0.0.1/tcp/9090', 'reporting_interval': '5s'}" in
  let dirty : @MetricsConfig.t RefLibs :=
    MetricsConfig.mk (tt : @config_Saver RefLibs) true
      (Some [Ref.ip4 10 0 0 1; Ref.tcp 1]) (-7)%Z in
  let r1 := MetricsConfig.LoadJSON ∅ raw dirty in
  let r2 := MetricsConfig.LoadJSON ∅ raw MetricsConfig_zero in
  ret r1 = ret r2
  /\ MetricsConfig.EnableStats (recv r1) = MetricsConfig.EnableStats (recv r2)
  /\ MetricsConfig.PrometheusEndpoint (recv r1)
     = MetricsConfig.PrometheusEndpoint (recv r2)
  /\ MetricsConfig.StatsReportingInterval (recv r1)
     = MetricsConfig.StatsReportingInterval (recv r2).
Proof.
  intros raw dirty r1 r2.
  refine (proj1 (@LoadJSON_forgets_the_receiver RefLibs ∅ raw dirty
                   MetricsConfig_zero TracingConfig_zero TracingConfig_zero)
            (jsonMetricsConfig.mk false "/ip4/127.0.0.1/tcp/9090" "5s") _).
  vm_compute. reflexivity.
Defined.

(** X6: with the reference address parser ToJSON after Default returns;
    with the parser that rejects everything Default still returns nil and
    ToJSON after it panics. *)
Lemma ToJSON_after_Default_witness :
  (exists bytes,
     ret (MetricsConfig.ToJSON
            (recv (@MetricsConfig.Default RefLibs MetricsConfig_zero)))
     = Returns (Ok bytes))
  /\ (let m : @MetricsConfig.t NoProtocolLibs :=
        MetricsConfig.mk (tt : @config_Saver NoProtocolLibs) false None 0%Z in
      ret (MetricsConfig.Default m) = None
      /\ ret (MetricsConfig.ToJSON (recv (MetricsConfig.Default m)))
         = Panics nil_dereference).
Proof.
  split.
  - eexists.
    refine (proj1 (@ToJSON_after_Default RefLibs MetricsConfig_zero
                     TracingConfig_zero)
              [Ref.ip4 0 0 0 0; Ref.tcp 8888] _).
    vm_compute. reflexivity.
  - intros m.
    destruct (proj1 (proj2 (@ToJSON_after_Default NoProtocolLibs m
                              (TracingConfig.mk
                                 (tt : @config_Saver NoProtocolLibs) false
                                 None float64_zero "")))
                (Ref.ma_error DefaultPrometheusEndpoint
                   "no protocols registered") eq_refl)
      as (Hret & _ & Hpanic).
    exact (conj Hret Hpanic).
Defined.

(** X9: the end-to-end document loads to a usable config. *)
Lemma loaded_config_is_usable_witness :
  let raw :=
    Ref.doc "{'enable_stats': true, 'prometheus_endpoint': '/ip4/127.0.0.1/tcp/9090', 'reporting_interval': '5s'}" in
  let c := recv (@MetricsConfig.LoadJSON RefLibs ∅ raw MetricsConfig_zero) in
  ret (MetricsConfig.Validate c) = None
  /\ is_Some (MetricsConfig.PrometheusEndpoint c)
  /\ exists bytes, ret (MetricsConfig.ToJSON c) = Returns (Ok bytes).
Proof.
  intros raw c.
  refine (proj1 (@loaded_config_is_usable RefLibs ∅ raw MetricsConfig_zero
                   TracingConfig_zero) _).
  vm_compute. reflexivity.
Defined.

(** X10: ENABLESTATS=maybe; the document's values are not applied. *)
Lemma LoadJSON_rejected_variable_leaves_defaults_witness :
  let env : Env := {[ "CLUSTER_OBSERVATIONS_ENABLESTATS" := "maybe" ]} in
  let raw :=
    Ref.doc "{'enable_stats': true, 'prometheus_endpoint': '/ip4/127.0.0.1/tcp/9090', 'reporting_interval': '5s'}" in
  let r := @MetricsConfig.LoadJSON RefLibs env raw MetricsConfig_zero in
  is_Some (ret r)
  /\ MetricsConfig.EnableStats (recv r) = false
  /\ MetricsConfig.PrometheusEndpoint (recv r)
     = Some [Ref.ip4 0 0 0 0; Ref.tcp 8888]
  /\ MetricsConfig.StatsReportingInterval (recv r) = (2 * Second)%Z.
Proof.
  intros env raw r. subst r.
  erewrite (proj1 (@LoadJSON_rejected_variable_leaves_defaults RefLibs env raw
                     MetricsConfig_zero TracingConfig_zero)
              (jsonMetricsConfig.mk true "/ip4/127.0.0.1/tcp/9090" "5s")).
  - split; [by eexists|]. vm_compute. repeat split; reflexivity.
  - vm_compute. reflexivity.
  - vm_compute. reflexivity.
Defined.

(** X12: the interval 5x has no such unit. *)
Lemma LoadJSON_rejected_interval_witness :
  let raw :=
    Ref.doc "{'enable_stats': true, 'prometheus_endpoint': '/ip4/127.0.0.1/tcp/9090', 'reporting_interval': '5x'}" in
  let r := @MetricsConfig.LoadJSON RefLibs ∅ raw MetricsConfig_zero in
  ret r = Some (lib_error "time" "time: unknown unit x in duration 5x")
  /\ MetricsConfig.EnableStats (recv r) = true
  /\ MetricsConfig.StatsReportingInterval (recv r) = (2 * Second)%Z.
Proof.
  intros raw r. subst r.
  rewrite (@LoadJSON_rejected_interval RefLibs ∅ raw MetricsConfig_zero
             (jsonMetricsConfig.mk true "/ip4/127.0.0.1/tcp/9090" "5x")
             (jsonMetricsConfig.mk true "/ip4/127.0.0.1/tcp/9090" "5x")
             [Ref.ip4 127 0 0 1; Ref.tcp 9090]
             (lib_error "time" "time: unknown unit x in duration 5x")
             (2 * Second)%Z).
  - repeat split.
  - vm_compute. reflexivity.
  - vm_compute. reflexivity.
  - vm_compute. reflexivity.
  - vm_compute. reflexivity.
Defined.

(** X13: enable_stats true with a bad endpoint; the load fails and the
    instance left behind is enabled, at the default endpoint, and passes
    Validate. *)
Lemma LoadJSON_rejected_endpoint_leaves_valid_looking_witness :
  let raw :=
    Ref.doc "{'enable_stats': true, 'prometheus_endpoint': 'not-a-multiaddr', 'reporting_interval': '5s'}" in
  let r := @MetricsConfig.LoadJSON RefLibs ∅ raw MetricsConfig_zero in
  is_Some (ret r)
  /\ recv r
     = MetricsConfig.mk (tt : @config_Saver RefLibs) true
         (Some [Ref.ip4 0 0 0 0; Ref.tcp 8888]) (2 * Second)%Z
  /\ ret (MetricsConfig.Validate (recv r)) = None.
Proof.
  intros raw r.
  refine (proj1 (@LoadJSON_rejected_endpoint_leaves_valid_looking RefLibs ∅
                   raw MetricsConfig_zero TracingConfig_zero)
            (jsonMetricsConfig.mk true "not-a-multiaddr" "5s")
            (jsonMetricsConfig.mk true "not-a-multiaddr" "5s")
            (lib_error "multiaddr"
               "failed to parse multiaddr not-a-multiaddr: must begin with /")
            [Ref.ip4 0 0 0 0; Ref.tcp 8888] _ _ _ _).
  - vm_compute. reflexivity.
  - vm_compute. reflexivity.
  - vm_compute. reflexivity.
  - vm_compute. reflexivity.
Defined.

(** X14: a config with a negative interval prints, and loading the print
    returns what Validate says of the config; likewise a tracing config
    with probability -0.5. *)
Lemma LoadJSON_of_ToJSON_is_Validate_witness :
  let c : @MetricsConfig.t RefLibs :=
    MetricsConfig.mk (tt : @config_Saver RefLibs) true
      (Some [Ref.ip4 127 0 0 1; Ref.tcp 9090]) (-5 * Second)%Z in
  let tc : @TracingConfig.t RefLibs :=
    TracingConfig.mk (tt : @config_Saver RefLibs) true
      (Some [Ref.ip4 0 0 0 0; Ref.udp 6831])
      (S754_finite true 4503599627370496 (-53)) "cluster-daemon" in
  (exists bytes,
     ret (MetricsConfig.ToJSON c) = Returns (Ok bytes)
     /\ ret (MetricsConfig.LoadJSON ∅ bytes MetricsConfig_zero)
        = Some (errors_New "metrics.reporting_interval is invalid"))
  /\ (exists bytes,
        ret (TracingConfig.ToJSON tc) = Returns (Ok bytes)
        /\ ret (TracingConfig.LoadJSON ∅ bytes TracingConfig_zero)
           = Some (errors_New "tracing.sampling_prob is invalid")).
Proof.
  intros c tc.
  destruct (@LoadJSON_of_ToJSON_is_Validate RefLibs ∅ c MetricsConfig_zero
              tc TracingConfig_zero
              [Ref.ip4 127 0 0 1; Ref.tcp 9090]
              [Ref.ip4 0 0 0 0; Ref.udp 6831]) as [Hm Ht].
  split.
  - destruct Hm as (Hbytes & Hret & _).
    + reflexivity.
    + apply no_overrides_empty.
    + exists [Ref.ip4 127 0 0 1; Ref.tcp 9090]. vm_compute. split; reflexivity.
    + vm_compute. reflexivity.
    + vm_compute. reflexivity.
    + eexists. split; [exact Hbytes|]. rewrite Hret. vm_compute. reflexivity.
  - destruct Ht as (Hbytes & Hret & _).
    + reflexivity.
    + apply no_overrides_empty.
    + vm_compute. reflexivity.
    + exists [Ref.ip4 0 0 0 0; Ref.udp 6831]. vm_compute. split; reflexivity.
    + vm_compute. reflexivity.
    + vm_compute. reflexivity.
    + eexists. split; [exact Hbytes|]. rewrite Hret. vm_compute. reflexivity.
Defined.

(** X16: a variable of the tracing section, even one the tracing load
    would reject, does not reach the metrics load. *)
Lemma LoadJSON_reads_its_own_variables_witness :
  let env : Env := {[ "CLUSTER_OBSERVATIONS_ENABLETRACING" := "maybe" ]} in
  let raw :=
    Ref.doc "{'enable_stats': true, 'prometheus_endpoint': '/ip4/127.0.0.1/tcp/9090', 'reporting_interval': '5s'}" in
  @MetricsConfig.LoadJSON RefLibs env raw MetricsConfig_zero
  = MetricsConfig.LoadJSON ∅ raw MetricsConfig_zero.
Proof.
  intros env raw.
  apply (proj1 (@LoadJSON_reads_its_own_variables RefLibs env ∅ raw
                  MetricsConfig_zero TracingConfig_zero)).
  - vm_compute. reflexivity.
  - vm_compute. reflexivity.
  - vm_compute. reflexivity.
Defined.

(** X17: a metrics document without prometheus_endpoint is rejected under
    the reference parser, which refuses the empty string; a tracing
    document without jaeger_agent_endpoint loads under the parser that
    reads the empty string as the empty address, and the endpoint loaded
    is that empty address, not the default one. *)
Lemma LoadJSON_missing_endpoint_parses_empty_string_witness :
  let raw_m := Ref.doc "{'enable_stats': true, 'reporting_interval': '5s'}" in
  let raw_t :=
    Ref.doc "{'enable_tracing': true, 'service_name': 'cluster-daemon'}" in
  is_Some (ret (@MetricsConfig.LoadJSON RefLibs ∅ raw_m MetricsConfig_zero))
  /\ (let t : @TracingConfig.t EmptyAddressLibs :=
        TracingConfig.mk (tt : @config_Saver EmptyAddressLibs) false None
          float64_zero "" in
      let r := TracingConfig.LoadJSON ∅ raw_t t in
      ret r = None
      /\ TracingConfig.JaegerAgentEndpoint (recv r)
         = Some ([] : list Ref.component)).
Proof.
  intros raw_m raw_t. split.
  - refine (proj1 (proj2 (proj1 (@LoadJSON_missing_endpoint_parses_empty_string
                                   RefLibs ∅ raw_m
                                   (JObject
                                      [("enable_stats", JBool true);
                                       ("reporting_interval", JString "5s")])
                                   MetricsConfig_zero TracingConfig_zero _)
                            _ _))
              (lib_error "multiaddr"
                 "failed to parse multiaddr : empty multiaddr") _).
    + vm_compute. reflexivity.
    + vm_compute. reflexivity.
    + apply lookup_empty.
    + vm_compute. reflexivity.
  - intros t r.
    assert (ret r = None) as Hret by (vm_compute; reflexivity).
    split; [exact Hret|]. subst r. cbv zeta.
    assert (@json_scan EmptyAddressLibs raw_t
            = Ok (JObject
                    [("enable_tracing", JBool true);
                     ("service_name", JString "cluster-daemon")])) as Hscan
      by (vm_compute; reflexivity).
    assert (@last_for EmptyAddressLibs _ jsonTracingConfig.fields
              (members_of
                 (JObject
                    [("enable_tracing", JBool true);
                     ("service_name", JString "cluster-daemon")]))
              "JaegerAgentEndpoint" = None) as Habsent
      by (vm_compute; reflexivity).
    destruct (proj2 (proj2 (proj2 (@LoadJSON_missing_endpoint_parses_empty_string
                                     EmptyAddressLibs ∅ raw_t _
                                     (MetricsConfig.mk
                                        (tt : @config_Saver EmptyAddressLibs)
                                        false None 0%Z)
                                     t Hscan)
                              Habsent (lookup_empty _))) Hret)
      as (a & Ha & Hend).
    vm_compute in Ha. injection Ha as <-. exact Hend.
Defined.
